(** * ScreenTone: preset and preference state management

    A shallow embedding of [src/main.py] (class [ScreenToneApp]).  The
    window object is a record [state]; every slot of the class is a
    function on it.  The toolkit objects the slots talk to are modelled
    as far as the slots observe them:

    - a [QSlider] with range 0..100 is its current value; [setValue]
      takes a C [int], raises [OverflowError] for an integer outside
      that type and bounds any other value to the range;
    - the [QComboBox] is its list of items, its current index and its
      [blockSignals] flag; whenever the current index changes and the
      signals are not blocked, the connected slot
      [apply_selected_preset] runs;
    - a [QTimer] is a record in a store of timer objects; the dictionary
      [brightness_update_timers] maps a monitor index to the position of
      its latest timer in that store;
    - the files under the application directory are finite maps from
      file name to parsed content. *)

From Stdlib Require Import ZArith Lia.
From stdpp Require Import gmap strings list fin_maps sorting.

Local Open Scope Z_scope.
Local Open Scope nat_scope.

(** ** Strings and paths *)

Definition UnsavedPreset : string := "UnsavedPreset".
Definition json_suffix : string := ".json".

(** [s.endswith(suf)]: some tail of [s] is [suf]. *)
Fixpoint endswith (s suf : string) : bool :=
  if String.eqb s suf then true
  else match s with
       | EmptyString => false
       | String _ s' => endswith s' suf
       end.

(** The directory part of a path chosen in the save dialog: the presets
    directory (where the dialog opens), the restore directory, the
    application directory [appdata_path] above both, which also holds
    the preferences file, or any other directory. *)
Inductive folder :=
  | InPresetsDir
  | InRestoreDir
  | InAppDataDir
  | Outside (dir : string).

Global Instance folder_eq_dec : EqDecision folder.
Proof. solve_decision. Defined.

(** The base name of [self.prefs_file]. *)
Definition prefs_name : string := "user_prefs.json".

(** [self.appdata_path]: the directory under which [elsewhere] keeps the
    other files of the application directory. *)
Definition appdata_path : string := "%LOCALAPPDATA%/ScreenTone".

(** A path is a directory and a base name; [os.path.basename] returns the
    second component and [path + ".json"] extends it. *)
Definition path : Type := folder * string.

Definition basename (p : path) : string := p.2.

Definition with_json_suffix (p : path) : path :=
  if endswith p.2 json_suffix then p else (p.1, String.app p.2 json_suffix).

(** ** Files *)

(** What [json.load] makes of a preset file: an array of integers, or an
    exception (malformed JSON, unreadable file). *)
Inductive preset_file :=
  | Levels (values : list Z)
  | Malformed.

Global Instance preset_file_eq_dec : EqDecision preset_file.
Proof. solve_decision. Defined.

(** The preferences object [{"window_position": .., "brightness_levels": ..}];
    a missing key is [None]. *)
Record prefs := {
  window_position : option (Z * Z);
  brightness_levels : option (list Z)
}.

Inductive prefs_content :=
  | PrefsObject (p : prefs)
  | PrefsMalformed.

Record filesystem := {
  presets_dir : gmap string preset_file;
  preset_restore_dir : gmap string preset_file;
  elsewhere : gmap (string * string) preset_file;
  prefs_file : option prefs_content
}.

(** Read as a preset, the preferences file never gives a list of
    integers: its content is an object or malformed. *)
Definition read_file (p : path) (f : filesystem) : option preset_file :=
  match p.1 with
  | InPresetsDir => presets_dir f !! p.2
  | InRestoreDir => preset_restore_dir f !! p.2
  | InAppDataDir =>
      if decide (p.2 = prefs_name)
      then match prefs_file f with
           | Some _ => Some Malformed
           | None => None
           end
      else elsewhere f !! (appdata_path, p.2)
  | Outside d => elsewhere f !! (d, p.2)
  end.

(** [open(p, "w")] and [json.dump] of a list.  Written over the
    preferences file, the list (or the truncated rest of it) is no
    preferences object any more: [prefs.get] raises on it. *)
Definition write_file (p : path) (c : preset_file) (f : filesystem) : filesystem :=
  match p.1 with
  | InAppDataDir =>
      if decide (p.2 = prefs_name)
      then {| presets_dir := presets_dir f;
              preset_restore_dir := preset_restore_dir f;
              elsewhere := elsewhere f;
              prefs_file := Some PrefsMalformed |}
      else {| presets_dir := presets_dir f;
              preset_restore_dir := preset_restore_dir f;
              elsewhere := <[(appdata_path, p.2) := c]> (elsewhere f);
              prefs_file := prefs_file f |}
  | InPresetsDir =>
      {| presets_dir := <[p.2 := c]> (presets_dir f);
         preset_restore_dir := preset_restore_dir f;
         elsewhere := elsewhere f;
         prefs_file := prefs_file f |}
  | InRestoreDir =>
      {| presets_dir := presets_dir f;
         preset_restore_dir := <[p.2 := c]> (preset_restore_dir f);
         elsewhere := elsewhere f;
         prefs_file := prefs_file f |}
  | Outside d =>
      {| presets_dir := presets_dir f;
         preset_restore_dir := preset_restore_dir f;
         elsewhere := <[(d, p.2) := c]> (elsewhere f);
         prefs_file := prefs_file f |}
  end.

(** [shutil.move(presets_dir/name, preset_restore_dir/name)]: the file
    leaves the presets directory and its content appears, unchanged, in
    the restore directory (replacing a file of that name there). *)
Definition move_to_restore (name : string) (f : filesystem) : filesystem :=
  match presets_dir f !! name with
  | Some c =>
      {| presets_dir := delete name (presets_dir f);
         preset_restore_dir := <[name := c]> (preset_restore_dir f);
         elsewhere := elsewhere f;
         prefs_file := prefs_file f |}
  | None => f
  end.

(** [os.listdir]: the names in a directory, in no particular order. *)
Definition listdir (dir : gmap string preset_file) : list string :=
  (map_to_list dir).*1.

(** The body of the scan in [load_presets]: keep the names ending in
    [".json"], then [list.sort()]. *)
Definition scan_presets (f : filesystem) : list string :=
  merge_sort String.le
    (filter (λ file, endswith file json_suffix = true) (listdir (presets_dir f))).

(** ** Toolkit objects *)

(** [QAbstractSlider.setValue] bounds its argument to [minimum, maximum];
    the sliders are created with [setMinimum(0)] and [setMaximum(100)]. *)
Definition bound (v : Z) : Z := Z.max 0 (Z.min 100 v).

(** The parameter of [setValue] is a C [int]: the binding converts the
    Python integer and raises [OverflowError] when it does not fit. *)
Definition c_int (v : Z) : Prop := (-2147483648 ≤ v ≤ 2147483647)%Z.

Global Instance c_int_dec v : Decision (c_int v).
Proof. unfold c_int. apply _. Defined.

Record QComboBox := {
  items : list string;
  currentIndex : option nat;     (* [None] is Qt's index -1 *)
  signalsBlocked : bool
}.

Definition currentText (d : QComboBox) : string :=
  match currentIndex d with
  | Some i => default EmptyString (items d !! i)
  | None => EmptyString
  end.

(** [findText]: position of the first item equal to [text]. *)
Definition findText (text : string) (d : QComboBox) : option nat :=
  fst <$> list_find (λ it, it = text) (items d).

(** A single-shot timer created by [monitor_slider_changed]; its callback
    is [set_brightness(t_idx, t_val)]. *)
Record QTimer := {
  t_deadline : nat;
  t_idx : nat;
  t_val : Z;
  t_active : bool
}.

Definition stop (t : QTimer) : QTimer :=
  {| t_deadline := t_deadline t; t_idx := t_idx t; t_val := t_val t;
     t_active := false |}.

(** A [BrightnessWorker]: its [run] calls
    [sbc.set_brightness(value, display=monitor_index)]. *)
Record BrightnessWorker := {
  monitor_index : nat;
  value : Z
}.

Global Instance BrightnessWorker_eq_dec : EqDecision BrightnessWorker.
Proof. solve_decision. Defined.

(** ** The application object *)

Record state := {
  fs : filesystem;
  monitor_sliders : list Z;
  brightness_threads : list BrightnessWorker;  (* workers in flight *)
  sbc_calls : list BrightnessWorker;           (* every worker started, oldest first *)
  is_preset_saved : bool;
  presets_list : list string;
  dropdown : QComboBox;
  timers : list QTimer;                        (* the timer objects, by creation order *)
  brightness_update_timers : gmap nat nat;     (* monitor index -> position in [timers] *)
  now : nat                                    (* the clock, in milliseconds *)
}.

Definition set_fs (f : filesystem) (s : state) : state :=
  {| fs := f; monitor_sliders := monitor_sliders s;
     brightness_threads := brightness_threads s; sbc_calls := sbc_calls s;
     is_preset_saved := is_preset_saved s; presets_list := presets_list s;
     dropdown := dropdown s; timers := timers s;
     brightness_update_timers := brightness_update_timers s; now := now s |}.

Definition set_monitor_sliders (l : list Z) (s : state) : state :=
  {| fs := fs s; monitor_sliders := l;
     brightness_threads := brightness_threads s; sbc_calls := sbc_calls s;
     is_preset_saved := is_preset_saved s; presets_list := presets_list s;
     dropdown := dropdown s; timers := timers s;
     brightness_update_timers := brightness_update_timers s; now := now s |}.

Definition set_is_preset_saved (b : bool) (s : state) : state :=
  {| fs := fs s; monitor_sliders := monitor_sliders s;
     brightness_threads := brightness_threads s; sbc_calls := sbc_calls s;
     is_preset_saved := b; presets_list := presets_list s;
     dropdown := dropdown s; timers := timers s;
     brightness_update_timers := brightness_update_timers s; now := now s |}.

Definition set_presets_list (l : list string) (s : state) : state :=
  {| fs := fs s; monitor_sliders := monitor_sliders s;
     brightness_threads := brightness_threads s; sbc_calls := sbc_calls s;
     is_preset_saved := is_preset_saved s; presets_list := l;
     dropdown := dropdown s; timers := timers s;
     brightness_update_timers := brightness_update_timers s; now := now s |}.

Definition set_dropdown (d : QComboBox) (s : state) : state :=
  {| fs := fs s; monitor_sliders := monitor_sliders s;
     brightness_threads := brightness_threads s; sbc_calls := sbc_calls s;
     is_preset_saved := is_preset_saved s; presets_list := presets_list s;
     dropdown := d; timers := timers s;
     brightness_update_timers := brightness_update_timers s; now := now s |}.

Definition set_timers (ts : list QTimer) (m : gmap nat nat) (s : state) : state :=
  {| fs := fs s; monitor_sliders := monitor_sliders s;
     brightness_threads := brightness_threads s; sbc_calls := sbc_calls s;
     is_preset_saved := is_preset_saved s; presets_list := presets_list s;
     dropdown := dropdown s; timers := ts;
     brightness_update_timers := m; now := now s |}.

Definition set_now (t : nat) (s : state) : state :=
  {| fs := fs s; monitor_sliders := monitor_sliders s;
     brightness_threads := brightness_threads s; sbc_calls := sbc_calls s;
     is_preset_saved := is_preset_saved s; presets_list := presets_list s;
     dropdown := dropdown s; timers := timers s;
     brightness_update_timers := brightness_update_timers s; now := t |}.

(** [__init__], before the deferred [load_monitors]. *)
Definition initial (f : filesystem) : state :=
  {| fs := f; monitor_sliders := []; brightness_threads := []; sbc_calls := [];
     is_preset_saved := true; presets_list := [];
     dropdown := {| items := []; currentIndex := None; signalsBlocked := false |};
     timers := []; brightness_update_timers := ∅; now := 0 |}.

(** ** Brightness workers *)

Definition set_brightness (idx : nat) (v : Z) (s : state) : state :=
  let worker := {| monitor_index := idx; value := v |} in
  {| fs := fs s; monitor_sliders := monitor_sliders s;
     brightness_threads := brightness_threads s ++ [worker];
     sbc_calls := sbc_calls s ++ [worker];
     is_preset_saved := is_preset_saved s; presets_list := presets_list s;
     dropdown := dropdown s; timers := timers s;
     brightness_update_timers := brightness_update_timers s; now := now s |}.

Fixpoint remove_first (w : BrightnessWorker) (l : list BrightnessWorker) :=
  match l with
  | [] => []
  | x :: l' => if decide (x = w) then l' else x :: remove_first w l'
  end.

Definition cleanup_thread (w : BrightnessWorker) (s : state) : state :=
  {| fs := fs s; monitor_sliders := monitor_sliders s;
     brightness_threads := remove_first w (brightness_threads s);
     sbc_calls := sbc_calls s;
     is_preset_saved := is_preset_saved s; presets_list := presets_list s;
     dropdown := dropdown s; timers := timers s;
     brightness_update_timers := brightness_update_timers s; now := now s |}.

(** The brightness-set calls issued so far for one display. *)
Definition calls_for (i : nat) (s : state) : list BrightnessWorker :=
  filter (λ w, monitor_index w = i) (sbc_calls s).

(** ** Applying a sequence of levels to the sliders *)

(** A piece of code either returns or raises; in both cases the state
    carries what it has done so far. *)
Inductive outcome :=
  | Returned (s : state)
  | Raised (s : state).

(** [monitor_sliders[i].setValue(v)] with the slider's signals blocked;
    indexing past the end of the list raises [IndexError], a value that
    is no C [int] raises [OverflowError] and leaves the slider as it
    was. *)
Definition slider_setValue (i : nat) (v : Z) (s : state) : outcome :=
  match monitor_sliders s !! i with
  | Some _ =>
      if decide (c_int v)
      then Returned (set_monitor_sliders (<[i := bound v]> (monitor_sliders s)) s)
      else Raised s
  | None => Raised s
  end.

(** The loop [for i, value in enumerate(values): if i < len(sliders): ...]
    shared by [apply_selected_preset] and [load_user_prefs]; [i] is the
    index of the head of [values].  When [setValue] raises, the loop is
    left at once: the worker of that display is not started and the
    later values are not looked at. *)
Fixpoint apply_levels (i : nat) (values : list Z) (s : state) : outcome :=
  match values with
  | [] => Returned s
  | v :: rest =>
      if decide (i < length (monitor_sliders s))
      then match slider_setValue i v s with
           | Returned s1 => apply_levels (S i) rest (set_brightness i v s1)
           | Raised s1 => Raised s1
           end
      else apply_levels (S i) rest s
  end.

(** The state the loop ends in when no step raises. *)
Fixpoint levels_applied (i : nat) (values : list Z) (s : state) : state :=
  match values with
  | [] => s
  | v :: rest =>
      levels_applied (S i) rest
        (if decide (i < length (monitor_sliders s))
         then set_brightness i v
                (set_monitor_sliders (<[i := bound v]> (monitor_sliders s)) s)
         else s)
  end.

Definition apply_selected_preset (s : state) : state :=
  let preset_name := currentText (dropdown s) in
  if decide (preset_name = EmptyString ∨ preset_name = UnsavedPreset) then s
  else match presets_dir (fs s) !! preset_name with
       | Some (Levels values) =>
           match apply_levels 0 values s with
           | Returned s1 => set_is_preset_saved true s1
           | Raised s1 => s1                  (* [except: pass] *)
           end
       | Some Malformed | None => s           (* [except: pass] *)
       end.

(** ** The dropdown, with its [currentIndexChanged] connection *)

Definition blockSignals (b : bool) (s : state) : state :=
  set_dropdown {| items := items (dropdown s);
                  currentIndex := currentIndex (dropdown s);
                  signalsBlocked := b |} s.

(** Replace items and index; if the index changed and signals are not
    blocked, the slot connected in [init_ui] runs. *)
Definition dropdown_update (its : list string) (idx : option nat) (s : state) : state :=
  let d := dropdown s in
  let s' := set_dropdown {| items := its; currentIndex := idx;
                            signalsBlocked := signalsBlocked d |} s in
  if decide (idx = currentIndex d) then s'
  else if signalsBlocked d then s'
  else apply_selected_preset s'.

Definition dropdown_clear (s : state) : state :=
  dropdown_update [] None s.

(** [addItem]: appended at the end; an empty box selects its first item. *)
Definition dropdown_addItem (text : string) (s : state) : state :=
  let d := dropdown s in
  match items d with
  | [] => dropdown_update [text] (Some 0) s
  | _ :: _ => dropdown_update (items d ++ [text]) (currentIndex d) s
  end.

Definition dropdown_setCurrentIndex (i : nat) (s : state) : state :=
  let d := dropdown s in
  dropdown_update (items d)
    (if decide (i < length (items d)) then Some i else None) s.

Definition dropdown_setCurrentText (text : string) (s : state) : state :=
  match findText text (dropdown s) with
  | Some i => dropdown_setCurrentIndex i s
  | None => s
  end.

Definition dropdown_addItems (l : list string) (s : state) : state :=
  foldl (λ acc preset, dropdown_addItem preset acc) s l.

(** ** Slots *)

Definition load_presets (s : state) : state :=
  let s1 := set_presets_list [] s in
  let s2 := dropdown_clear s1 in
  let s3 := set_presets_list (scan_presets (fs s2)) s2 in
  dropdown_addItems (presets_list s3) s3.

(** The block that appears in [monitor_slider_changed],
    [delete_selected_preset] and [load_user_prefs]: clear the dropdown,
    put the sentinel first, then the presets, select index 0. *)
Definition show_unsaved (s : state) : state :=
  dropdown_setCurrentIndex 0
    (dropdown_addItems (presets_list s)
       (dropdown_addItem UnsavedPreset (dropdown_clear s))).

(** The second half of [monitor_slider_changed]: stop the timer the
    dictionary holds for the display, if any, create a single-shot timer
    for [set_brightness(idx, v)], start it with 50 ms and store it in the
    dictionary. *)
Definition start_timer (idx : nat) (v : Z) (s : state) : state :=
  let stopped :=
    match brightness_update_timers s !! idx with
    | Some k => alter stop k (timers s)
    | None => timers s
    end in
  let timer := {| t_deadline := now s + 50; t_idx := idx; t_val := v;
                  t_active := true |} in
  set_timers (stopped ++ [timer])
             (<[idx := length stopped]> (brightness_update_timers s)) s.

Definition monitor_slider_changed (idx : nat) (v : Z) (s : state) : state :=
  let s1 :=
    if is_preset_saved s
    then blockSignals false
           (show_unsaved (blockSignals true (set_is_preset_saved false s)))
    else s in
  start_timer idx v s1.

Definition reset_sliders_to_default (s : state) : state :=
  let default_value := 50%Z in
  let s1 := set_monitor_sliders ((λ _, bound default_value) <$> monitor_sliders s) s in
  foldl (λ acc idx, set_brightness idx default_value acc) s1
        (seq 0 (length (monitor_sliders s1))).

(** [move_ok] tells whether [shutil.move] succeeds; when it raises, the
    [except: pass] swallows the error and the files are as before. *)
Definition delete_selected_preset (move_ok : bool) (s : state) : state :=
  let preset_name := currentText (dropdown s) in
  if decide (preset_name ≠ EmptyString ∧ preset_name ≠ UnsavedPreset) then
    match presets_dir (fs s) !! preset_name with
    | Some _ =>
        let s1 := if move_ok then set_fs (move_to_restore preset_name (fs s)) s
                  else s in
        let s2 := load_presets s1 in
        let s3 := reset_sliders_to_default s2 in
        let s4 := blockSignals false (show_unsaved (blockSignals true s3)) in
        set_is_preset_saved false s4
    | None => s
    end
  else s.

(** How [open(.., "w")] followed by [json.dump] ends. *)
Inductive write_outcome :=
  | WriteOk
  | OpenRaises          (* [open] raises: nothing is written *)
  | DumpRaises.         (* the file was truncated, [json.dump] raised midway *)

(** Whether a save through the dialog writes over the preferences file:
    the chosen path, with its suffix, is that file and [open] succeeds. *)
Definition overwrites_prefs (dialog : option path) (w : write_outcome) : bool :=
  match dialog, w with
  | Some preset_name, (WriteOk | DumpRaises) =>
      bool_decide (with_json_suffix preset_name = (InAppDataDir, prefs_name))
  | _, _ => false
  end.

(** [dialog] is the result of [QFileDialog.getSaveFileName]: [None] for
    the empty string (dialog cancelled). *)
Definition save_current_preset (dialog : option path) (w : write_outcome)
    (s : state) : outcome :=
  match dialog with
  | None => Returned s
  | Some preset_name =>
      let data := monitor_sliders s in
      let target := with_json_suffix preset_name in
      match w with
      | OpenRaises => Raised s
      | DumpRaises => Raised (set_fs (write_file target Malformed (fs s)) s)
      | WriteOk =>
          let s1 := set_fs (write_file target (Levels data) (fs s)) s in
          let s2 := set_is_preset_saved true s1 in
          let s3 := load_presets s2 in
          let base := basename preset_name in
          Returned (blockSignals false
                      (dropdown_setCurrentText base (blockSignals true s3)))
      end
  end.

(** [save_user_prefs]: the same kind of write, for the preferences file,
    inside [try: ... except: pass]; [pos] is the window position. *)
Definition save_user_prefs (pos : Z * Z) (w : write_outcome) (s : state)
    : outcome :=
  let prefs := {| window_position := Some pos;
                  brightness_levels := Some (monitor_sliders s) |} in
  let written c :=
    {| presets_dir := presets_dir (fs s);
       preset_restore_dir := preset_restore_dir (fs s);
       elsewhere := elsewhere (fs s);
       prefs_file := Some c |} in
  match w with
  | WriteOk => Returned (set_fs (written (PrefsObject prefs)) s)
  | OpenRaises => Returned s
  | DumpRaises => Returned (set_fs (written PrefsMalformed) s)
  end.

(** The search loop of [load_user_prefs]: the first preset of the list
    whose file parses to a value equal to [levels]; unreadable files are
    skipped ([except: pass]). *)
Fixpoint find_matching_preset (f : filesystem) (levels : list Z)
    (l : list string) : option string :=
  match l with
  | [] => None
  | preset_file :: rest =>
      match presets_dir f !! preset_file with
      | Some (Levels preset_values) =>
          if decide (preset_values = levels) then Some preset_file
          else find_matching_preset f levels rest
      | Some Malformed | None => find_matching_preset f levels rest
      end
  end.

Definition load_user_prefs (s : state) : state :=
  match prefs_file (fs s) with
  | None => s
  | Some PrefsMalformed => s
  | Some (PrefsObject p) =>
      let levels := default [] (brightness_levels p) in
      let matched_preset := find_matching_preset (fs s) levels (presets_list s) in
      match apply_levels 0 levels s with
      | Raised s1 => s1                       (* [except: pass] *)
      | Returned s1 =>
          let s2 := blockSignals true s1 in
          let s3 :=
            match matched_preset with
            | Some m =>
                if decide (m ≠ EmptyString)
                then set_is_preset_saved true (dropdown_setCurrentText m s2)
                else set_is_preset_saved false (show_unsaved s2)
            | None => set_is_preset_saved false (show_unsaved s2)
            end in
          blockSignals false s3
      end
  end.

(** [load_monitors]: [hw] is what the brightness adapter reports, one
    level per display; [None] when [sbc.list_monitors] raises, which is
    before anything else has run.  When [sbc.get_brightness] raises for
    display [k], the presets are loaded and the sliders of the displays
    before [k] exist: the state is that of [Some] of the first [k]
    levels, and [load_user_prefs] is not scheduled. *)
Definition load_monitors (hw : option (list Z)) (s : state) : state :=
  match hw with
  | None => s
  | Some levels =>
      let s1 := load_presets s in
      set_monitor_sliders (bound <$> levels) s1
  end.

(** Start of the application: [load_monitors] runs from a single-shot
    timer and schedules [load_user_prefs] in the same way. *)
Definition startup (hw : list Z) (f : filesystem) : state :=
  load_user_prefs (load_monitors (Some hw) (initial f)).

(** ** Time and user events *)

(** A timer is due when it is active and its interval has passed. *)
Definition due (t_now : nat) (t : QTimer) : Prop :=
  t_active t = true ∧ t_deadline t ≤ t_now.

Global Instance due_dec t_now t : Decision (due t_now t).
Proof. unfold due. apply _. Defined.

(** Timers fire in the order of their deadlines. *)
Definition earlier (a b : QTimer) : Prop := t_deadline a ≤ t_deadline b.

Global Instance earlier_dec : RelDecision earlier.
Proof. intros a b. unfold earlier. apply _. Defined.

Definition fire (t_now : nat) (t : QTimer) : QTimer :=
  if decide (due t_now t) then stop t else t.

(** [dt] milliseconds pass in the event loop: every due single-shot timer
    fires, earliest deadline first, runs its callback [set_brightness] and
    is inactive afterwards. *)
Definition elapse (dt : nat) (s : state) : state :=
  let t_now := now s + dt in
  let fired :=
    merge_sort earlier (filter (due t_now) (timers s)) in
  let s1 := set_now t_now
              (set_timers (fire t_now <$> timers s)
                          (brightness_update_timers s) s) in
  foldl (λ acc t, set_brightness (t_idx t) (t_val t) acc) s1 fired.

(** The user drags slider [i] to [v]: the slider takes the bounded value
    and, if that differs from the old one, emits [valueChanged], which is
    connected to [monitor_slider_changed] with the slider's index. *)
Definition user_moves_slider (i : nat) (v : Z) (s : state) : state :=
  match monitor_sliders s !! i with
  | Some old =>
      if decide (bound v = old) then s
      else monitor_slider_changed i (bound v)
             (set_monitor_sliders (<[i := bound v]> (monitor_sliders s)) s)
  | None => s
  end.

(** The user picks entry [k] of the dropdown. *)
Definition user_picks_preset (k : nat) (s : state) : state :=
  if decide (k < length (items (dropdown s)))
  then dropdown_setCurrentIndex k s
  else s.

(** The states the application can be in: after [load_monitors], any
    sequence of slots and timer firings, with the files free to change
    between two events.  A loop that [setValue] aborted has left the
    signals of that slider blocked, so that a later move of it changes
    its value and runs no slot: [reach_silent_move]. *)
Inductive reachable : state → Prop :=
  | reach_load_monitors hw f :
      reachable (load_monitors (Some hw) (initial f))
  | reach_load_user_prefs s :
      reachable s → reachable (load_user_prefs s)
  | reach_slider i v s :
      reachable s → reachable (user_moves_slider i v s)
  | reach_pick k s :
      reachable s → reachable (user_picks_preset k s)
  | reach_delete move_ok s :
      reachable s → reachable (delete_selected_preset move_ok s)
  | reach_save dialog w s s' :
      reachable s → save_current_preset dialog w s = Returned s' →
      reachable s'
  | reach_save_prefs pos w s s' :
      reachable s → save_user_prefs pos w s = Returned s' →
      reachable s'
  | reach_elapse dt s :
      reachable s → reachable (elapse dt s)
  | reach_cleanup w s :
      reachable s → reachable (cleanup_thread w s)
  | reach_files f s :
      reachable s → reachable (set_fs f s)
  | reach_silent_move i v s :
      reachable s →
      reachable (set_monitor_sliders (<[i := bound v]> (monitor_sliders s)) s).

(** A burst of changes of one slider: each entry gives the time since the
    previous change and the new value. *)
Fixpoint slider_burst (idx : nat) (moves : list (nat * Z)) (s : state) : state :=
  match moves with
  | [] => s
  | (gap, v) :: rest =>
      slider_burst idx rest (monitor_slider_changed idx v (elapse gap s))
  end.

(** The value carried by the last change of a burst that started with [v0]. *)
Definition final_value (v0 : Z) (moves : list (nat * Z)) : Z :=
  default v0 (last (moves.*2)).

(** The active timers whose callback targets display [idx]. *)
Definition active_timers_for (idx : nat) (s : state) : list QTimer :=
  filter (λ t, t_idx t = idx ∧ t_active t = true) (timers s).

(** ** A concrete installation *)

(** Three presets, two of them with the same content, and a stray text
    file; the preferences remember the levels of the first two. *)
Definition demo_prefs : prefs :=
  {| window_position := Some (100, 200)%Z;
     brightness_levels := Some [40; 40]%Z |}.

Definition demo_files : filesystem :=
  {| presets_dir :=
       <["b.json" := Levels [40; 40]%Z]>
         (<["a.json" := Levels [40; 40]%Z]>
            (<["dim.json" := Levels [10]%Z]>
               (<["notes.txt" := Malformed]> ∅)));
     preset_restore_dir := ∅;
     elsewhere := ∅;
     prefs_file := Some (PrefsObject demo_prefs) |}.

(** The same files with preferences written when three displays were
    connected. *)
Definition demo_long_prefs : prefs :=
  {| window_position := None; brightness_levels := Some [40; 40; 7]%Z |}.

Definition demo_files_long : filesystem :=
  {| presets_dir := presets_dir demo_files;
     preset_restore_dir := ∅;
     elsewhere := ∅;
     prefs_file := Some (PrefsObject demo_long_prefs) |}.

(** Two displays, reported at 70 and 80. *)
Definition demo_state : state := startup [70; 80]%Z demo_files.

(** The user moved the first slider to 33. *)
Definition demo_edited : state := user_moves_slider 0 33%Z demo_state.

(** The user selected ["dim.json"] while the signals were blocked. *)
Definition demo_dim_selected : state :=
  blockSignals false (dropdown_setCurrentIndex 2 (blockSignals true demo_state)).

Definition returned_state (o : outcome) : state :=
  match o with
  | Returned s => s
  | Raised s => s
  end.

(** The edited levels saved as ["night.json"]. *)
Definition demo_saved : state :=
  returned_state
    (save_current_preset (Some (InPresetsDir, "night.json")) WriteOk demo_edited).

(** ** Predicates on states *)

(** The part of the state that only the file operations and the timers
    touch. *)
Definition backstage (s : state) :=
  (fs s, timers s, brightness_update_timers s, now s).

Definition in_range (v : Z) : Prop := (0 ≤ v ≤ 100)%Z.

(** [quiet s s']: going from [s] to [s'] touched neither files nor timers,
    kept the number of sliders and their range, and only started further
    workers. *)
Definition quiet (s s' : state) : Prop :=
  backstage s' = backstage s ∧
  length (monitor_sliders s') = length (monitor_sliders s) ∧
  (Forall in_range (monitor_sliders s) → Forall in_range (monitor_sliders s')) ∧
  ∃ extra, sbc_calls s' = sbc_calls s ++ extra.

Definition presets_scanned (s : state) : Prop :=
  ∃ f, presets_list s = scan_presets f.

Definition dropdown_lists_presets (s : state) : Prop :=
  items (dropdown s) = presets_list s ∨
  items (dropdown s) = UnsavedPreset :: presets_list s.

Definition sliders_in_range (s : state) : Prop :=
  Forall in_range (monitor_sliders s).

(** Every active timer is the one its display's dictionary entry names. *)
Definition timers_registered (s : state) : Prop :=
  ∀ k t, timers s !! k = Some t → t_active t = true →
         brightness_update_timers s !! t_idx t = Some k.

Definition signals_open (s : state) : Prop :=
  signalsBlocked (dropdown s) = false.

Record Inv (s : state) : Prop := {
  inv_presets : presets_scanned s;
  inv_dropdown : dropdown_lists_presets s;
  inv_range : sliders_in_range s;
  inv_timers : timers_registered s;
  inv_signals : signals_open s
}.

(** Display [idx] has one pending timer, due at [d], carrying [v]. *)
Definition pending (idx d : nat) (v : Z) (s : state) : Prop :=
  timers_registered s ∧
  ∃ k, brightness_update_timers s !! idx = Some k ∧
       timers s !! k = Some {| t_deadline := d; t_idx := idx; t_val := v;
                               t_active := true |}.

(** ** The window: position, close and tray actions *)

(** [setFixedSize(400, 210)]. *)
Definition window_width : Z := 400.
Definition window_height : Z := 210.

(** [position_bottom_right_with_margin]: [screen] is the width and height
    of the primary screen. *)
Definition position_bottom_right_with_margin (screen : Z * Z) : Z * Z :=
  (screen.1 - window_width - 20, screen.2 - window_height - 60)%Z.

(** [restore_window_position]: where the window is moved to.  A missing
    preferences file, unreadable preferences and a missing position all
    end in the default placement.  The stored position is taken to be one
    that [save_user_prefs] wrote, from [self.x()] and [self.y()]: two C
    [int]s, which [QPoint] accepts. *)
Definition restore_window_position (screen : Z * Z) (f : filesystem) : Z * Z :=
  match prefs_file f with
  | Some (PrefsObject p) =>
      match window_position p with
      | Some xy => xy
      | None => position_bottom_right_with_margin screen
      end
  | Some PrefsMalformed | None => position_bottom_right_with_margin screen
  end.

(** The main window as the tray and the window manager see it: the
    application object, its position, the [force_exit] flag and whether it
    is hidden. *)
Record window := {
  app : state;
  position : Z * Z;
  force_exit : bool;
  hidden : bool
}.

(** The tray menu's Exit ([on_quit]) and Show ([on_show]). *)
Definition on_quit (win : window) : window :=
  {| app := app win; position := position win; force_exit := true;
     hidden := hidden win |}.

Definition on_show (win : window) : window :=
  {| app := app win; position := position win; force_exit := force_exit win;
     hidden := false |}.

(** [closeEvent]: the preferences are written first; the event is accepted
    ([true]) only with [force_exit], otherwise it is ignored and the window
    hidden. *)
Definition closeEvent (w : write_outcome) (win : window) : window * bool :=
  let app' := returned_state (save_user_prefs (position win) w (app win)) in
  if force_exit win
  then ({| app := app'; position := position win; force_exit := true;
           hidden := hidden win |}, true)
  else ({| app := app'; position := position win; force_exit := false;
           hidden := true |}, false).

(** Changes of one slider that are at least a debounce window apart: each
    entry gives the new value and the time that passes after it. *)
Fixpoint spaced_moves (idx : nat) (moves : list (Z * nat)) (s : state) : state :=
  match moves with
  | [] => s
  | (v, wait) :: rest =>
      spaced_moves idx rest (elapse wait (monitor_slider_changed idx v s))
  end.

(** Every dictionary entry names a timer created for that display. *)
Definition timers_indexed (s : state) : Prop :=
  ∀ idx k, brightness_update_timers s !! idx = Some k →
           ∃ t, timers s !! k = Some t ∧ t_idx t = idx.

(** A directory holding no preset. *)
Definition demo_files_empty : filesystem :=
  {| presets_dir := <["notes.txt" := Malformed]> ∅;
     preset_restore_dir := ∅;
     elsewhere := ∅;
     prefs_file := None |}.

(** The demo window on a 1920 x 1080 screen. *)
Definition demo_window : window :=
  {| app := demo_edited; position := (1500, 810)%Z; force_exit := false;
     hidden := false |}.

(** Every active timer is due within the next 50 ms and is not overdue. *)
Definition timers_fresh (s : state) : Prop :=
  ∀ k t, timers s !! k = Some t → t_active t = true →
         now s < t_deadline t ≤ now s + 50.

(** While the flag is cleared the dropdown shows the sentinel first. *)
Definition sentinel_when_unsaved (s : state) : Prop :=
  is_preset_saved s = false →
  items (dropdown s) = UnsavedPreset :: presets_list s.

(** A preset file that cannot be parsed, beside a good one; no
    preferences. *)
Definition demo_files_bad : filesystem :=
  {| presets_dir :=
       <["bad.json" := Malformed]> (<["a.json" := Levels [40; 40]%Z]> ∅);
     preset_restore_dir := ∅;
     elsewhere := ∅;
     prefs_file := None |}.

Definition demo_state_bad : state :=
  load_monitors (Some [70; 80]%Z) (initial demo_files_bad).

(** Files edited by hand: a preset and preferences that hold 2^31, an
    integer that is no C [int]. *)
Definition demo_overflow_prefs : prefs :=
  {| window_position := None;
     brightness_levels := Some [5; 2147483648]%Z |}.

Definition demo_files_overflow : filesystem :=
  {| presets_dir :=
       <["big.json" := Levels [2147483648]%Z]>
         (<["a.json" := Levels [40; 40]%Z]> ∅);
     preset_restore_dir := ∅;
     elsewhere := ∅;
     prefs_file := Some (PrefsObject demo_overflow_prefs) |}.

(** The same, with one preference level more than there are displays. *)
Definition demo_overflow_long_prefs : prefs :=
  {| window_position := None;
     brightness_levels := Some [5; 2147483648; 7]%Z |}.

Definition demo_files_overflow_long : filesystem :=
  {| presets_dir := presets_dir demo_files_overflow;
     preset_restore_dir := ∅;
     elsewhere := ∅;
     prefs_file := Some (PrefsObject demo_overflow_long_prefs) |}.

(** Two displays at 70 and 80 before the preferences are loaded; then the
    user moved the first slider to 33 and ["big.json"] became the current
    entry while the signals were blocked. *)
Definition demo_state_overflow : state :=
  load_monitors (Some [70; 80]%Z) (initial demo_files_overflow).

Definition demo_big_selected : state :=
  blockSignals false
    (dropdown_setCurrentIndex 2
       (blockSignals true (user_moves_slider 0 33%Z demo_state_overflow))).

(** * Properties *)

(** ** Names *)

Lemma endswith_refl s : endswith s s = true.
Proof. destruct s; simpl; [done|]. by rewrite Ascii.eqb_refl, String.eqb_refl. Qed.

Lemma endswith_app s suf : endswith (String.app s suf) suf = true.
Proof.
  induction s as [|a s IH]; [apply endswith_refl|].
  change (String.app (String a s) suf) with (String a (String.app s suf)).
  simpl endswith. rewrite IH. by case_match.
Qed.

Lemma endswith_json_nonempty s : endswith s json_suffix = true → s ≠ EmptyString.
Proof. by intros H ->. Qed.

Lemma endswith_json_not_sentinel s :
  endswith s json_suffix = true → s ≠ UnsavedPreset.
Proof. intros H ->. vm_compute in H. discriminate. Qed.

Lemma with_json_suffix_endswith p :
  endswith (with_json_suffix p).2 json_suffix = true.
Proof.
  unfold with_json_suffix. destruct (endswith p.2 json_suffix) eqn:E; [done|].
  apply endswith_app.
Qed.

(** ** The directory scan *)

Lemma scan_presets_perm f :
  scan_presets f ≡ₚ
  filter (λ file, endswith file json_suffix = true) (listdir (presets_dir f)).
Proof. apply merge_sort_Permutation. Qed.

Lemma elem_of_listdir (dir : gmap string preset_file) name :
  name ∈ listdir dir ↔ is_Some (dir !! name).
Proof.
  unfold listdir. rewrite list_elem_of_fmap. split.
  - intros [[k c] [-> Hin]]. apply elem_of_map_to_list in Hin. by exists c.
  - intros [c Hc]. exists (name, c). split; [done|]. by apply elem_of_map_to_list.
Qed.

Lemma elem_of_scan_presets f name :
  name ∈ scan_presets f ↔
  is_Some (presets_dir f !! name) ∧ endswith name json_suffix = true.
Proof.
  rewrite scan_presets_perm, list_elem_of_filter, elem_of_listdir. tauto.
Qed.

Lemma scan_presets_sorted f : StronglySorted String.le (scan_presets f).
Proof. apply Sorted_StronglySorted; [apply _|]. apply Sorted_merge_sort, _. Qed.

Lemma scan_presets_NoDup f : NoDup (scan_presets f).
Proof.
  rewrite scan_presets_perm. apply NoDup_filter, NoDup_fst_map_to_list.
Qed.

(** ** What the slots leave alone *)

Lemma bound_in_range v : in_range (bound v).
Proof. unfold in_range, bound. lia. Qed.

Lemma bound_id v : in_range v → bound v = v.
Proof. unfold in_range, bound. lia. Qed.

Lemma bound_fmap_id (l : list Z) : Forall in_range l → bound <$> l = l.
Proof.
  induction 1 as [|v l Hv _ IH]; [done|]. csimpl. by rewrite IH, bound_id.
Qed.

Section levels_applied.
Implicit Types (vs : list Z) (s : state).

Lemma in_range_c_int v : in_range v → c_int v.
Proof. unfold in_range, c_int. lia. Qed.

Lemma Forall_in_range_c_int (l : list Z) : Forall in_range l → Forall c_int l.
Proof. intros H. eapply Forall_impl; [exact H|]. intros v. apply in_range_c_int. Qed.

(** The guard [i < len(self.monitor_sliders)] keeps every index inside the
    list: the loop returns when each value that reaches a slider is a C
    [int]. *)
Lemma apply_levels_returns vs : ∀ i s,
  Forall c_int (take (length (monitor_sliders s) - i) vs) →
  apply_levels i vs s = Returned (levels_applied i vs s).
Proof.
  induction vs as [|v vs IH]; intros i s Hc; [done|]. simpl.
  case_decide as Hi.
  - unfold slider_setValue.
    destruct (lookup_lt_is_Some_2 (monitor_sliders s) i Hi) as [x ->].
    replace (length (monitor_sliders s) - i)
      with (S (length (monitor_sliders s) - S i)) in Hc by lia.
    simpl in Hc. apply Forall_cons in Hc as [Hv Hc].
    rewrite decide_True by done.
    apply IH. simpl. by rewrite length_insert.
  - apply IH. replace (length (monitor_sliders s) - S i) with 0 by lia.
    rewrite take_0. constructor.
Qed.

(** The loop raises at the first value, among those that reach a slider,
    that is no C [int]; the values before it have been applied. *)
Lemma apply_levels_raises vs : ∀ i s k v,
  Forall c_int (take k vs) → vs !! k = Some v → ¬ c_int v →
  i + k < length (monitor_sliders s) →
  apply_levels i vs s = Raised (levels_applied i (take k vs) s).
Proof.
  induction vs as [|w vs IH]; intros i s k v Hc Hk Hv Hi; [done|].
  simpl apply_levels. rewrite decide_True by lia. unfold slider_setValue.
  destruct (lookup_lt_is_Some_2 (monitor_sliders s) i) as [x ->]; [lia|].
  destruct k as [|k]; simpl in Hk.
  - injection Hk as ->. by rewrite decide_False.
  - simpl in Hc. apply Forall_cons in Hc as [Hw Hc].
    rewrite decide_True by done.
    rewrite (IH (S i) _ k v Hc Hk Hv) by (simpl; rewrite length_insert; lia).
    simpl. by rewrite decide_True by lia.
Qed.

(** Whether the loop returns or raises, it has applied a prefix of the
    values. *)
Lemma apply_levels_cases vs : ∀ i s,
  apply_levels i vs s = Returned (levels_applied i vs s) ∨
  ∃ k, k < length vs ∧
       apply_levels i vs s = Raised (levels_applied i (take k vs) s).
Proof.
  induction vs as [|v vs IH]; intros i s; [by left|]. simpl.
  case_decide as Hi.
  - unfold slider_setValue.
    destruct (lookup_lt_is_Some_2 (monitor_sliders s) i Hi) as [x ->].
    case_decide as Hv.
    + match goal with |- context [apply_levels (S i) vs ?t] =>
        destruct (IH (S i) t) as [->|(k & Hk & ->)] end; [by left|].
      right. exists (S k). split; [lia|]. simpl. by rewrite decide_True.
    + right. exists 0. split; [lia|done].
  - destruct (IH (S i) s) as [->|(k & Hk & ->)]; [by left|].
    right. exists (S k). split; [lia|]. simpl. by rewrite decide_False.
Qed.

Lemma apply_levels_carried vs i s :
  ∃ k, returned_state (apply_levels i vs s) = levels_applied i (take k vs) s.
Proof.
  destruct (apply_levels_cases vs i s) as [->|(k & _ & ->)].
  - exists (length vs). by rewrite take_ge.
  - by exists k.
Qed.

Lemma levels_applied_backstage vs : ∀ i s,
  backstage (levels_applied i vs s) = backstage s.
Proof.
  induction vs as [|v vs IH]; intros i s; [done|].
  simpl. rewrite IH. by case_decide.
Qed.

Lemma levels_applied_presets_list vs : ∀ i s,
  presets_list (levels_applied i vs s) = presets_list s.
Proof.
  induction vs as [|v vs IH]; intros i s; [done|].
  simpl. rewrite IH. by case_decide.
Qed.

Lemma levels_applied_dropdown vs : ∀ i s,
  dropdown (levels_applied i vs s) = dropdown s.
Proof.
  induction vs as [|v vs IH]; intros i s; [done|].
  simpl. rewrite IH. by case_decide.
Qed.

Lemma levels_applied_saved vs : ∀ i s,
  is_preset_saved (levels_applied i vs s) = is_preset_saved s.
Proof.
  induction vs as [|v vs IH]; intros i s; [done|].
  simpl. rewrite IH. by case_decide.
Qed.

Lemma levels_applied_length vs : ∀ i s,
  length (monitor_sliders (levels_applied i vs s)) = length (monitor_sliders s).
Proof.
  induction vs as [|v vs IH]; intros i s; [done|].
  simpl. rewrite IH. case_decide; [|done]. simpl. apply length_insert.
Qed.

Lemma levels_applied_in_range vs : ∀ i s,
  Forall in_range (monitor_sliders s) →
  Forall in_range (monitor_sliders (levels_applied i vs s)).
Proof.
  induction vs as [|v vs IH]; intros i s Hs; [done|].
  simpl. apply IH. case_decide; [|done]. simpl.
  apply Forall_insert; [done|apply bound_in_range].
Qed.

(** The sliders after the loop: positions [i ..] take the bounded
    values, as far as there are sliders. *)
Lemma levels_applied_sliders vs : ∀ i s,
  monitor_sliders (levels_applied i vs s) =
    take i (monitor_sliders s)
    ++ (bound <$> take (length (monitor_sliders s) - i) vs)
    ++ drop (i + length vs) (monitor_sliders s).
Proof.
  induction vs as [|v vs IH]; intros i s.
  - simpl. rewrite take_nil, Nat.add_0_r. simpl. by rewrite take_drop.
  - simpl levels_applied. rewrite IH. case_decide as Hi; simpl.
    + rewrite length_insert.
      destruct (lookup_lt_is_Some_2 (monitor_sliders s) i Hi) as [x Hx].
      rewrite (take_S_r (<[i:=bound v]> (monitor_sliders s)) i (bound v))
        by (by rewrite list_lookup_insert_eq).
      rewrite take_insert_ge by lia.
      rewrite drop_insert_lt by lia.
      replace (length (monitor_sliders s) - i)
        with (S (length (monitor_sliders s) - S i)) by lia.
      rewrite <- (assoc_L (++)). simpl.
      by replace (S (i + length vs)) with (i + S (length vs)) by lia.
    + replace (length (monitor_sliders s) - i) with 0 by lia.
      replace (length (monitor_sliders s) - S i) with 0 by lia.
      rewrite !take_0. simpl.
      rewrite !take_ge, !drop_ge by lia. done.
Qed.

(** The workers started by the loop, in order. *)
Lemma levels_applied_calls vs : ∀ i s,
  sbc_calls (levels_applied i vs s) =
    sbc_calls s
    ++ zip_with Build_BrightnessWorker
         (seq i (length (monitor_sliders s) - i)) vs.
Proof.
  induction vs as [|v vs IH]; intros i s.
  - simpl. destruct (seq _ _); simpl; by rewrite app_nil_r.
  - simpl levels_applied. rewrite IH. case_decide as Hi; simpl.
    + rewrite length_insert.
      replace (length (monitor_sliders s) - i)
        with (S (length (monitor_sliders s) - S i)) by lia.
      simpl. by rewrite <- (assoc_L (++)).
    + replace (length (monitor_sliders s) - i) with 0 by lia.
      replace (length (monitor_sliders s) - S i) with 0 by lia.
      done.
Qed.
End levels_applied.

Global Instance quiet_refl : Reflexive quiet.
Proof. intros s. repeat split; auto. exists []. by rewrite app_nil_r. Qed.

Global Instance quiet_trans : Transitive quiet.
Proof.
  intros s1 s2 s3 (Hb1 & Hl1 & Hr1 & e1 & Hc1) (Hb2 & Hl2 & Hr2 & e2 & Hc2).
  repeat split; [congruence|congruence|auto|].
  exists (e1 ++ e2). by rewrite Hc2, Hc1, (assoc_L (++)).
Qed.

Lemma quiet_fs s s' : quiet s s' → fs s' = fs s.
Proof. intros [Hb _]. unfold backstage in Hb. congruence. Qed.

Lemma quiet_timers s s' :
  quiet s s' →
  timers s' = timers s ∧
  brightness_update_timers s' = brightness_update_timers s ∧ now s' = now s.
Proof. intros [Hb _]. unfold backstage in Hb. by simplify_eq. Qed.

Lemma quiet_length s s' :
  quiet s s' → length (monitor_sliders s') = length (monitor_sliders s).
Proof. by intros (_ & ? & _). Qed.

Lemma quiet_set_dropdown d s : quiet s (set_dropdown d s).
Proof. repeat split; auto. exists []. simpl. by rewrite app_nil_r. Qed.

Lemma quiet_set_is_preset_saved b s : quiet s (set_is_preset_saved b s).
Proof. repeat split; auto. exists []. simpl. by rewrite app_nil_r. Qed.

Lemma quiet_set_presets_list l s : quiet s (set_presets_list l s).
Proof. repeat split; auto. exists []. simpl. by rewrite app_nil_r. Qed.

Lemma quiet_levels_applied i vs s : quiet s (levels_applied i vs s).
Proof.
  split; [apply levels_applied_backstage|].
  split; [apply levels_applied_length|].
  split; [apply levels_applied_in_range|].
  rewrite levels_applied_calls. eauto.
Qed.

(** What the loop leaves alone, however it ends. *)
Lemma apply_levels_frame i vs s :
  let s1 := returned_state (apply_levels i vs s) in
  quiet s s1 ∧ dropdown s1 = dropdown s ∧ presets_list s1 = presets_list s ∧
  is_preset_saved s1 = is_preset_saved s.
Proof.
  simpl. destruct (apply_levels_carried vs i s) as [k ->].
  split; [apply quiet_levels_applied|].
  split; [apply levels_applied_dropdown|].
  split; [apply levels_applied_presets_list|apply levels_applied_saved].
Qed.

Lemma quiet_apply_selected_preset s : quiet s (apply_selected_preset s).
Proof.
  unfold apply_selected_preset. case_decide; [done|].
  destruct (presets_dir (fs s) !! _) as [[vs|]|]; [|done..].
  destruct (apply_levels_frame 0 vs s) as (Hq & _).
  destruct (apply_levels 0 vs s) as [s1|s1]; simpl in Hq; [|done].
  etrans; [exact Hq|apply quiet_set_is_preset_saved].
Qed.

Lemma apply_selected_preset_dropdown s :
  dropdown (apply_selected_preset s) = dropdown s.
Proof.
  unfold apply_selected_preset. case_decide; [done|].
  destruct (presets_dir (fs s) !! _) as [[vs|]|]; [|done..].
  destruct (apply_levels_frame 0 vs s) as (_ & Hd & _).
  by destruct (apply_levels 0 vs s).
Qed.

Lemma apply_selected_preset_presets_list s :
  presets_list (apply_selected_preset s) = presets_list s.
Proof.
  unfold apply_selected_preset. case_decide; [done|].
  destruct (presets_dir (fs s) !! _) as [[vs|]|]; [|done..].
  destruct (apply_levels_frame 0 vs s) as (_ & _ & Hl & _).
  by destruct (apply_levels 0 vs s).
Qed.

(** ** The dropdown *)

Lemma quiet_dropdown_update its idx s : quiet s (dropdown_update its idx s).
Proof.
  unfold dropdown_update. case_decide; [apply quiet_set_dropdown|].
  destruct (signalsBlocked _); [apply quiet_set_dropdown|].
  etrans; [apply quiet_set_dropdown|apply quiet_apply_selected_preset].
Qed.

Lemma dropdown_update_dropdown its idx s :
  dropdown (dropdown_update its idx s) =
    {| items := its; currentIndex := idx;
       signalsBlocked := signalsBlocked (dropdown s) |}.
Proof.
  unfold dropdown_update. case_decide; [done|].
  destruct (signalsBlocked _) eqn:E; [done|].
  by rewrite apply_selected_preset_dropdown.
Qed.

Lemma dropdown_update_presets_list its idx s :
  presets_list (dropdown_update its idx s) = presets_list s.
Proof.
  unfold dropdown_update. case_decide; [done|].
  destruct (signalsBlocked _); [done|].
  by rewrite apply_selected_preset_presets_list.
Qed.

(** With the signals blocked, an update changes the dropdown only. *)
Lemma dropdown_update_blocked its idx s :
  signalsBlocked (dropdown s) = true →
  dropdown_update its idx s =
    set_dropdown {| items := its; currentIndex := idx; signalsBlocked := true |} s.
Proof.
  intros Hb. unfold dropdown_update. rewrite Hb. by case_decide.
Qed.

Lemma quiet_dropdown_addItem text s : quiet s (dropdown_addItem text s).
Proof.
  unfold dropdown_addItem. destruct (items _); apply quiet_dropdown_update.
Qed.

Lemma dropdown_addItem_dropdown text s :
  dropdown (dropdown_addItem text s) =
    {| items := items (dropdown s) ++ [text];
       currentIndex := match items (dropdown s) with
                       | [] => Some 0
                       | _ :: _ => currentIndex (dropdown s)
                       end;
       signalsBlocked := signalsBlocked (dropdown s) |}.
Proof.
  unfold dropdown_addItem.
  destruct (items _) eqn:E; by rewrite dropdown_update_dropdown.
Qed.

Lemma dropdown_addItem_presets_list text s :
  presets_list (dropdown_addItem text s) = presets_list s.
Proof.
  unfold dropdown_addItem.
  destruct (items _); apply dropdown_update_presets_list.
Qed.

Lemma quiet_dropdown_addItems l : ∀ s, quiet s (dropdown_addItems l s).
Proof.
  unfold dropdown_addItems.
  induction l as [|x l IH]; intros s; [done|]. simpl.
  etrans; [apply quiet_dropdown_addItem|apply IH].
Qed.

Lemma dropdown_addItems_presets_list l : ∀ s,
  presets_list (dropdown_addItems l s) = presets_list s.
Proof.
  unfold dropdown_addItems.
  induction l as [|x l IH]; intros s; [done|]. simpl.
  by rewrite IH, dropdown_addItem_presets_list.
Qed.

(** After adding a list of entries the box shows them after the old ones;
    a box that was empty selects the first of them. *)
Lemma dropdown_addItems_dropdown l : ∀ s,
  dropdown (dropdown_addItems l s) =
    {| items := items (dropdown s) ++ l;
       currentIndex := match items (dropdown s), l with
                       | [], _ :: _ => Some 0
                       | _, _ => currentIndex (dropdown s)
                       end;
       signalsBlocked := signalsBlocked (dropdown s) |}.
Proof.
  unfold dropdown_addItems.
  induction l as [|x l IH]; intros s; simpl.
  - rewrite app_nil_r. by destruct (dropdown s) as [[|??] ??].
  - rewrite IH, dropdown_addItem_dropdown. simpl.
    rewrite <- (assoc_L (++)). simpl.
    destruct (items (dropdown s)) eqn:E; simpl; by destruct l.
Qed.

Lemma quiet_dropdown_setCurrentIndex i s : quiet s (dropdown_setCurrentIndex i s).
Proof. apply quiet_dropdown_update. Qed.

Lemma quiet_dropdown_setCurrentText text s :
  quiet s (dropdown_setCurrentText text s).
Proof.
  unfold dropdown_setCurrentText.
  destruct (findText _ _); [apply quiet_dropdown_setCurrentIndex|done].
Qed.

Lemma quiet_blockSignals b s : quiet s (blockSignals b s).
Proof. apply quiet_set_dropdown. Qed.

(** The sentinel block, run while the signals are blocked, only rewrites
    the dropdown. *)
Lemma show_unsaved_when_blocked s :
  signalsBlocked (dropdown s) = true →
  show_unsaved s =
    set_dropdown {| items := UnsavedPreset :: presets_list s;
                    currentIndex := Some 0; signalsBlocked := true |} s.
Proof.
  intros Hs. unfold show_unsaved, dropdown_clear.
  rewrite (dropdown_update_blocked [] None) by done.
  unfold dropdown_addItem at 1. simpl items.
  rewrite (dropdown_update_blocked [UnsavedPreset] (Some 0)) by done.
  simpl.
  set (s1 := set_dropdown _ _).
  assert (signalsBlocked (dropdown s1) = true) as Hb by done.
  assert (∀ l t, signalsBlocked (dropdown t) = true →
            dropdown_addItems l t =
              set_dropdown (dropdown (dropdown_addItems l t)) t) as Hadd.
  { unfold dropdown_addItems. induction l as [|x l IH]; intros t Ht; simpl.
    - by destruct t.
    - rewrite IH.
      + unfold dropdown_addItem.
        destruct (items (dropdown t)); by rewrite dropdown_update_blocked.
      + rewrite dropdown_addItem_dropdown. done. }
  rewrite (Hadd _ s1 Hb), dropdown_addItems_dropdown. simpl.
  unfold dropdown_setCurrentIndex. simpl.
  by rewrite dropdown_update_blocked.
Qed.

Lemma show_unsaved_blocked s :
  blockSignals false (show_unsaved (blockSignals true s)) =
    set_dropdown {| items := UnsavedPreset :: presets_list s;
                    currentIndex := Some 0; signalsBlocked := false |} s.
Proof. by rewrite show_unsaved_when_blocked. Qed.

Lemma dropdown_setCurrentText_dropdown text s :
  items (dropdown (dropdown_setCurrentText text s)) = items (dropdown s) ∧
  signalsBlocked (dropdown (dropdown_setCurrentText text s)) =
    signalsBlocked (dropdown s) ∧
  presets_list (dropdown_setCurrentText text s) = presets_list s.
Proof.
  unfold dropdown_setCurrentText. destruct (findText _ _); [|done].
  unfold dropdown_setCurrentIndex.
  by rewrite dropdown_update_dropdown, dropdown_update_presets_list.
Qed.

(** ** [load_presets] *)

Lemma quiet_load_presets s : quiet s (load_presets s).
Proof.
  unfold load_presets.
  etrans; [apply (quiet_set_presets_list [])|].
  etrans; [apply quiet_dropdown_update|].
  etrans; [apply quiet_set_presets_list|apply quiet_dropdown_addItems].
Qed.

Lemma load_presets_presets_list s :
  presets_list (load_presets s) = scan_presets (fs s).
Proof.
  unfold load_presets. rewrite dropdown_addItems_presets_list. simpl.
  f_equal. unfold dropdown_clear.
  apply (quiet_fs (set_presets_list [] s)), quiet_dropdown_update.
Qed.

Lemma load_presets_dropdown s :
  dropdown (load_presets s) =
    {| items := scan_presets (fs s);
       currentIndex := match scan_presets (fs s) with
                       | [] => None
                       | _ :: _ => Some 0
                       end;
       signalsBlocked := signalsBlocked (dropdown s) |}.
Proof.
  unfold load_presets. rewrite dropdown_addItems_dropdown. simpl.
  unfold dropdown_clear. rewrite dropdown_update_dropdown. simpl.
  assert (fs (dropdown_update [] None (set_presets_list [] s)) = fs s) as ->.
  { apply (quiet_fs (set_presets_list [] s)), quiet_dropdown_update. }
  by destruct (scan_presets (fs s)).
Qed.

(** ** Slots that rebuild the dropdown *)

Lemma monitor_slider_changed_unfold idx v s :
  monitor_slider_changed idx v s =
    start_timer idx v
      (if is_preset_saved s
       then set_dropdown {| items := UnsavedPreset :: presets_list s;
                            currentIndex := Some 0; signalsBlocked := false |}
              (set_is_preset_saved false s)
       else s).
Proof.
  unfold monitor_slider_changed. destruct (is_preset_saved s); [|done].
  by rewrite show_unsaved_blocked.
Qed.

Lemma reset_sliders_aux (l : list nat) : ∀ s,
  let s' := foldl (λ acc idx, set_brightness idx 50%Z acc) s l in
  backstage s' = backstage s ∧ monitor_sliders s' = monitor_sliders s ∧
  presets_list s' = presets_list s ∧ dropdown s' = dropdown s ∧
  is_preset_saved s' = is_preset_saved s ∧
  sbc_calls s' = sbc_calls s ++ ((λ idx, Build_BrightnessWorker idx 50%Z) <$> l).
Proof.
  induction l as [|i l IH]; intros s; simpl.
  - by rewrite app_nil_r.
  - destruct (IH (set_brightness i 50%Z s)) as (-> & -> & -> & -> & -> & ->).
    simpl. by rewrite <- (assoc_L (++)).
Qed.

Lemma reset_sliders_to_default_spec s :
  let s' := reset_sliders_to_default s in
  backstage s' = backstage s ∧
  monitor_sliders s' = replicate (length (monitor_sliders s)) 50%Z ∧
  presets_list s' = presets_list s ∧ dropdown s' = dropdown s ∧
  is_preset_saved s' = is_preset_saved s ∧
  sbc_calls s' =
    sbc_calls s ++ ((λ idx, Build_BrightnessWorker idx 50%Z)
                      <$> seq 0 (length (monitor_sliders s))).
Proof.
  unfold reset_sliders_to_default.
  match goal with |- context [foldl _ ?t ?l] =>
    destruct (reset_sliders_aux l t) as (-> & -> & -> & -> & -> & ->) end.
  simpl. rewrite length_fmap. repeat split; try done.
  induction (monitor_sliders s); [done|]. csimpl. by f_equal.
Qed.

Lemma quiet_reset_sliders_to_default s : quiet s (reset_sliders_to_default s).
Proof.
  destruct (reset_sliders_to_default_spec s) as (Hb & Hs & _ & _ & _ & Hc).
  repeat split; [done|..].
  - by rewrite Hs, length_replicate.
  - intros _. rewrite Hs. apply Forall_replicate. unfold in_range. lia.
  - eauto.
Qed.

(** ** Invariants of the reachable states *)

Lemma quiet_sliders_in_range s s' :
  quiet s s' → sliders_in_range s → sliders_in_range s'.
Proof. intros (_ & _ & H & _). exact H. Qed.

Lemma quiet_timers_registered s s' :
  quiet s s' → timers_registered s → timers_registered s'.
Proof.
  intros Hq Hs. destruct (quiet_timers _ _ Hq) as (Ht & Hd & _).
  unfold timers_registered. by rewrite Ht, Hd.
Qed.

Lemma start_timer_registered idx v s :
  timers_registered s → timers_registered (start_timer idx v s).
Proof.
  intros Hs k t. unfold start_timer. simpl.
  set (stopped := match brightness_update_timers s !! idx with
                  | Some k0 => alter stop k0 (timers s)
                  | None => timers s
                  end).
  intros Hk Hact.
  destruct (decide (k = length stopped)) as [->|Hne].
  - rewrite lookup_app_r, Nat.sub_diag in Hk by lia. simplify_eq/=.
    by rewrite lookup_insert_eq.
  - assert (k < length stopped) as Hlt.
    { apply lookup_lt_Some in Hk. rewrite length_app in Hk. simpl in Hk. lia. }
    rewrite lookup_app_l in Hk by done.
    assert (timers s !! k = Some t ∧ brightness_update_timers s !! idx ≠ Some k)
      as [Hk' Hidx].
    { subst stopped. destruct (brightness_update_timers s !! idx) as [k0|] eqn:E.
      - destruct (decide (k0 = k)) as [->|Hk0].
        + rewrite list_lookup_alter_eq in Hk.
          destruct (timers s !! k); simplify_eq/=.
        + rewrite list_lookup_alter_ne in Hk by done. split; [done|congruence].
      - done. }
    specialize (Hs k t Hk' Hact).
    rewrite lookup_insert_ne; [done|]. congruence.
Qed.

(** Running the callbacks of the fired timers only starts workers. *)
Lemma run_callbacks_spec (l : list QTimer) : ∀ s,
  let s' := foldl (λ acc t, set_brightness (t_idx t) (t_val t) acc) s l in
  backstage s' = backstage s ∧ monitor_sliders s' = monitor_sliders s ∧
  presets_list s' = presets_list s ∧ dropdown s' = dropdown s ∧
  is_preset_saved s' = is_preset_saved s ∧
  sbc_calls s' =
    sbc_calls s ++ ((λ t, Build_BrightnessWorker (t_idx t) (t_val t)) <$> l).
Proof.
  induction l as [|t l IH]; intros s; simpl.
  - by rewrite app_nil_r.
  - destruct (IH (set_brightness (t_idx t) (t_val t) s))
      as (-> & -> & -> & -> & -> & ->).
    simpl. by rewrite <- (assoc_L (++)).
Qed.

Lemma elapse_timers dt s :
  timers (elapse dt s) = fire (now s + dt) <$> timers s ∧
  brightness_update_timers (elapse dt s) = brightness_update_timers s ∧
  now (elapse dt s) = now s + dt.
Proof.
  unfold elapse.
  match goal with |- context [foldl _ ?t0 ?l0] =>
    destruct (run_callbacks_spec l0 t0) as (Hb & _) end.
  unfold backstage in Hb. simpl in Hb. by simplify_eq.
Qed.

Lemma elapse_registered dt s :
  timers_registered s → timers_registered (elapse dt s).
Proof.
  intros Hs k t. destruct (elapse_timers dt s) as (-> & -> & _).
  rewrite list_lookup_fmap. intros Hk Hact.
  destruct (timers s !! k) as [t0|] eqn:E; simplify_eq/=.
  unfold fire in Hact |- *. case_decide; [done|]. by apply Hs.
Qed.

Lemma Inv_quiet s s' :
  timers_registered s → sliders_in_range s → quiet s s' →
  presets_scanned s' → dropdown_lists_presets s' → signals_open s' →
  Inv s'.
Proof.
  intros Ht Hr Hq Hp Hd Hs.
  split; eauto using quiet_sliders_in_range, quiet_timers_registered.
Qed.

Lemma load_presets_scanned s : presets_scanned (load_presets s).
Proof. exists (fs s). apply load_presets_presets_list. Qed.

Lemma load_presets_lists s : dropdown_lists_presets (load_presets s).
Proof.
  left. by rewrite load_presets_dropdown, load_presets_presets_list.
Qed.

Lemma Inv_load_monitors hw f : Inv (load_monitors (Some hw) (initial f)).
Proof.
  unfold load_monitors. split.
  - destruct (load_presets_scanned (initial f)) as [f' Hf']. by exists f'.
  - apply (load_presets_lists (initial f)).
  - unfold sliders_in_range. simpl. apply Forall_fmap, Forall_true.
    intros v. apply bound_in_range.
  - intros k t. simpl.
    destruct (quiet_timers _ _ (quiet_load_presets (initial f))) as (-> & _).
    simpl. by rewrite lookup_nil.
  - unfold signals_open. simpl. by rewrite load_presets_dropdown.
Qed.

Lemma Inv_set_fs f s : Inv s → Inv (set_fs f s).
Proof. intros [? ? ? ? ?]. by split. Qed.

Lemma Inv_cleanup_thread w s : Inv s → Inv (cleanup_thread w s).
Proof. intros [? ? ? ? ?]. by split. Qed.

Lemma Inv_monitor_slider_changed idx v s :
  Inv s → Inv (monitor_slider_changed idx v s).
Proof.
  intros [Hp Hd Hr Ht Hs]. rewrite monitor_slider_changed_unfold.
  destruct (is_preset_saved s); split; try done;
    try (by apply start_timer_registered).
  by right.
Qed.

Lemma Inv_set_slider i v s :
  Inv s → Inv (set_monitor_sliders (<[i := bound v]> (monitor_sliders s)) s).
Proof.
  intros [? ? Hr ? ?]. split; try done. unfold sliders_in_range. simpl.
  apply Forall_insert; [done|apply bound_in_range].
Qed.

Lemma Inv_user_moves_slider i v s : Inv s → Inv (user_moves_slider i v s).
Proof.
  intros HI. unfold user_moves_slider.
  destruct (monitor_sliders s !! i); [|done]. case_decide; [done|].
  by apply Inv_monitor_slider_changed, Inv_set_slider.
Qed.

Lemma Inv_user_picks_preset k s : Inv s → Inv (user_picks_preset k s).
Proof.
  intros [Hp Hd Hr Ht Hs]. unfold user_picks_preset. case_decide; [|done].
  unfold dropdown_setCurrentIndex.
  apply (Inv_quiet s); try done; [apply quiet_dropdown_update|..].
  - unfold presets_scanned. by rewrite dropdown_update_presets_list.
  - unfold dropdown_lists_presets.
    by rewrite dropdown_update_dropdown, dropdown_update_presets_list.
  - unfold signals_open. by rewrite dropdown_update_dropdown.
Qed.

Lemma Inv_elapse dt s : Inv s → Inv (elapse dt s).
Proof.
  intros [Hp Hd Hr Ht Hs].
  pose proof (elapse_registered dt s Ht).
  unfold elapse in *.
  match goal with |- context [foldl _ ?t0 ?l0] =>
    destruct (run_callbacks_spec l0 t0) as (_ & Hm & Hl & Hdd & _) end.
  split; try done.
  - unfold presets_scanned. by rewrite Hl.
  - unfold dropdown_lists_presets. by rewrite Hdd, Hl.
  - unfold sliders_in_range. by rewrite Hm.
  - unfold signals_open. by rewrite Hdd.
Qed.

Lemma Inv_delete_selected_preset move_ok s :
  Inv s → Inv (delete_selected_preset move_ok s).
Proof.
  intros HI. unfold delete_selected_preset. case_decide; [|done].
  destruct (presets_dir (fs s) !! _); [|done].
  rewrite show_unsaved_blocked.
  set (s1 := if move_ok then _ else s).
  assert (Inv s1) as [Hp Hd Hr Ht Hs].
  { subst s1. destruct move_ok; [by apply Inv_set_fs|done]. }
  destruct (reset_sliders_to_default_spec (load_presets s1))
    as (_ & _ & Hl & _).
  apply (Inv_quiet s1); try done.
  - etrans; [apply quiet_load_presets|].
    etrans; [apply quiet_reset_sliders_to_default|].
    etrans; [apply quiet_set_dropdown|apply quiet_set_is_preset_saved].
  - destruct (load_presets_scanned s1) as [f' Hf']. exists f'. simpl. congruence.
  - right. simpl. by rewrite Hl.
Qed.

Lemma Inv_save_current_preset dialog w s s' :
  Inv s → save_current_preset dialog w s = Returned s' → Inv s'.
Proof.
  intros HI. unfold save_current_preset.
  destruct dialog as [preset_name|]; [|by intros [= <-]].
  destruct w; [|done..]. intros [= <-].
  set (s1 := set_is_preset_saved true (set_fs _ s)).
  assert (Inv s1) as [Hp Hd Hr Ht Hs].
  { destruct HI. by split. }
  set (s3 := blockSignals true (load_presets s1)).
  destruct (dropdown_setCurrentText_dropdown (basename preset_name) s3)
    as (Hi & Hb & Hl).
  apply (Inv_quiet s1); try done.
  - etrans; [apply quiet_load_presets|].
    etrans; [apply (quiet_blockSignals true)|].
    etrans; [apply quiet_dropdown_setCurrentText|apply quiet_blockSignals].
  - destruct (load_presets_scanned s1) as [f' Hf']. exists f'. simpl.
    rewrite Hl. exact Hf'.
  - unfold dropdown_lists_presets. simpl. rewrite Hi, Hl.
    apply (load_presets_lists s1).
Qed.

Lemma Inv_load_user_prefs s : Inv s → Inv (load_user_prefs s).
Proof.
  intros HI. unfold load_user_prefs.
  destruct (prefs_file (fs s)) as [[p|]|]; [|done..].
  set (levels := default [] (brightness_levels p)).
  destruct HI as [Hp Hd Hr Ht Hs].
  destruct (apply_levels_frame 0 levels s) as (Hq & Hd1 & Hl1 & _).
  destruct (apply_levels 0 levels s) as [s1|s1]; simpl in Hq, Hd1, Hl1; last first.
  { apply (Inv_quiet s); [done|done|done|..].
    - unfold presets_scanned. by rewrite Hl1.
    - unfold dropdown_lists_presets. by rewrite Hd1, Hl1.
    - unfold signals_open. by rewrite Hd1. }
  assert (blockSignals false
            (set_is_preset_saved false (show_unsaved (blockSignals true s1))) =
          set_is_preset_saved false
            (set_dropdown {| items := UnsavedPreset :: presets_list s1;
                             currentIndex := Some 0;
                             signalsBlocked := false |} s1)) as Hun.
  { by rewrite show_unsaved_when_blocked. }
  assert (Inv (blockSignals false
            (set_is_preset_saved false (show_unsaved (blockSignals true s1)))))
    as HIun.
  { rewrite Hun. apply (Inv_quiet s); [done|done|..|done].
    - etrans; [exact Hq|].
      etrans; [apply quiet_set_dropdown|apply quiet_set_is_preset_saved].
    - unfold presets_scanned. simpl. by rewrite Hl1.
    - by right. }
  destruct (find_matching_preset _ _ _) as [m|]; [|done].
  case_decide; [|done].
  destruct (dropdown_setCurrentText_dropdown m (blockSignals true s1))
    as (Hi & Hb & Hl).
  apply (Inv_quiet s); [done|done|..|done].
  - etrans; [exact Hq|].
    etrans; [apply (quiet_blockSignals true)|].
    etrans; [apply quiet_dropdown_setCurrentText|].
    etrans; [apply quiet_set_is_preset_saved|apply quiet_blockSignals].
  - unfold presets_scanned. simpl. rewrite Hl. simpl. by rewrite Hl1.
  - unfold dropdown_lists_presets. simpl. rewrite Hi, Hl. simpl.
    by rewrite Hd1, Hl1.
Qed.

Lemma Inv_save_user_prefs pos w s s' :
  Inv s → save_user_prefs pos w s = Returned s' → Inv s'.
Proof.
  intros HI. unfold save_user_prefs.
  destruct w; intros [= <-]; [by apply Inv_set_fs|done|by apply Inv_set_fs].
Qed.

(** Every reachable state satisfies the invariants. *)
Lemma reachable_Inv s : reachable s → Inv s.
Proof.
  induction 1 as [hw f|s _ IH|i v s _ IH|k s _ IH|move_ok s _ IH
                 |dialog w s s' _ IH Hsave|pos w s s' _ IH Hsave
                 |dt s _ IH|w s _ IH|f s _ IH|i v s _ IH].
  - apply Inv_load_monitors.
  - by apply Inv_load_user_prefs.
  - by apply Inv_user_moves_slider.
  - by apply Inv_user_picks_preset.
  - by apply Inv_delete_selected_preset.
  - by apply (Inv_save_current_preset dialog w s).
  - by apply (Inv_save_user_prefs pos w s).
  - by apply Inv_elapse.
  - by apply Inv_cleanup_thread.
  - by apply Inv_set_fs.
  - by apply Inv_set_slider.
Qed.

(** ** Filtering lists *)

Section filter.
Context {A : Type} (P : A → Prop) `{!∀ x, Decision (P x)}.

Lemma filter_none (l : list A) : Forall (λ x, ¬ P x) l → filter P l = [].
Proof.
  induction 1 as [|x l Hx _ IH]; [done|]. by rewrite filter_cons_False.
Qed.

(** If position [k] holds the only element satisfying [P], the filter
    returns just that element. *)
Lemma filter_only (l : list A) : ∀ k x,
  l !! k = Some x → P x →
  (∀ j y, l !! j = Some y → P y → j = k) →
  filter P l = [x].
Proof.
  induction l as [|a l IH]; intros k x Hk Hx Huniq; [done|].
  destruct k as [|k]; simplify_eq/=.
  - rewrite filter_cons_True by done. f_equal. apply filter_none.
    apply Forall_lookup. intros j y Hj Hy.
    by specialize (Huniq (S j) y Hj Hy).
  - rewrite filter_cons_False.
    + apply (IH k); [done..|]. intros j y Hj Hy.
      specialize (Huniq (S j) y Hj Hy). lia.
    + intros Ha. by specialize (Huniq 0 a eq_refl Ha).
Qed.
End filter.

(** ** Applying a preset *)

Lemma zip_with_seq_short {B} (f : nat → Z → B) (vs : list Z) : ∀ i n,
  length vs ≤ n → zip_with f (seq i n) vs = zip_with f (seq i (length vs)) vs.
Proof.
  induction vs as [|v vs IH]; intros i n Hn.
  - by destruct (seq i n).
  - destruct n as [|n]; simpl in *; [lia|]. f_equal. apply IH. lia.
Qed.

Lemma zip_with_seq_long {B} (f : nat → Z → B) (vs : list Z) : ∀ i n,
  zip_with f (seq i n) vs = zip_with f (seq i n) (take n vs).
Proof.
  induction vs as [|v vs IH]; intros i n.
  - by rewrite take_nil.
  - destruct n as [|n]; simpl; [done|]. f_equal. apply IH.
Qed.

Lemma zip_with_seq_index (vs : list Z) : ∀ i n,
  Forall (λ w, i ≤ monitor_index w < i + n)
         (zip_with Build_BrightnessWorker (seq i n) vs).
Proof.
  induction vs as [|v vs IH]; intros i n.
  - destruct (seq i n); constructor.
  - destruct n as [|n]; simpl; constructor; simpl; [lia|].
    eapply Forall_impl; [apply (IH (S i) n)|]. simpl. intros w ?. lia.
Qed.

Lemma apply_selected_preset_found s name vs :
  currentText (dropdown s) = name →
  name ≠ EmptyString → name ≠ UnsavedPreset →
  presets_dir (fs s) !! name = Some (Levels vs) →
  Forall c_int (take (length (monitor_sliders s)) vs) →
  apply_selected_preset s = set_is_preset_saved true (levels_applied 0 vs s).
Proof.
  intros <- Hne Hns Hf Hc. unfold apply_selected_preset.
  rewrite decide_False by tauto. rewrite Hf, apply_levels_returns; [done|].
  by rewrite Nat.sub_0_r.
Qed.

(** A stored value that is no C [int] and reaches a slider ends the
    slot there: the values before it are applied, the flag is left as it
    is. *)
Lemma apply_selected_preset_aborted s name vs k v :
  currentText (dropdown s) = name →
  name ≠ EmptyString → name ≠ UnsavedPreset →
  presets_dir (fs s) !! name = Some (Levels vs) →
  Forall c_int (take k vs) → vs !! k = Some v → ¬ c_int v →
  k < length (monitor_sliders s) →
  apply_selected_preset s = levels_applied 0 (take k vs) s.
Proof.
  intros <- Hne Hns Hf Hc Hk Hv Hlt. unfold apply_selected_preset.
  rewrite decide_False by tauto.
  by rewrite Hf, (apply_levels_raises vs 0 s k v).
Qed.

(** C10. Applying a preset whose stored sequence is shorter than the
    number of displays and holds C [int]s only (as every sequence of
    brightness levels does) sets exactly the first [length vs] sliders (to
    the stored values, bounded to the slider range) and starts one worker
    for each of them, in order; the remaining sliders keep their values and
    no call is issued for them; the state is Matched for that preset: the
    saved flag is set and the dropdown still shows its name. *)
Theorem C10_short_preset_sets_prefix s name vs :
  currentText (dropdown s) = name →
  name ≠ EmptyString → name ≠ UnsavedPreset →
  presets_dir (fs s) !! name = Some (Levels vs) →
  length vs < length (monitor_sliders s) →
  Forall c_int vs →
  let s' := apply_selected_preset s in
  monitor_sliders s' = (bound <$> vs) ++ drop (length vs) (monitor_sliders s) ∧
  sbc_calls s' =
    sbc_calls s ++ zip_with Build_BrightnessWorker (seq 0 (length vs)) vs ∧
  (∀ k, length vs ≤ k → calls_for k s' = calls_for k s) ∧
  is_preset_saved s' = true ∧
  currentText (dropdown s') = name.
Proof.
  intros Hname Hne Hns Hf Hlen Hc s'. subst s'.
  rewrite (apply_selected_preset_found s name vs)
    by (try done; by apply Forall_take).
  simpl.
  assert (sbc_calls (levels_applied 0 vs s) =
          sbc_calls s ++ zip_with Build_BrightnessWorker (seq 0 (length vs)) vs)
    as Hcalls.
  { rewrite levels_applied_calls, Nat.sub_0_r.
    by rewrite zip_with_seq_short by lia. }
  split; [|split; [|split; [|split]]].
  - rewrite levels_applied_sliders. simpl. rewrite Nat.sub_0_r.
    by rewrite take_ge by lia.
  - done.
  - intros k Hk. unfold calls_for. simpl. rewrite Hcalls, filter_app.
    rewrite (filter_none _ (zip_with _ _ _)); [by rewrite app_nil_r|].
    eapply Forall_impl; [apply zip_with_seq_index|]. simpl. intros w ?. lia.
  - done.
  - by rewrite levels_applied_dropdown.
Qed.

(** ** Startup reconciliation *)

Lemma findText_Some text d i :
  findText text d = Some i → items d !! i = Some text.
Proof.
  unfold findText. destruct (list_find _ _) as [[j x]|] eqn:E; [|done].
  intros [= <-]. apply list_find_Some in E as (Hj & -> & _). done.
Qed.

Lemma findText_elem_of text d :
  text ∈ items d → is_Some (findText text d).
Proof.
  intros Hin. unfold findText.
  destruct (list_find_elem_of (λ it, it = text) (items d) text Hin eq_refl)
    as [[j x] ->]. by eexists.
Qed.

(** [setCurrentText] with the signals blocked: the index moves to the
    first entry with that text, if there is one. *)
Lemma dropdown_setCurrentText_blocked text s :
  signalsBlocked (dropdown s) = true →
  dropdown_setCurrentText text s =
    set_dropdown
      {| items := items (dropdown s);
         currentIndex := match findText text (dropdown s) with
                         | Some i => Some i
                         | None => currentIndex (dropdown s)
                         end;
         signalsBlocked := true |} s.
Proof.
  intros Hb. unfold dropdown_setCurrentText.
  destruct (findText text (dropdown s)) as [i|] eqn:E.
  - unfold dropdown_setCurrentIndex. rewrite dropdown_update_blocked by done.
    apply findText_Some, lookup_lt_Some in E. by rewrite decide_True.
  - destruct s as [? ? ? ? ? ? [? ? ?] ? ? ?]. simpl in *. by subst.
Qed.

Lemma currentText_setCurrentText text its idx b :
  text ∈ its →
  currentText
    {| items := its;
       currentIndex := match findText text {| items := its; currentIndex := idx;
                                               signalsBlocked := b |} with
                       | Some i => Some i
                       | None => idx
                       end;
       signalsBlocked := b |} = text.
Proof.
  intros Hin.
  destruct (findText_elem_of text
              {| items := its; currentIndex := idx; signalsBlocked := b |} Hin)
    as [i Hi].
  rewrite Hi. apply findText_Some in Hi. unfold currentText. simpl in *.
  by rewrite Hi.
Qed.

(** What the search loop returns. *)
Lemma find_matching_preset_Some f levels l m :
  find_matching_preset f levels l = Some m →
  ∃ l1 l2, l = l1 ++ m :: l2 ∧
    presets_dir f !! m = Some (Levels levels) ∧
    Forall (λ x, presets_dir f !! x ≠ Some (Levels levels)) l1.
Proof.
  induction l as [|x l IH]; [done|]. simpl.
  destruct (presets_dir f !! x) as [[vs|]|] eqn:E.
  - case_decide as Hvs.
    + intros [= <-]. exists [], l. subst. by repeat split.
    + intros (l1 & l2 & -> & Hm & Hl1)%IH. exists (x :: l1), l2.
      repeat split; [done|]. constructor; [|done]. congruence.
  - intros (l1 & l2 & -> & Hm & Hl1)%IH. exists (x :: l1), l2.
    repeat split; [done|]. constructor; [|done]. congruence.
  - intros (l1 & l2 & -> & Hm & Hl1)%IH. exists (x :: l1), l2.
    repeat split; [done|]. constructor; [|done]. congruence.
Qed.

Lemma find_matching_preset_None f levels l :
  find_matching_preset f levels l = None ↔
  Forall (λ x, presets_dir f !! x ≠ Some (Levels levels)) l.
Proof.
  induction l as [|x l IH]; [by split; [constructor|]|]. simpl.
  rewrite Forall_cons, <- IH.
  destruct (presets_dir f !! x) as [[vs|]|] eqn:E.
  - case_decide as Hvs.
    + subst. split; [done|]. by intros [? _].
    + split; [|tauto]. intros Hr. split; [congruence|done].
  - split; [|tauto]. by intros Hr.
  - split; [|tauto]. by intros Hr.
Qed.

(** In a sorted list the search returns the least matching name. *)
Lemma find_matching_preset_least f levels l m :
  StronglySorted String.le l →
  m ∈ l → presets_dir f !! m = Some (Levels levels) →
  (∀ m', m' ∈ l → presets_dir f !! m' = Some (Levels levels) → String.le m m') →
  find_matching_preset f levels l = Some m.
Proof.
  intros Hsorted Hin Hm Hleast.
  destruct (find_matching_preset f levels l) as [m'|] eqn:E.
  - f_equal. apply find_matching_preset_Some in E as (l1 & l2 & -> & Hm' & Hl1).
    assert (String.le m m') as Hle.
    { apply Hleast; [|done]. apply elem_of_app. right. apply elem_of_cons. by left. }
    apply elem_of_app in Hin as [Hin|Hin].
    + rewrite Forall_forall in Hl1. by destruct (Hl1 m Hin).
    + apply elem_of_cons in Hin as [->|Hin]; [done|].
      apply StronglySorted_app_1_r, StronglySorted_cons in Hsorted as [Hall _].
      rewrite Forall_forall in Hall.
      apply (anti_symm String.le); [|done]. by apply Hall.
  - apply find_matching_preset_None in E. rewrite Forall_forall in E.
    by destruct (E m Hin).
Qed.

(** The state after [load_user_prefs] when the preferences can be read. *)
Lemma load_user_prefs_unfold s p :
  prefs_file (fs s) = Some (PrefsObject p) →
  let levels := default [] (brightness_levels p) in
  Forall c_int (take (length (monitor_sliders s)) levels) →
  let s1 := levels_applied 0 levels s in
  let unsaved :=
    set_is_preset_saved false
      (set_dropdown {| items := UnsavedPreset :: presets_list s;
                       currentIndex := Some 0; signalsBlocked := false |} s1) in
  load_user_prefs s =
    match find_matching_preset (fs s) levels (presets_list s) with
    | Some m =>
        if decide (m ≠ EmptyString)
        then set_is_preset_saved true
               (set_dropdown
                  {| items := items (dropdown s);
                     currentIndex :=
                       match findText m (dropdown s) with
                       | Some i => Some i
                       | None => currentIndex (dropdown s)
                       end;
                     signalsBlocked := false |} s1)
        else unsaved
    | None => unsaved
    end.
Proof.
  intros Hp levels Hc s1 unsaved. unfold load_user_prefs. rewrite Hp.
  fold levels. rewrite apply_levels_returns by by rewrite Nat.sub_0_r.
  fold s1.
  assert (presets_list s1 = presets_list s) as Hl
    by apply levels_applied_presets_list.
  assert (dropdown s1 = dropdown s) as Hd by apply levels_applied_dropdown.
  assert (blockSignals false
            (set_is_preset_saved false (show_unsaved (blockSignals true s1))) =
          unsaved) as Hun.
  { rewrite show_unsaved_when_blocked by done. subst unsaved. simpl.
    by rewrite Hl. }
  destruct (find_matching_preset _ _ _) as [m|]; [|done].
  case_decide; [|done].
  rewrite dropdown_setCurrentText_blocked by done. simpl.
  unfold findText. simpl. by rewrite Hd.
Qed.

(** A value among the first [N] preference levels that is no C [int]
    ends [load_user_prefs] there: the levels before it are applied, the
    dropdown and the flag are left as they are. *)
Lemma load_user_prefs_aborted s p k v :
  prefs_file (fs s) = Some (PrefsObject p) →
  let levels := default [] (brightness_levels p) in
  Forall c_int (take k levels) → levels !! k = Some v → ¬ c_int v →
  k < length (monitor_sliders s) →
  load_user_prefs s = levels_applied 0 (take k levels) s.
Proof.
  intros Hp levels Hc Hk Hv Hlt. unfold load_user_prefs. rewrite Hp.
  fold levels. by rewrite (apply_levels_raises levels 0 s k v).
Qed.

(** C9. When the preference levels are more than the displays and the
    first [N] of them are C [int]s (as brightness levels are), the loop
    over the levels returns without raising (no index leaves the slider
    list), exactly the first [N] entries reach the [N] sliders (bounded to
    the slider range) and the [N] workers, the later entries reach nothing,
    whatever they are, and the slot runs to its end (the dropdown's signals
    are unblocked again). *)
Theorem C9_longer_prefs_apply_prefix s p :
  prefs_file (fs s) = Some (PrefsObject p) →
  let levels := default [] (brightness_levels p) in
  let N := length (monitor_sliders s) in
  N < length levels →
  Forall c_int (take N levels) →
  let s' := load_user_prefs s in
  (∃ s1, apply_levels 0 levels s = Returned s1) ∧
  monitor_sliders s' = bound <$> take N levels ∧
  sbc_calls s' =
    sbc_calls s ++ zip_with Build_BrightnessWorker (seq 0 N) (take N levels) ∧
  length (monitor_sliders s') = N ∧
  signalsBlocked (dropdown s') = false.
Proof.
  intros Hp levels N Hlen Hfit s'. subst s'.
  split; [eexists; apply apply_levels_returns; by rewrite Nat.sub_0_r|].
  rewrite (load_user_prefs_unfold s p Hp Hfit). fold levels.
  assert (monitor_sliders (levels_applied 0 levels s) = bound <$> take N levels)
    as Hs.
  { rewrite levels_applied_sliders. simpl. rewrite Nat.sub_0_r.
    fold N. rewrite drop_ge by (fold N; lia). by rewrite app_nil_r. }
  assert (sbc_calls (levels_applied 0 levels s) =
          sbc_calls s ++ zip_with Build_BrightnessWorker (seq 0 N) (take N levels))
    as Hc.
  { rewrite levels_applied_calls, Nat.sub_0_r. fold N.
    by rewrite <- zip_with_seq_long. }
  assert (length (bound <$> take N levels) = N) as HN.
  { rewrite length_fmap, length_take. lia. }
  destruct (find_matching_preset _ _ _) as [m|]; [case_decide|]; simpl;
    by rewrite Hs, Hc, HN.
Qed.

Lemma load_monitors_state hw f :
  let s0 := load_monitors (Some hw) (initial f) in
  fs s0 = f ∧ presets_list s0 = scan_presets f ∧
  dropdown s0 = {| items := scan_presets f;
                   currentIndex := match scan_presets f with
                                   | [] => None
                                   | _ :: _ => Some 0
                                   end;
                   signalsBlocked := false |} ∧
  monitor_sliders s0 = bound <$> hw.
Proof.
  simpl. rewrite load_presets_presets_list, load_presets_dropdown.
  by rewrite (quiet_fs _ _ (quiet_load_presets (initial f))).
Qed.

(** C1. Startup reconciliation.  With readable preferences holding
    [levels], of which those that meet a display are C [int]s (as
    brightness levels are): if [m] is a preset (a [".json"] file of the presets
    directory) whose stored sequence equals [levels] and [m] is least, in
    string order, among the presets with that property, then after startup
    the dropdown shows [m] and the saved flag is set (Matched [m]); if no
    preset stores exactly [levels], the dropdown is the sentinel followed
    by the sorted preset names, the sentinel is selected and the saved flag
    is cleared (NoMatch).  Equality of sequences is equality of lists, so
    it is sensitive to order and length. *)
Theorem C1_startup_reconciliation hw f p :
  prefs_file f = Some (PrefsObject p) →
  let levels := default [] (brightness_levels p) in
  Forall c_int (take (length hw) levels) →
  let matches m :=
    endswith m json_suffix = true ∧ presets_dir f !! m = Some (Levels levels) in
  let s := startup hw f in
  StronglySorted String.le (presets_list s) ∧
  (∀ m, matches m → (∀ m', matches m' → String.le m m') →
        currentText (dropdown s) = m ∧ is_preset_saved s = true) ∧
  ((∀ m, ¬ matches m) →
        currentText (dropdown s) = UnsavedPreset ∧
        items (dropdown s) = UnsavedPreset :: presets_list s ∧
        is_preset_saved s = false).
Proof.
  intros Hp levels Hfit matches s. subst s. unfold startup.
  destruct (load_monitors_state hw f) as (Hfs & Hl & Hd & Hs).
  set (s0 := load_monitors (Some hw) (initial f)) in *.
  assert (prefs_file (fs s0) = Some (PrefsObject p)) as Hp0 by by rewrite Hfs.
  rewrite (load_user_prefs_unfold s0 p Hp0)
    by (by rewrite Hs, length_fmap).
  fold levels.
  rewrite Hfs, Hl, Hd.
  split; [|split].
  - assert (∀ t, presets_list t = scan_presets f →
                 StronglySorted String.le (presets_list t)) as Hsorted.
    { intros t ->. apply scan_presets_sorted. }
    destruct (find_matching_preset _ _ _); [case_decide|]; apply Hsorted;
      simpl; by rewrite levels_applied_presets_list.
  - intros m [Hjson Hm] Hleast.
    assert (m ∈ scan_presets f) as Hin.
    { apply elem_of_scan_presets. by rewrite Hm. }
    rewrite (find_matching_preset_least f levels _ m);
      [|apply scan_presets_sorted|done|done|].
    + rewrite decide_True by by apply endswith_json_nonempty.
      simpl. split; [|done].
      exact (currentText_setCurrentText m (scan_presets f) _ false Hin).
    + intros m' [_ Hjson']%elem_of_scan_presets Hm'. apply Hleast. by split.
  - intros Hnone.
    assert (find_matching_preset f levels (scan_presets f) = None) as ->.
    { apply find_matching_preset_None, Forall_forall.
      intros x [_ Hx]%elem_of_scan_presets Hm. apply (Hnone x). by split. }
    simpl. by rewrite levels_applied_presets_list, Hl.
Qed.

(** ** Editing a matched preset *)

(** C8. In every reachable state whose saved flag is set (Matched), the
    slot run on a slider change clears the flag and rebuilds the dropdown
    as the sentinel followed by the known preset names, which are in
    sorted order, with the sentinel selected (NoMatch). *)
Theorem C8_slider_change_deselects idx v s :
  reachable s → is_preset_saved s = true →
  let s' := monitor_slider_changed idx v s in
  is_preset_saved s' = false ∧
  items (dropdown s') = UnsavedPreset :: presets_list s ∧
  StronglySorted String.le (presets_list s) ∧
  presets_list s' = presets_list s ∧
  currentIndex (dropdown s') = Some 0 ∧
  currentText (dropdown s') = UnsavedPreset.
Proof.
  intros Hr Hsaved s'. subst s'.
  rewrite monitor_slider_changed_unfold, Hsaved. simpl.
  repeat split; try done.
  destruct (inv_presets s (reachable_Inv s Hr)) as [f ->].
  apply scan_presets_sorted.
Qed.

(** ** Deleting a preset *)

Lemma delete_selected_preset_unfold (move_ok : bool) s c :
  currentText (dropdown s) ≠ EmptyString →
  currentText (dropdown s) ≠ UnsavedPreset →
  presets_dir (fs s) !! currentText (dropdown s) = Some c →
  let s1 := if move_ok
            then set_fs (move_to_restore (currentText (dropdown s)) (fs s)) s
            else s in
  let s3 := reset_sliders_to_default (load_presets s1) in
  delete_selected_preset move_ok s =
    set_is_preset_saved false
      (set_dropdown {| items := UnsavedPreset :: presets_list s3;
                       currentIndex := Some 0; signalsBlocked := false |} s3).
Proof.
  intros Hne Hns Hc s1 s3. unfold delete_selected_preset.
  rewrite decide_True by done. rewrite Hc.
  by rewrite show_unsaved_blocked.
Qed.

Lemma delete_selected_preset_skip move_ok s :
  currentText (dropdown s) = EmptyString ∨
  currentText (dropdown s) = UnsavedPreset ∨
  presets_dir (fs s) !! currentText (dropdown s) = None →
  delete_selected_preset move_ok s = s.
Proof.
  intros H. unfold delete_selected_preset. case_decide as Hd; [|done].
  destruct H as [H|[H|H]]; [tauto|tauto|]. by rewrite H.
Qed.

(** In a reachable state the dropdown shows the sentinel, nothing, or one
    of the listed presets. *)
Lemma currentText_listed s :
  Inv s →
  currentText (dropdown s) ≠ EmptyString →
  currentText (dropdown s) ≠ UnsavedPreset →
  currentText (dropdown s) ∈ presets_list s ∧
  endswith (currentText (dropdown s)) json_suffix = true.
Proof.
  intros [[f Hf] Hd _ _ _] Hne Hns.
  assert (currentText (dropdown s) ∈ items (dropdown s)) as Hin.
  { unfold currentText in *. destruct (currentIndex (dropdown s)) as [i|]; [|done].
    destruct (items (dropdown s) !! i) as [x|] eqn:E; [|done].
    by apply list_elem_of_lookup_2 in E. }
  assert (currentText (dropdown s) ∈ presets_list s) as Hin'.
  { destruct Hd as [Hd|Hd]; rewrite Hd in Hin; [done|].
    apply elem_of_cons in Hin as [?|?]; done. }
  split; [done|]. rewrite Hf in Hin'.
  by apply elem_of_scan_presets in Hin' as [_ ?].
Qed.

(** C6. When the selected name is not the sentinel and its file exists,
    the delete slot reloads the preset list from the directory, leaves
    every slider at 50 and, as its last calls, starts one worker with
    value 50 for every display; the saved flag is cleared and the dropdown
    is the sentinel followed by the reloaded list, sentinel selected. *)
Theorem C6_delete_resets_to_default (move_ok : bool) s c :
  currentText (dropdown s) ≠ EmptyString →
  currentText (dropdown s) ≠ UnsavedPreset →
  presets_dir (fs s) !! currentText (dropdown s) = Some c →
  let N := length (monitor_sliders s) in
  let s' := delete_selected_preset move_ok s in
  presets_list s' = scan_presets (fs s') ∧
  monitor_sliders s' = replicate N 50%Z ∧
  (∃ before,
     sbc_calls s' =
       sbc_calls s ++ before
       ++ ((λ idx, Build_BrightnessWorker idx 50%Z) <$> seq 0 N)) ∧
  is_preset_saved s' = false ∧
  items (dropdown s') = UnsavedPreset :: presets_list s' ∧
  currentIndex (dropdown s') = Some 0 ∧
  currentText (dropdown s') = UnsavedPreset.
Proof.
  intros Hne Hns Hc N s'. subst s'.
  rewrite (delete_selected_preset_unfold move_ok s c) by done.
  set (s1 := if move_ok then _ else s).
  assert (length (monitor_sliders s1) = N ∧ sbc_calls s1 = sbc_calls s)
    as [HN Hcalls] by (subst s1; by destruct move_ok).
  destruct (reset_sliders_to_default_spec (load_presets s1))
    as (Hb & Hsl & Hl & _ & _ & Hcs).
  destruct (quiet_load_presets s1) as (Hb1 & Hlen1 & _ & before & Hc1).
  simpl. rewrite Hl, Hsl, Hcs, Hlen1, HN, Hc1, Hcalls.
  split; [|split; [done|split; [|by repeat split]]].
  - rewrite load_presets_presets_list. f_equal.
    by rewrite (quiet_fs _ _ (quiet_reset_sliders_to_default _)),
      (quiet_fs _ _ (quiet_load_presets _)).
  - exists before. by rewrite (assoc_L (++)).
Qed.

(** C7. In a reachable state the delete slot changes nothing when the
    selected name is empty, is the sentinel, or names no file.  Otherwise,
    if the move succeeds the file is gone from the presets directory, the
    restore directory holds its content under the same name, and the name
    is no longer listed; if the move fails the slot still returns, the
    files are as before and the name is still in the preset list and in the
    dropdown. *)
Theorem C7_delete_moves_or_ignores (move_ok : bool) s :
  reachable s →
  let name := currentText (dropdown s) in
  let s' := delete_selected_preset move_ok s in
  ((name = EmptyString ∨ name = UnsavedPreset ∨
    presets_dir (fs s) !! name = None) → s' = s) ∧
  (∀ c, name ≠ EmptyString → name ≠ UnsavedPreset →
        presets_dir (fs s) !! name = Some c →
        if move_ok
        then (presets_dir (fs s') = delete name (presets_dir (fs s)) ∧
              preset_restore_dir (fs s') =
                <[name := c]> (preset_restore_dir (fs s)) ∧
              (name ∉ presets_list s') ∧ (name ∉ items (dropdown s')))
        else (fs s' = fs s ∧
              name ∈ presets_list s' ∧ name ∈ items (dropdown s'))).
Proof.
  intros Hr name s'. subst s'. split.
  - apply delete_selected_preset_skip.
  - intros c Hne Hns Hc.
    destruct (currentText_listed s (reachable_Inv s Hr) Hne Hns) as [_ Hjson].
    rewrite (delete_selected_preset_unfold move_ok s c) by done. fold name.
    set (s1 := if move_ok then _ else s).
    destruct (reset_sliders_to_default_spec (load_presets s1))
      as (Hb & _ & Hl & _).
    destruct (quiet_load_presets s1) as (Hb1 & _).
    assert (fs (reset_sliders_to_default (load_presets s1)) = fs s1) as Hfs.
    { by rewrite (quiet_fs _ _ (quiet_reset_sliders_to_default _)),
        (quiet_fs _ _ (quiet_load_presets _)). }
    simpl. rewrite Hfs, Hl, load_presets_presets_list.
    subst s1. destruct move_ok; simpl.
    + unfold move_to_restore. rewrite Hc. simpl.
      assert (name ∉ scan_presets
                {| presets_dir := delete name (presets_dir (fs s));
                   preset_restore_dir := <[name:=c]> (preset_restore_dir (fs s));
                   elsewhere := elsewhere (fs s);
                   prefs_file := prefs_file (fs s) |}) as Hnot.
      { rewrite elem_of_scan_presets. simpl. rewrite lookup_delete_eq.
        by intros [[? ?] _]. }
      repeat split; [done|].
      rewrite elem_of_cons. by intros [?|?].
    + assert (name ∈ scan_presets (fs s)) as Hin.
      { apply elem_of_scan_presets. by rewrite Hc. }
      repeat split; [done|]. apply elem_of_cons. by right.
Qed.

(** ** Saving a preset *)

Lemma save_current_preset_unfold p s :
  let s2 := set_is_preset_saved true
              (set_fs (write_file (with_json_suffix p)
                                  (Levels (monitor_sliders s)) (fs s)) s) in
  let s3 := load_presets s2 in
  save_current_preset (Some p) WriteOk s =
    Returned
      (set_dropdown
         {| items := items (dropdown s3);
            currentIndex := match findText (basename p) (dropdown s3) with
                            | Some i => Some i
                            | None => currentIndex (dropdown s3)
                            end;
            signalsBlocked := false |} s3).
Proof.
  intros s2 s3. unfold save_current_preset. f_equal.
  by rewrite dropdown_setCurrentText_blocked.
Qed.

Lemma save_current_preset_fs p s s1 :
  save_current_preset (Some p) WriteOk s = Returned s1 →
  fs s1 = write_file (with_json_suffix p) (Levels (monitor_sliders s)) (fs s).
Proof.
  rewrite save_current_preset_unfold. intros [= <-]. simpl.
  by rewrite (quiet_fs _ _ (quiet_load_presets _)).
Qed.

(** The saved flag, once set, survives the dropdown updates. *)
Lemma apply_selected_preset_keeps_saved s :
  is_preset_saved s = true → is_preset_saved (apply_selected_preset s) = true.
Proof.
  intros Hs. unfold apply_selected_preset. case_decide; [done|].
  destruct (presets_dir (fs s) !! _) as [[vs|]|]; [|done..].
  destruct (apply_levels_frame 0 vs s) as (_ & _ & _ & Hsaved).
  destruct (apply_levels 0 vs s); [done|]. simpl in Hsaved. congruence.
Qed.

Lemma dropdown_update_keeps_saved its idx s :
  is_preset_saved s = true → is_preset_saved (dropdown_update its idx s) = true.
Proof.
  intros Hs. unfold dropdown_update. case_decide; [done|].
  destruct (signalsBlocked _); [done|].
  by apply apply_selected_preset_keeps_saved.
Qed.

Lemma load_presets_keeps_saved s :
  is_preset_saved s = true → is_preset_saved (load_presets s) = true.
Proof.
  intros Hs.
  assert (∀ l t, is_preset_saved t = true →
                 is_preset_saved (dropdown_addItems l t) = true) as Hadd.
  { unfold dropdown_addItems.
    induction l as [|x l IH]; intros t Ht; [done|]. simpl. apply IH.
    unfold dropdown_addItem.
    destruct (items (dropdown t)); by apply dropdown_update_keeps_saved. }
  unfold load_presets, dropdown_clear. apply Hadd. simpl.
  by apply dropdown_update_keeps_saved.
Qed.

(** Saving under a name that already ends in [".json"], inside the
    presets directory, leaves that name selected and the flag set. *)
Lemma save_selects_suffixed_name base s s1 :
  endswith base json_suffix = true →
  save_current_preset (Some (InPresetsDir, base)) WriteOk s = Returned s1 →
  currentText (dropdown s1) = base ∧ is_preset_saved s1 = true.
Proof.
  intros Hjson. rewrite save_current_preset_unfold. intros [= <-].
  set (s2 := set_is_preset_saved true _).
  assert (base ∈ scan_presets (fs s2)) as Hin.
  { apply elem_of_scan_presets. split; [|done]. subst s2. simpl.
    unfold with_json_suffix, write_file. simpl. rewrite Hjson. simpl.
    rewrite lookup_insert_eq. by eexists. }
  split.
  - simpl. rewrite load_presets_dropdown. unfold basename. simpl.
    exact (currentText_setCurrentText base (scan_presets (fs s2)) _ false Hin).
  - simpl. by apply load_presets_keeps_saved.
Qed.

(** C2. Round trip.  Saving the current slider values under a name in the
    presets directory writes exactly that sequence to the preset's file;
    in any later state with the same files and the same number of
    displays in which that preset is the selected entry, applying it reads
    the same sequence back, sets the sliders to exactly the saved values
    and starts one worker per display with those values.  Slider values
    are within 0..100, as in every reachable state. *)
Theorem C2_preset_round_trip base s s1 s2 :
  sliders_in_range s →
  save_current_preset (Some (InPresetsDir, base)) WriteOk s = Returned s1 →
  let name := (with_json_suffix (InPresetsDir, base)).2 in
  let data := monitor_sliders s in
  fs s2 = fs s1 →
  length (monitor_sliders s2) = length data →
  currentText (dropdown s2) = name →
  presets_dir (fs s1) !! name = Some (Levels data) ∧
  monitor_sliders (apply_selected_preset s2) = data ∧
  sbc_calls (apply_selected_preset s2) =
    sbc_calls s2 ++ zip_with Build_BrightnessWorker (seq 0 (length data)) data ∧
  is_preset_saved (apply_selected_preset s2) = true.
Proof.
  intros Hrange Hsave name data Hfs Hlen Hname.
  pose proof (with_json_suffix_endswith (InPresetsDir, base)) as Hjson.
  fold name in Hjson.
  assert (presets_dir (fs s1) !! name = Some (Levels data)) as Hfile.
  { rewrite (save_current_preset_fs _ _ _ Hsave). subst name data.
    unfold with_json_suffix, write_file. simpl.
    destruct (endswith base json_suffix); simpl; by rewrite lookup_insert_eq. }
  split; [done|].
  rewrite (apply_selected_preset_found s2 name data); try done.
  - simpl. rewrite levels_applied_sliders, levels_applied_calls. simpl.
    rewrite Nat.sub_0_r, Hlen.
    rewrite take_ge, drop_ge, app_nil_r by lia.
    by rewrite bound_fmap_id.
  - by apply endswith_json_nonempty.
  - by apply endswith_json_not_sentinel.
  - by rewrite Hfs.
  - by apply Forall_take, Forall_in_range_c_int.
Qed.

(** The preferences writer swallows every error of its write. *)
Lemma save_user_prefs_returns pos w s :
  ∃ s', save_user_prefs pos w s = Returned s'.
Proof. destruct w; by eexists. Qed.

(** C4. An I/O error while writing is not swallowed by the save slot: when
    [open] raises, the exception leaves the slot with the state and the
    files untouched; when [json.dump] raises, it leaves the slot with the
    target file truncated.  In neither case does the slot return. *)
Theorem C4_write_error_escapes p s :
  save_current_preset (Some p) OpenRaises s = Raised s ∧
  save_current_preset (Some p) DumpRaises s =
    Raised (set_fs (write_file (with_json_suffix p) Malformed (fs s)) s).
Proof. done. Qed.

(** ** Debounce *)

Lemma calls_for_fmap idx (l : list QTimer) :
  filter (λ w, monitor_index w = idx)
         ((λ t, Build_BrightnessWorker (t_idx t) (t_val t)) <$> l) =
  (λ t, Build_BrightnessWorker (t_idx t) (t_val t))
    <$> filter (λ t, t_idx t = idx) l.
Proof.
  induction l as [|t l IH]; [done|]. csimpl.
  rewrite !filter_cons. simpl. case_decide; csimpl; by rewrite IH.
Qed.

(** The calls for one display after some time has passed: the old ones,
    then the callbacks of its due timers. *)
Lemma elapse_calls_for idx dt s :
  ∃ fired,
    calls_for idx (elapse dt s) =
      calls_for idx s
      ++ ((λ t, Build_BrightnessWorker (t_idx t) (t_val t)) <$> fired) ∧
    fired ≡ₚ filter (λ t, t_idx t = idx ∧ due (now s + dt) t) (timers s).
Proof.
  exists (filter (λ t, t_idx t = idx)
            (merge_sort earlier (filter (due (now s + dt)) (timers s)))).
  split.
  - unfold calls_for, elapse.
    match goal with |- context [foldl _ ?t0 ?l0] =>
      destruct (run_callbacks_spec l0 t0) as (_ & _ & _ & _ & _ & ->) end.
    simpl. by rewrite filter_app, calls_for_fmap.
  - rewrite merge_sort_Permutation. by rewrite list_filter_filter.
Qed.

(** A display's active timers, when all timers are registered: at most
    the one named by the dictionary. *)
Lemma registered_active_unique idx s k t :
  timers_registered s →
  brightness_update_timers s !! idx = Some k →
  timers s !! k = Some t → t_idx t = idx →
  ∀ j t', timers s !! j = Some t' → t_idx t' = idx ∧ t_active t' = true → j = k.
Proof.
  intros Hreg Hk Ht Hidx j t' Hj [Hidx' Hact].
  specialize (Hreg j t' Hj Hact). rewrite Hidx' in Hreg. congruence.
Qed.

Section pending.
Variables (idx d : nat) (v : Z).

Lemma pending_active_timers s :
  pending idx d v s →
  active_timers_for idx s =
    [{| t_deadline := d; t_idx := idx; t_val := v; t_active := true |}].
Proof.
  intros (Hreg & k & Hk & Ht). unfold active_timers_for.
  apply (filter_only _ _ k); [done|done|].
  by apply (registered_active_unique idx s k _ Hreg Hk Ht).
Qed.

Lemma pending_due_timers s t_now :
  pending idx d v s →
  filter (λ t, t_idx t = idx ∧ due t_now t) (timers s) =
    if decide (d ≤ t_now)
    then [{| t_deadline := d; t_idx := idx; t_val := v; t_active := true |}]
    else [].
Proof.
  intros (Hreg & k & Hk & Ht). case_decide as Hd.
  - apply (filter_only _ _ k); [done|by repeat split|].
    intros j t' Hj (Hi & Ha & _).
    by apply (registered_active_unique idx s k _ Hreg Hk Ht eq_refl j t').
  - apply filter_none, Forall_lookup. intros j t' Hj (Hi & Ha & Hdue).
    assert (j = k) as ->
      by by apply (registered_active_unique idx s k _ Hreg Hk Ht eq_refl j t').
    rewrite Ht in Hj. injection Hj as <-. simpl in *. lia.
Qed.

(** Before the deadline nothing is issued for the display and its timer
    stays pending. *)
Lemma pending_elapse_early dt s :
  pending idx d v s → now s + dt < d →
  pending idx d v (elapse dt s) ∧ calls_for idx (elapse dt s) = calls_for idx s.
Proof.
  intros Hp Hlt. split.
  - destruct Hp as (Hreg & k & Hk & Ht).
    split; [by apply elapse_registered|]. exists k.
    destruct (elapse_timers dt s) as (-> & -> & _).
    split; [done|]. rewrite list_lookup_fmap, Ht. simpl. f_equal.
    unfold fire. rewrite decide_False; [done|]. intros [_ ?]. simpl in *. lia.
  - destruct (elapse_calls_for idx dt s) as (fired & -> & Hperm).
    rewrite (pending_due_timers s _ Hp), decide_False in Hperm by lia.
    apply Permutation_nil_r in Hperm as ->. by rewrite app_nil_r.
Qed.

(** At or after the deadline exactly the pending value is issued. *)
Lemma pending_elapse_due dt s :
  pending idx d v s → d ≤ now s + dt →
  calls_for idx (elapse dt s) =
    calls_for idx s ++ [{| monitor_index := idx; value := v |}] ∧
  active_timers_for idx (elapse dt s) = [].
Proof.
  intros Hp Hle. split.
  - destruct (elapse_calls_for idx dt s) as (fired & -> & Hperm).
    rewrite (pending_due_timers s _ Hp), decide_True in Hperm by lia.
    by apply Permutation_singleton_r in Hperm as ->.
  - destruct Hp as (Hreg & k & Hk & Ht). unfold active_timers_for.
    destruct (elapse_timers dt s) as (-> & _).
    apply filter_none, Forall_lookup. intros j t'.
    rewrite list_lookup_fmap. intros Hj [Hi Ha].
    destruct (timers s !! j) as [t0|] eqn:Ej; [|done].
    simpl in Hj. injection Hj as <-.
    unfold fire in Hi, Ha. case_decide as Hdue; [done|].
    assert (j = k) as ->
      by by apply (registered_active_unique _ s k _ Hreg Hk Ht eq_refl j t0).
    rewrite Ht in Ej. injection Ej as <-. apply Hdue. split; simpl; [done|lia].
Qed.
End pending.

(** A slider change leaves exactly its own timer pending and issues
    nothing. *)
Lemma monitor_slider_changed_pending idx v s :
  timers_registered s →
  let s' := monitor_slider_changed idx v s in
  pending idx (now s + 50) v s' ∧ now s' = now s ∧ sbc_calls s' = sbc_calls s.
Proof.
  intros Hreg s'. subst s'. rewrite monitor_slider_changed_unfold.
  set (s1 := if is_preset_saved s then _ else s).
  assert (timers s1 = timers s ∧
          brightness_update_timers s1 = brightness_update_timers s ∧
          now s1 = now s ∧ sbc_calls s1 = sbc_calls s) as (Ht & Hd & Hn & Hc).
  { subst s1. by destruct (is_preset_saved s). }
  assert (timers_registered s1) as Hreg1.
  { unfold timers_registered. by rewrite Ht, Hd. }
  split; [|by split].
  split; [by apply start_timer_registered|].
  unfold start_timer. simpl.
  set (stopped := match brightness_update_timers s1 !! idx with
                  | Some k0 => alter stop k0 (timers s1)
                  | None => timers s1
                  end).
  exists (length stopped). rewrite lookup_insert_eq. split; [done|].
  rewrite lookup_app_r, Nat.sub_diag by lia. simpl. by rewrite Hn.
Qed.

Lemma slider_burst_pending idx moves : ∀ v0 s,
  Forall (λ m, m.1 < 50) moves →
  pending idx (now s + 50) v0 s →
  let s' := slider_burst idx moves s in
  pending idx (now s' + 50) (final_value v0 moves) s' ∧
  calls_for idx s' = calls_for idx s.
Proof.
  induction moves as [|[gap v] moves IH]; intros v0 s Hgaps Hp; [done|].
  apply Forall_cons in Hgaps as [Hgap Hgaps]. simpl in Hgap.
  destruct (pending_elapse_early idx _ v0 gap s Hp) as [[Hreg _] Hcalls];
    [lia|].
  destruct (monitor_slider_changed_pending idx v (elapse gap s) Hreg)
    as (Hp' & Hn & Hc).
  rewrite <- Hn in Hp'.
  destruct (IH v _ Hgaps Hp') as [Hp'' Hcalls'']. simpl.
  split.
  - replace (final_value v0 ((gap, v) :: moves)) with (final_value v moves);
      [done|].
    unfold final_value. csimpl. destruct (moves.*2) as [|z l]; [done|].
    rewrite last_cons_cons.
    by destruct (proj2 (last_is_Some (z :: l)) ltac:(done)) as [x ->].
  - rewrite Hcalls''. unfold calls_for. rewrite Hc. apply Hcalls.
Qed.

(** C3. Debounce, last write wins.  From a reachable state, a change of
    a display's slider followed by any finite sequence of further changes
    of that slider, each less than 50 ms after the previous one, issues no
    call for that display while the burst lasts and leaves exactly one
    active timer for it, which carries the last value (every earlier timer
    was stopped by the change that followed it); once 50 ms or more pass,
    exactly one call has been added for that display, carrying the last
    value, and no timer for it remains active. *)
Theorem C3_debounce_last_write_wins idx v0 moves wait s :
  reachable s →
  Forall (λ m, m.1 < 50) moves → 50 ≤ wait →
  let burst := slider_burst idx moves (monitor_slider_changed idx v0 s) in
  let s' := elapse wait burst in
  calls_for idx burst = calls_for idx s ∧
  active_timers_for idx burst =
    [{| t_deadline := now burst + 50; t_idx := idx;
        t_val := final_value v0 moves; t_active := true |}] ∧
  calls_for idx s' =
    calls_for idx s
    ++ [{| monitor_index := idx; value := final_value v0 moves |}] ∧
  active_timers_for idx s' = [].
Proof.
  intros Hr Hgaps Hwait burst s'.
  destruct (monitor_slider_changed_pending idx v0 s
              (inv_timers s (reachable_Inv s Hr))) as (Hp & Hn & Hc).
  rewrite <- Hn in Hp.
  destruct (slider_burst_pending idx moves v0 _ Hgaps Hp) as [Hp' Hcalls].
  fold burst in Hp', Hcalls.
  assert (calls_for idx burst = calls_for idx s) as Hsame.
  { rewrite Hcalls. unfold calls_for. by rewrite Hc. }
  destruct (pending_elapse_due idx _ _ wait burst Hp') as [Hfire Hnone];
    [lia|].
  split; [done|]. split; [by apply pending_active_timers|].
  split; [|done]. subst s'. by rewrite Hfire, Hsame.
Qed.

(** C5. The edited levels saved under the name ["night"], typed without
    the extension: the file ["night.json"] is written and listed and the
    saved flag is set, but the dropdown shows ["a.json"], the first entry,
    because the slot looks up the base name without the suffix it added. *)
Theorem C5_save_without_suffix_selects_other :
  ∃ s1,
    save_current_preset (Some (InPresetsDir, "night")) WriteOk demo_edited
      = Returned s1 ∧
    presets_dir (fs s1) !! "night.json" = Some (Levels [33; 40]%Z) ∧
    presets_list s1 = ["a.json"; "b.json"; "dim.json"; "night.json"] ∧
    is_preset_saved s1 = true ∧
    currentText (dropdown s1) = "a.json".
Proof.
  eexists. split; [apply save_current_preset_unfold|].
  vm_compute. by repeat split.
Qed.

(** ** The theorems at the concrete installation *)

Ltac all_c_int :=
  simpl; repeat (constructor; [unfold c_int; lia|]); constructor.

Lemma demo_state_reachable : reachable demo_state.
Proof. apply reach_load_user_prefs, reach_load_monitors. Qed.

Lemma demo_matches_only m :
  presets_dir demo_files !! m = Some (Levels [40; 40]%Z) →
  m = "a.json" ∨ m = "b.json".
Proof.
  unfold demo_files. simpl.
  destruct (decide (m = "b.json")) as [->|Hb]; [by right|].
  rewrite lookup_insert_ne by done.
  destruct (decide (m = "a.json")) as [->|Ha]; [by left|].
  rewrite lookup_insert_ne by done.
  destruct (decide (m = "dim.json")) as [->|Hd];
    [by rewrite lookup_insert_eq|].
  rewrite lookup_insert_ne by done.
  destruct (decide (m = "notes.txt")) as [->|Hn];
    [by rewrite lookup_insert_eq|].
  by rewrite lookup_insert_ne, lookup_empty.
Qed.

Lemma C1_startup_reconciliation_witness :
  prefs_file demo_files = Some (PrefsObject demo_prefs) ∧
  Forall c_int (take 2 [40; 40]%Z) ∧
  currentText (dropdown (startup [70; 80]%Z demo_files)) = "a.json" ∧
  is_preset_saved (startup [70; 80]%Z demo_files) = true.
Proof.
  assert (Forall c_int (take 2 [40; 40]%Z)) as Hfit by all_c_int.
  split; [reflexivity|]. split; [exact Hfit|].
  apply (C1_startup_reconciliation [70; 80]%Z demo_files demo_prefs eq_refl
           Hfit).
  - split; vm_compute; reflexivity.
  - intros m' [_ [->| ->]%demo_matches_only]; vm_compute; exact I.
Defined.

Lemma C2_preset_round_trip_witness :
  sliders_in_range demo_edited ∧
  save_current_preset (Some (InPresetsDir, "night.json")) WriteOk demo_edited
    = Returned demo_saved ∧
  presets_dir (fs demo_saved) !! "night.json" = Some (Levels [33; 40]%Z) ∧
  monitor_sliders (apply_selected_preset demo_saved) = [33; 40]%Z.
Proof.
  assert (sliders_in_range demo_edited) as Hr.
  { vm_compute. repeat constructor; discriminate. }
  assert (save_current_preset (Some (InPresetsDir, "night.json")) WriteOk
            demo_edited = Returned demo_saved) as Hs.
  { reflexivity. }
  split; [exact Hr|]. split; [exact Hs|].
  destruct (C2_preset_round_trip "night.json" demo_edited demo_saved demo_saved
              Hr Hs eq_refl) as (Hfile & Hsl & _).
  - vm_compute. reflexivity.
  - vm_compute. reflexivity.
  - split; [exact Hfile|exact Hsl].
Defined.

Lemma C3_debounce_last_write_wins_witness :
  reachable demo_state ∧
  Forall (λ m : nat * Z, m.1 < 50) [(10, 45%Z); (49, 60%Z)] ∧
  50 ≤ 50 ∧
  calls_for 0
    (elapse 50
       (slider_burst 0 [(10, 45%Z); (49, 60%Z)]
          (monitor_slider_changed 0 30%Z demo_state))) =
    calls_for 0 demo_state ++ [{| monitor_index := 0; value := 60%Z |}].
Proof.
  assert (Forall (λ m : nat * Z, m.1 < 50) [(10, 45%Z); (49, 60%Z)]) as Hgaps.
  { repeat constructor; simpl; lia. }
  split; [exact demo_state_reachable|]. split; [exact Hgaps|].
  split; [lia|].
  apply (C3_debounce_last_write_wins 0 30%Z [(10, 45%Z); (49, 60%Z)] 50
           demo_state demo_state_reachable Hgaps).
  lia.
Defined.

Lemma C6_delete_resets_to_default_witness :
  currentText (dropdown demo_state) ≠ EmptyString ∧
  currentText (dropdown demo_state) ≠ UnsavedPreset ∧
  presets_dir (fs demo_state) !! currentText (dropdown demo_state)
    = Some (Levels [40; 40]%Z) ∧
  monitor_sliders (delete_selected_preset true demo_state) = [50; 50]%Z ∧
  is_preset_saved (delete_selected_preset true demo_state) = false.
Proof.
  assert (currentText (dropdown demo_state) ≠ EmptyString) as H1.
  { vm_compute. discriminate. }
  assert (currentText (dropdown demo_state) ≠ UnsavedPreset) as H2.
  { vm_compute. discriminate. }
  assert (presets_dir (fs demo_state) !! currentText (dropdown demo_state)
            = Some (Levels [40; 40]%Z)) as H3.
  { vm_compute. reflexivity. }
  split; [exact H1|]. split; [exact H2|]. split; [exact H3|].
  destruct (C6_delete_resets_to_default true demo_state _ H1 H2 H3)
    as (_ & Hs & _ & Hf & _).
  split; [exact Hs|exact Hf].
Defined.

Lemma C7_delete_moves_or_ignores_witness :
  reachable demo_state ∧
  preset_restore_dir (fs (delete_selected_preset true demo_state))
    = <["a.json" := Levels [40; 40]%Z]> ∅ ∧
  fs (delete_selected_preset false demo_state) = fs demo_state.
Proof.
  split; [exact demo_state_reachable|].
  assert (currentText (dropdown demo_state) = "a.json") as Hname.
  { vm_compute. reflexivity. }
  assert (presets_dir (fs demo_state) !! "a.json" = Some (Levels [40; 40]%Z))
    as Hfile.
  { vm_compute. reflexivity. }
  split.
  - destruct (C7_delete_moves_or_ignores true demo_state demo_state_reachable)
      as [_ Hmove].
    rewrite Hname in Hmove.
    destruct (Hmove (Levels [40; 40]%Z)) as (_ & Hr & _);
      [discriminate|discriminate|exact Hfile|].
    rewrite Hr. vm_compute. reflexivity.
  - destruct (C7_delete_moves_or_ignores false demo_state demo_state_reachable)
      as [_ Hfail].
    rewrite Hname in Hfail.
    destruct (Hfail (Levels [40; 40]%Z)) as (Hfs & _);
      [discriminate|discriminate|exact Hfile|].
    exact Hfs.
Defined.

Lemma C8_slider_change_deselects_witness :
  reachable demo_state ∧ is_preset_saved demo_state = true ∧
  is_preset_saved (monitor_slider_changed 0 33%Z demo_state) = false ∧
  items (dropdown (monitor_slider_changed 0 33%Z demo_state))
    = UnsavedPreset :: presets_list demo_state.
Proof.
  assert (is_preset_saved demo_state = true) as Hsaved.
  { vm_compute. reflexivity. }
  split; [exact demo_state_reachable|]. split; [exact Hsaved|].
  destruct (C8_slider_change_deselects 0 33%Z demo_state
              demo_state_reachable Hsaved) as (Hf & Hi & _).
  split; [exact Hf|exact Hi].
Defined.

Lemma C9_longer_prefs_apply_prefix_witness :
  prefs_file (fs (load_monitors (Some [70; 80]%Z) (initial demo_files_long)))
    = Some (PrefsObject demo_long_prefs) ∧
  2 < 3 ∧
  Forall c_int (take 2 [40; 40; 7]%Z) ∧
  monitor_sliders (startup [70; 80]%Z demo_files_long) = [40; 40]%Z.
Proof.
  assert (prefs_file (fs (load_monitors (Some [70; 80]%Z)
                            (initial demo_files_long)))
            = Some (PrefsObject demo_long_prefs)) as Hp.
  { vm_compute. reflexivity. }
  assert (Forall c_int (take 2 [40; 40; 7]%Z)) as Hfit by all_c_int.
  split; [exact Hp|]. split; [lia|]. split; [exact Hfit|].
  destruct (C9_longer_prefs_apply_prefix _ _ Hp) as (_ & Hs & _).
  - vm_compute. lia.
  - exact Hfit.
  - unfold startup. rewrite Hs. vm_compute. reflexivity.
Defined.

Lemma C10_short_preset_sets_prefix_witness :
  currentText (dropdown demo_dim_selected) = "dim.json" ∧
  presets_dir (fs demo_dim_selected) !! "dim.json" = Some (Levels [10]%Z) ∧
  1 < length (monitor_sliders demo_dim_selected) ∧
  Forall c_int [10]%Z ∧
  monitor_sliders (apply_selected_preset demo_dim_selected) = [10; 40]%Z ∧
  is_preset_saved (apply_selected_preset demo_dim_selected) = true.
Proof.
  assert (Forall c_int [10]%Z) as Hfit by all_c_int.
  assert (currentText (dropdown demo_dim_selected) = "dim.json") as Hn.
  { vm_compute. reflexivity. }
  assert (presets_dir (fs demo_dim_selected) !! "dim.json"
            = Some (Levels [10]%Z)) as Hf.
  { vm_compute. reflexivity. }
  assert (1 < length (monitor_sliders demo_dim_selected)) as Hl.
  { vm_compute. lia. }
  split; [exact Hn|]. split; [exact Hf|]. split; [exact Hl|].
  split; [exact Hfit|].
  destruct (C10_short_preset_sets_prefix demo_dim_selected "dim.json" [10]%Z
              Hn ltac:(discriminate) ltac:(discriminate) Hf Hl Hfit)
    as (Hs & _ & _ & Hsaved & _).
  split; [|exact Hsaved]. rewrite Hs. vm_compute. reflexivity.
Defined.

(** ** Levels that are no C [int]s *)

Lemma demo_overflow_no_match m :
  presets_dir demo_files_overflow !! m ≠ Some (Levels [5; 2147483648]%Z).
Proof.
  unfold demo_files_overflow. simpl.
  destruct (decide (m = "big.json")) as [->|Hb];
    [by rewrite lookup_insert_eq|].
  rewrite lookup_insert_ne by done.
  destruct (decide (m = "a.json")) as [->|Ha];
    [by rewrite lookup_insert_eq|].
  by rewrite lookup_insert_ne, lookup_empty.
Qed.

(** Without the restriction to C [int]s, C1 fails.  The preferences hold
    the levels [5; 2^31] and no preset stores that sequence, so the state
    should become NoMatch; but [setValue] raises at the second level, the
    [except: pass] of [load_user_prefs] ends the slot before it reaches
    the dropdown, and the first preset is still shown with the flag set,
    over sliders at 5 and 80. *)
Lemma C1_overflow_counterexample :
  prefs_file demo_files_overflow = Some (PrefsObject demo_overflow_prefs) ∧
  brightness_levels demo_overflow_prefs = Some [5; 2147483648]%Z ∧
  (∀ m, presets_dir demo_files_overflow !! m
          ≠ Some (Levels [5; 2147483648]%Z)) ∧
  currentText (dropdown (startup [70; 80]%Z demo_files_overflow)) = "a.json" ∧
  items (dropdown (startup [70; 80]%Z demo_files_overflow))
    = ["a.json"; "big.json"] ∧
  is_preset_saved (startup [70; 80]%Z demo_files_overflow) = true ∧
  monitor_sliders (startup [70; 80]%Z demo_files_overflow) = [5; 80]%Z.
Proof.
  split; [reflexivity|]. split; [reflexivity|].
  split; [exact demo_overflow_no_match|].
  vm_compute. by repeat split.
Qed.

(** Without the restriction to C [int]s, C9 fails.  With two displays and
    the preference levels [5; 2^31; 7], the loop over the levels raises at
    the second level; the slot ends there, and only the first of the two
    sliders has taken its level, with one worker started. *)
Lemma C9_overflow_counterexample :
  prefs_file
    (fs (load_monitors (Some [70; 80]%Z) (initial demo_files_overflow_long)))
    = Some (PrefsObject demo_overflow_long_prefs) ∧
  brightness_levels demo_overflow_long_prefs = Some [5; 2147483648; 7]%Z ∧
  length
    (monitor_sliders
       (load_monitors (Some [70; 80]%Z) (initial demo_files_overflow_long)))
    = 2 ∧
  apply_levels 0 [5; 2147483648; 7]%Z
    (load_monitors (Some [70; 80]%Z) (initial demo_files_overflow_long))
    = Raised (startup [70; 80]%Z demo_files_overflow_long) ∧
  monitor_sliders (startup [70; 80]%Z demo_files_overflow_long) = [5; 80]%Z ∧
  sbc_calls (startup [70; 80]%Z demo_files_overflow_long)
    = [{| monitor_index := 0; value := 5%Z |}].
Proof. vm_compute. by repeat split. Qed.

(** Without the restriction to C [int]s, C10 fails.  With two displays,
    sliders at 33 and 80, the flag cleared and ["big.json"], which stores
    the one value 2^31, as the current entry, applying the preset sets no
    slider, starts no worker and leaves the flag cleared: [setValue]
    raises at the first value and the slot ends. *)
Lemma C10_overflow_counterexample :
  currentText (dropdown demo_big_selected) = "big.json" ∧
  presets_dir (fs demo_big_selected) !! "big.json"
    = Some (Levels [2147483648]%Z) ∧
  length [2147483648]%Z < length (monitor_sliders demo_big_selected) ∧
  is_preset_saved demo_big_selected = false ∧
  monitor_sliders (apply_selected_preset demo_big_selected) = [33; 80]%Z ∧
  sbc_calls (apply_selected_preset demo_big_selected) = [] ∧
  is_preset_saved (apply_selected_preset demo_big_selected) = false.
Proof. vm_compute. repeat split; lia. Qed.

(** * Further properties of the slots *)

(** ** The preset list *)

(** X1. [load_presets] lists exactly the files of the presets directory
    whose name ends in [".json"], in ascending string order and without
    repetition; the dropdown shows the same names, with the first one
    selected when there is one; no file is touched. *)
Theorem X1_load_presets_lists_json_files s :
  let s' := load_presets s in
  (∀ name, name ∈ presets_list s' ↔
           is_Some (presets_dir (fs s) !! name) ∧
           endswith name json_suffix = true) ∧
  StronglySorted String.le (presets_list s') ∧
  NoDup (presets_list s') ∧
  items (dropdown s') = presets_list s' ∧
  currentIndex (dropdown s') =
    match presets_list s' with [] => None | _ :: _ => Some 0 end ∧
  fs s' = fs s.
Proof.
  simpl. rewrite load_presets_presets_list, load_presets_dropdown. simpl.
  split; [intros name; apply elem_of_scan_presets|].
  split; [apply scan_presets_sorted|].
  split; [apply scan_presets_NoDup|].
  split; [done|]. split; [done|].
  apply quiet_fs, quiet_load_presets.
Qed.

Lemma scan_presets_empty f :
  (∀ name, is_Some (presets_dir f !! name) → endswith name json_suffix = false) →
  scan_presets f = [].
Proof.
  intros Hnone. destruct (scan_presets f) as [|x l] eqn:E; [done|].
  assert (x ∈ scan_presets f) as Hx by (rewrite E; apply elem_of_cons; by left).
  apply elem_of_scan_presets in Hx as [Hsome Hjson].
  by rewrite (Hnone x Hsome) in Hjson.
Qed.

(** X2. With no [".json"] file in the presets directory, the window comes
    up with an empty preset list and an empty dropdown, and the first
    slider change makes the sentinel the dropdown's only entry. *)
Theorem X2_no_presets_only_sentinel hw f idx v :
  (∀ name, is_Some (presets_dir f !! name) → endswith name json_suffix = false) →
  let s := load_monitors (Some hw) (initial f) in
  presets_list s = [] ∧
  items (dropdown s) = [] ∧
  currentText (dropdown s) = EmptyString ∧
  items (dropdown (monitor_slider_changed idx v s)) = [UnsavedPreset] ∧
  currentText (dropdown (monitor_slider_changed idx v s)) = UnsavedPreset.
Proof.
  intros Hnone s. subst s.
  destruct (load_monitors_state hw f) as (_ & Hl & Hd & _).
  rewrite (scan_presets_empty f Hnone) in Hl, Hd.
  assert (is_preset_saved (load_monitors (Some hw) (initial f)) = true) as Hsaved.
  { simpl. by apply load_presets_keeps_saved. }
  rewrite monitor_slider_changed_unfold, Hsaved, Hl, Hd. done.
Qed.

Lemma X2_no_presets_only_sentinel_witness :
  (∀ name, is_Some (presets_dir demo_files_empty !! name) →
           endswith name json_suffix = false) ∧
  items (dropdown (monitor_slider_changed 0 5%Z
                     (load_monitors (Some [70; 80]%Z) (initial demo_files_empty))))
    = [UnsavedPreset].
Proof.
  assert (∀ name, is_Some (presets_dir demo_files_empty !! name) →
                  endswith name json_suffix = false) as Hnone.
  { intros name [c Hc]. unfold demo_files_empty in Hc. simpl in Hc.
    destruct (decide (name = "notes.txt")) as [->|Hne]; [reflexivity|].
    rewrite lookup_insert_ne, lookup_empty in Hc by done. discriminate. }
  split; [exact Hnone|].
  apply (X2_no_presets_only_sentinel [70; 80]%Z demo_files_empty 0 5%Z Hnone).
Defined.

(** ** Invariants *)

(** X3. In every reachable state every slider value lies in 0..100. *)
Theorem X3_reachable_sliders_in_range s :
  reachable s → Forall (λ v, (0 ≤ v ≤ 100)%Z) (monitor_sliders s).
Proof. intros Hr. apply (inv_range s (reachable_Inv s Hr)). Qed.

Lemma X3_reachable_sliders_in_range_witness :
  reachable demo_edited ∧
  Forall (λ v, (0 ≤ v ≤ 100)%Z) (monitor_sliders demo_edited).
Proof.
  assert (reachable demo_edited) as Hr.
  { apply reach_slider, reach_load_user_prefs, reach_load_monitors. }
  split; [exact Hr|]. apply (X3_reachable_sliders_in_range demo_edited Hr).
Defined.

(** X4. In every reachable state the preset list is sorted, free of
    repetitions and holds only names ending in [".json"]; the dropdown
    shows that list, or the sentinel followed by it, so no entry occurs
    twice; and the dropdown's signals are not left blocked. *)
Theorem X4_reachable_dropdown_consistent s :
  reachable s →
  StronglySorted String.le (presets_list s) ∧
  NoDup (presets_list s) ∧
  Forall (λ name, endswith name json_suffix = true) (presets_list s) ∧
  (items (dropdown s) = presets_list s ∨
   items (dropdown s) = UnsavedPreset :: presets_list s) ∧
  NoDup (items (dropdown s)) ∧
  signalsBlocked (dropdown s) = false.
Proof.
  intros Hr. destruct (reachable_Inv s Hr) as [[f Hf] Hd _ _ Hs].
  assert (Forall (λ name, endswith name json_suffix = true) (presets_list s))
    as Hjson.
  { rewrite Hf. apply Forall_forall. by intros x [_ ?]%elem_of_scan_presets. }
  assert (NoDup (presets_list s)) as Hnd by (rewrite Hf; apply scan_presets_NoDup).
  split; [rewrite Hf; apply scan_presets_sorted|].
  split; [done|]. split; [done|]. split; [done|]. split; [|done].
  destruct Hd as [-> | ->]; [done|].
  apply NoDup_cons. split; [|done].
  intros Hin. rewrite Forall_forall in Hjson.
  by apply (endswith_json_not_sentinel _ (Hjson _ Hin)).
Qed.

Lemma X4_reachable_dropdown_consistent_witness :
  reachable demo_state ∧ NoDup (items (dropdown demo_state)).
Proof.
  split; [exact demo_state_reachable|].
  apply (X4_reachable_dropdown_consistent demo_state demo_state_reachable).
Defined.

(** ** Timers *)

(** X5. In every reachable state a display has at most one active
    debounce timer. *)
Theorem X5_one_active_timer_per_display idx s :
  reachable s → length (active_timers_for idx s) ≤ 1.
Proof.
  intros Hr. pose proof (inv_timers s (reachable_Inv s Hr)) as Hreg.
  unfold active_timers_for.
  destruct (brightness_update_timers s !! idx) as [k|] eqn:Hk.
  - destruct (timers s !! k) as [t|] eqn:Ht.
    + destruct (decide (t_idx t = idx ∧ t_active t = true)) as [Hp|Hp].
      * rewrite (filter_only _ (timers s) k t Ht Hp); [done|].
        intros j t' Hj [Hi Ha]. specialize (Hreg j t' Hj Ha).
        rewrite Hi in Hreg. congruence.
      * rewrite filter_none; [simpl; lia|].
        apply Forall_lookup. intros j t' Hj [Hi Ha].
        specialize (Hreg j t' Hj Ha). rewrite Hi in Hreg.
        assert (j = k) as -> by congruence. rewrite Ht in Hj.
        injection Hj as <-. by apply Hp.
    + rewrite filter_none; [simpl; lia|].
      apply Forall_lookup. intros j t' Hj [Hi Ha].
      specialize (Hreg j t' Hj Ha). rewrite Hi in Hreg.
      assert (j = k) as -> by congruence. congruence.
  - rewrite filter_none; [simpl; lia|].
    apply Forall_lookup. intros j t' Hj [Hi Ha].
    specialize (Hreg j t' Hj Ha). rewrite Hi in Hreg. congruence.
Qed.

Lemma X5_one_active_timer_per_display_witness :
  reachable (user_moves_slider 0 45%Z (user_moves_slider 0 30%Z demo_state)) ∧
  length (active_timers_for 0
            (user_moves_slider 0 45%Z (user_moves_slider 0 30%Z demo_state))) ≤ 1.
Proof.
  assert (reachable (user_moves_slider 0 45%Z
                       (user_moves_slider 0 30%Z demo_state))) as Hr.
  { apply reach_slider, reach_slider, demo_state_reachable. }
  split; [exact Hr|]. apply (X5_one_active_timer_per_display 0 _ Hr).
Defined.

Lemma quiet_load_user_prefs s : quiet s (load_user_prefs s).
Proof.
  unfold load_user_prefs.
  destruct (prefs_file (fs s)) as [[p|]|]; [|done..].
  set (levels := default [] (brightness_levels p)).
  destruct (apply_levels_frame 0 levels s) as (Hq & _).
  destruct (apply_levels 0 levels s) as [s1|s1]; simpl in Hq; [|done].
  etrans; [exact Hq|]. etrans; [|apply quiet_blockSignals].
  assert (quiet s1 (set_is_preset_saved false
                      (show_unsaved (blockSignals true s1)))) as Hun.
  { rewrite show_unsaved_when_blocked by done.
    etrans; [apply quiet_set_dropdown|].
    etrans; [apply quiet_set_dropdown|apply quiet_set_is_preset_saved]. }
  destruct (find_matching_preset _ _ _) as [m|]; [case_decide|]; try done.
  etrans; [apply (quiet_blockSignals true)|].
  etrans; [apply quiet_dropdown_setCurrentText|apply quiet_set_is_preset_saved].
Qed.

Lemma delete_selected_preset_timers (move_ok : bool) s :
  timers (delete_selected_preset move_ok s) = timers s ∧
  brightness_update_timers (delete_selected_preset move_ok s)
    = brightness_update_timers s ∧
  now (delete_selected_preset move_ok s) = now s.
Proof.
  unfold delete_selected_preset. case_decide; [|done].
  destruct (presets_dir (fs s) !! _); [|done].
  rewrite show_unsaved_blocked. simpl.
  set (s1 := if move_ok then _ else s).
  assert (timers s1 = timers s ∧
          brightness_update_timers s1 = brightness_update_timers s ∧
          now s1 = now s) as (<- & <- & <-) by (subst s1; by destruct move_ok).
  apply quiet_timers.
  etrans; [apply quiet_load_presets|apply quiet_reset_sliders_to_default].
Qed.

Lemma save_current_preset_timers dialog w s :
  let s' := returned_state (save_current_preset dialog w s) in
  timers s' = timers s ∧
  brightness_update_timers s' = brightness_update_timers s ∧
  now s' = now s.
Proof.
  destruct dialog as [p|]; [|done]. destruct w; [|done..].
  cbv zeta. rewrite save_current_preset_unfold. simpl.
  set (s2 := set_is_preset_saved true _).
  change (timers s) with (timers s2).
  change (brightness_update_timers s) with (brightness_update_timers s2).
  change (now s) with (now s2).
  apply quiet_timers, quiet_load_presets.
Qed.

Lemma timers_indexed_same s s' :
  timers s' = timers s →
  brightness_update_timers s' = brightness_update_timers s →
  timers_indexed s → timers_indexed s'.
Proof. intros Ht Hd Hs. unfold timers_indexed. by rewrite Ht, Hd. Qed.

Lemma timers_indexed_quiet s s' :
  quiet s s' → timers_indexed s → timers_indexed s'.
Proof.
  intros Hq. destruct (quiet_timers _ _ Hq) as (Ht & Hd & _).
  by apply timers_indexed_same.
Qed.

Lemma start_timer_indexed idx v s :
  timers_indexed s → timers_indexed (start_timer idx v s).
Proof.
  intros Hs i k. unfold start_timer. simpl.
  set (stopped := match brightness_update_timers s !! idx with
                  | Some k0 => alter stop k0 (timers s)
                  | None => timers s
                  end).
  destruct (decide (idx = i)) as [->|Hne].
  - rewrite lookup_insert_eq. intros [= <-]. eexists.
    rewrite lookup_app_r, Nat.sub_diag by lia. by split.
  - rewrite lookup_insert_ne by done. intros Hk.
    destruct (Hs i k Hk) as (t & Ht & Hi).
    assert (∃ t', stopped !! k = Some t' ∧ t_idx t' = i) as (t' & Ht' & Hi').
    { subst stopped. destruct (brightness_update_timers s !! idx) as [k0|];
        [|by exists t].
      destruct (decide (k0 = k)) as [->|Hk0].
      - exists (stop t). by rewrite list_lookup_alter_eq, Ht.
      - exists t. by rewrite list_lookup_alter_ne. }
    exists t'. split; [|done].
    rewrite lookup_app_l; [done|]. by apply lookup_lt_Some in Ht'.
Qed.

Lemma monitor_slider_changed_indexed idx v s :
  timers_indexed s → timers_indexed (monitor_slider_changed idx v s).
Proof.
  intros Hs. rewrite monitor_slider_changed_unfold.
  apply start_timer_indexed. by destruct (is_preset_saved s).
Qed.

Lemma elapse_indexed dt s : timers_indexed s → timers_indexed (elapse dt s).
Proof.
  intros Hs i k. destruct (elapse_timers dt s) as (-> & -> & _).
  intros Hk. destruct (Hs i k Hk) as (t & Ht & Hi).
  exists (fire (now s + dt) t). rewrite list_lookup_fmap, Ht. split; [done|].
  unfold fire. by case_decide.
Qed.

Lemma reachable_timers_indexed s : reachable s → timers_indexed s.
Proof.
  induction 1 as [hw f|s _ IH|i v s _ IH|k s _ IH|move_ok s _ IH
                 |dialog w s s' _ IH Hsave|pos w s s' _ IH Hsave
                 |dt s _ IH|w s _ IH|f s _ IH|i v s _ IH].
  - intros i k. simpl.
    destruct (quiet_timers _ _ (quiet_load_presets (initial f))) as (_ & -> & _).
    simpl. by rewrite lookup_empty.
  - apply (timers_indexed_quiet s); [apply quiet_load_user_prefs|done].
  - unfold user_moves_slider. destruct (monitor_sliders s !! i); [|done].
    case_decide; [done|]. by apply monitor_slider_changed_indexed.
  - unfold user_picks_preset. case_decide; [|done].
    apply (timers_indexed_quiet s); [apply quiet_dropdown_setCurrentIndex|done].
  - destruct (delete_selected_preset_timers move_ok s) as (Ht & Hd & _).
    by apply (timers_indexed_same s).
  - destruct (save_current_preset_timers dialog w s) as (Ht & Hd & _).
    rewrite Hsave in Ht, Hd. by apply (timers_indexed_same s).
  - unfold save_user_prefs in Hsave. by destruct w; injection Hsave as <-.
  - by apply elapse_indexed.
  - done.
  - done.
  - done.
Qed.

Lemma filter_alter_outside {A} (P : A → Prop) `{!∀ x, Decision (P x)}
    (f : A → A) (l : list A) : ∀ k,
  (∀ x, l !! k = Some x → ¬ P x ∧ ¬ P (f x)) →
  filter P (alter f k l) = filter P l.
Proof.
  induction l as [|a l IH]; intros k Hk; [done|].
  destruct k as [|k].
  - change (alter f 0 (a :: l)) with (f a :: l).
    destruct (Hk a eq_refl) as [Ha Hfa].
    by rewrite !filter_cons_False.
  - change (alter f (S k) (a :: l)) with (a :: alter f k l).
    rewrite !filter_cons. rewrite (IH k); [done|].
    intros x Hx. by apply Hk.
Qed.

(** X6. A change of one display's slider neither cancels nor fires the
    pending timer of another display and issues no call for it: in a
    reachable state, for displays [i ≠ j], the active timers and the calls
    of [j] are the same before and after the slot runs for [i]. *)
Theorem X6_slider_change_leaves_other_displays i j v s :
  reachable s → i ≠ j →
  active_timers_for j (monitor_slider_changed i v s) = active_timers_for j s ∧
  calls_for j (monitor_slider_changed i v s) = calls_for j s.
Proof.
  intros Hr Hij. pose proof (reachable_timers_indexed s Hr) as Hidx.
  rewrite monitor_slider_changed_unfold.
  set (s1 := if is_preset_saved s then _ else s).
  assert (timers s1 = timers s ∧
          brightness_update_timers s1 = brightness_update_timers s ∧
          sbc_calls s1 = sbc_calls s) as (Ht & Hd & Hc).
  { subst s1. by destruct (is_preset_saved s). }
  split; [|unfold calls_for; simpl; by rewrite Hc].
  unfold active_timers_for, start_timer. simpl. rewrite Ht, Hd.
  rewrite filter_app, filter_cons_False, filter_nil, app_nil_r
    by (simpl; tauto).
  destruct (brightness_update_timers s !! i) as [k|] eqn:Hk; [|done].
  apply filter_alter_outside. intros x Hx.
  destruct (Hidx i k Hk) as (t & Ht' & Hi).
  assert (x = t) as -> by congruence. simpl. rewrite Hi. tauto.
Qed.

Lemma X6_slider_change_leaves_other_displays_witness :
  reachable (user_moves_slider 1 45%Z demo_state) ∧ 0 ≠ 1 ∧
  active_timers_for 1 (monitor_slider_changed 0 30%Z
                         (user_moves_slider 1 45%Z demo_state))
    = active_timers_for 1 (user_moves_slider 1 45%Z demo_state).
Proof.
  assert (reachable (user_moves_slider 1 45%Z demo_state)) as Hr.
  { apply reach_slider, demo_state_reachable. }
  split; [exact Hr|]. split; [discriminate|].
  apply (X6_slider_change_leaves_other_displays 0 1 30%Z _ Hr). discriminate.
Defined.

(** X7. Without an active timer for a display, the passing of time issues
    no call for it: a single-shot timer that has fired or was stopped
    never fires again. *)
Theorem X7_no_timer_no_call idx dt s :
  active_timers_for idx s = [] →
  calls_for idx (elapse dt s) = calls_for idx s.
Proof.
  intros Hnone. destruct (elapse_calls_for idx dt s) as (fired & -> & Hperm).
  rewrite (filter_none _ (timers s)) in Hperm.
  - apply Permutation_nil_r in Hperm as ->. by rewrite app_nil_r.
  - apply Forall_forall. intros t Hin (Hi & Ha & _).
    assert (t ∈ active_timers_for idx s) as Hact.
    { unfold active_timers_for. apply list_elem_of_filter. by repeat split. }
    rewrite Hnone in Hact. by apply elem_of_nil in Hact.
Qed.

Lemma X7_no_timer_no_call_witness :
  active_timers_for 0 demo_state = [] ∧
  calls_for 0 (elapse 500 demo_state) = calls_for 0 demo_state.
Proof.
  assert (active_timers_for 0 demo_state = []) as Hnone.
  { vm_compute. reflexivity. }
  split; [exact Hnone|]. apply (X7_no_timer_no_call 0 500 demo_state Hnone).
Defined.

Lemma spaced_move_step idx v wait s :
  timers_registered s → 50 ≤ wait →
  let s' := elapse wait (monitor_slider_changed idx v s) in
  timers_registered s' ∧
  calls_for idx s' =
    calls_for idx s ++ [{| monitor_index := idx; value := v |}].
Proof.
  intros Hreg Hwait s'. subst s'.
  destruct (monitor_slider_changed_pending idx v s Hreg) as (Hp & Hn & Hc).
  rewrite <- Hn in Hp.
  destruct (pending_elapse_due idx _ v wait _ Hp) as [Hcalls _]; [lia|].
  split; [apply elapse_registered; by destruct Hp|].
  rewrite Hcalls. unfold calls_for. by rewrite Hc.
Qed.

(** X8. Slider changes of one display that are each followed by at least
    50 ms are all issued, one call per change, in the order of the
    changes. *)
Theorem X8_spaced_moves_all_issued_in_order idx moves s :
  reachable s →
  Forall (λ m, 50 ≤ m.2) moves →
  calls_for idx (spaced_moves idx moves s) =
    calls_for idx s
    ++ ((λ m, {| monitor_index := idx; value := m.1 |}) <$> moves).
Proof.
  intros Hr Hspaced. pose proof (inv_timers s (reachable_Inv s Hr)) as Hreg.
  clear Hr. revert s Hreg.
  induction Hspaced as [|[v wait] moves Hwait _ IH]; intros s Hreg; simpl.
  - by rewrite app_nil_r.
  - destruct (spaced_move_step idx v wait s Hreg Hwait) as [Hreg' Hcalls].
    rewrite (IH _ Hreg'), Hcalls. by rewrite <- (assoc_L (++)).
Qed.

Lemma X8_spaced_moves_all_issued_in_order_witness :
  reachable demo_state ∧
  Forall (λ m : Z * nat, 50 ≤ m.2) [(30%Z, 50); (45%Z, 70)] ∧
  calls_for 0 (spaced_moves 0 [(30%Z, 50); (45%Z, 70)] demo_state) =
    calls_for 0 demo_state
    ++ [{| monitor_index := 0; value := 30%Z |};
        {| monitor_index := 0; value := 45%Z |}].
Proof.
  assert (Forall (λ m : Z * nat, 50 ≤ m.2) [(30%Z, 50); (45%Z, 70)]) as Hsp.
  { repeat constructor; simpl; lia. }
  split; [exact demo_state_reachable|]. split; [exact Hsp|].
  apply (X8_spaced_moves_all_issued_in_order 0 _ demo_state
           demo_state_reachable Hsp).
Defined.

(** ** The preset store *)

Lemma StronglySorted_filter {A} (R : relation A) (P : A → Prop)
    `{!∀ x, Decision (P x)} (l : list A) :
  StronglySorted R l → StronglySorted R (filter P l).
Proof.
  induction 1 as [|x l Hl IH Hx]; [constructor|].
  rewrite filter_cons. case_decide; [|done].
  constructor; [done|].
  apply Forall_forall. intros y [_ Hy]%list_elem_of_filter.
  rewrite Forall_forall in Hx. by apply Hx.
Qed.

(** Two sorted, repetition-free lists of names with the same elements are
    the same list. *)
Lemma sorted_names_eq (l k : list string) :
  StronglySorted String.le l → StronglySorted String.le k →
  NoDup l → NoDup k → (∀ x, x ∈ l ↔ x ∈ k) → l = k.
Proof.
  intros Hl Hk Hnl Hnk Hiff.
  apply (StronglySorted_unique String.le); [done..|].
  by apply NoDup_Permutation.
Qed.

Lemma scan_presets_after_move name c f :
  presets_dir f !! name = Some c →
  scan_presets (move_to_restore name f) =
    filter (λ n, n ≠ name) (scan_presets f).
Proof.
  intros Hc. apply sorted_names_eq.
  - apply scan_presets_sorted.
  - apply StronglySorted_filter, scan_presets_sorted.
  - apply scan_presets_NoDup.
  - apply NoDup_filter, scan_presets_NoDup.
  - intros x. rewrite list_elem_of_filter, !elem_of_scan_presets.
    unfold move_to_restore. rewrite Hc. simpl.
    destruct (decide (x = name)) as [->|Hne].
    + rewrite lookup_delete_eq. split; [by intros [[? ?] _]|by intros [? _]].
    + rewrite lookup_delete_ne by done. tauto.
Qed.

(** X9. A delete whose move succeeds removes exactly the selected name
    from the preset list, which otherwise keeps its content and order, and
    touches no other file: every other name has the same content as before
    in the presets directory and in the restore directory, and the files
    elsewhere and the preferences are unchanged. *)
Theorem X9_delete_removes_only_that_preset s c :
  currentText (dropdown s) ≠ EmptyString →
  currentText (dropdown s) ≠ UnsavedPreset →
  presets_dir (fs s) !! currentText (dropdown s) = Some c →
  let name := currentText (dropdown s) in
  let s' := delete_selected_preset true s in
  presets_list s' = filter (λ n, n ≠ name) (scan_presets (fs s)) ∧
  (∀ other, other ≠ name →
     presets_dir (fs s') !! other = presets_dir (fs s) !! other ∧
     preset_restore_dir (fs s') !! other = preset_restore_dir (fs s) !! other) ∧
  elsewhere (fs s') = elsewhere (fs s) ∧
  prefs_file (fs s') = prefs_file (fs s).
Proof.
  intros Hne Hns Hc name s'. subst s'.
  rewrite (delete_selected_preset_unfold true s c) by done. fold name.
  set (s1 := set_fs (move_to_restore name (fs s)) s).
  destruct (reset_sliders_to_default_spec (load_presets s1)) as (_ & _ & Hl & _).
  assert (fs (reset_sliders_to_default (load_presets s1)) = fs s1) as Hfs.
  { by rewrite (quiet_fs _ _ (quiet_reset_sliders_to_default _)),
      (quiet_fs _ _ (quiet_load_presets _)). }
  simpl. rewrite Hfs, Hl, load_presets_presets_list. simpl.
  split; [by apply (scan_presets_after_move name c)|].
  unfold move_to_restore. fold name in Hc. rewrite Hc. simpl.
  split; [|done]. intros other Hother.
  by rewrite lookup_delete_ne, lookup_insert_ne.
Qed.

Lemma X9_delete_removes_only_that_preset_witness :
  currentText (dropdown demo_state) ≠ EmptyString ∧
  currentText (dropdown demo_state) ≠ UnsavedPreset ∧
  presets_dir (fs demo_state) !! currentText (dropdown demo_state)
    = Some (Levels [40; 40]%Z) ∧
  presets_list (delete_selected_preset true demo_state) = ["b.json"; "dim.json"].
Proof.
  assert (currentText (dropdown demo_state) ≠ EmptyString) as H1.
  { vm_compute. discriminate. }
  assert (currentText (dropdown demo_state) ≠ UnsavedPreset) as H2.
  { vm_compute. discriminate. }
  assert (presets_dir (fs demo_state) !! currentText (dropdown demo_state)
            = Some (Levels [40; 40]%Z)) as H3.
  { vm_compute. reflexivity. }
  split; [exact H1|]. split; [exact H2|]. split; [exact H3|].
  destruct (X9_delete_removes_only_that_preset demo_state _ H1 H2 H3)
    as (Hl & _).
  rewrite Hl. vm_compute. reflexivity.
Defined.

(** X10. Pressing delete again right after a delete does nothing more:
    the first delete leaves the sentinel selected (or was itself skipped),
    so the second one is skipped. *)
Theorem X10_delete_twice_is_delete_once (move_ok move_ok' : bool) s :
  delete_selected_preset move_ok' (delete_selected_preset move_ok s)
    = delete_selected_preset move_ok s.
Proof.
  destruct (decide (currentText (dropdown s) ≠ EmptyString ∧
                    currentText (dropdown s) ≠ UnsavedPreset)) as [[Hne Hns]|Hskip].
  - destruct (presets_dir (fs s) !! currentText (dropdown s)) as [c|] eqn:Hc.
    + apply delete_selected_preset_skip. right. left.
      by rewrite (delete_selected_preset_unfold move_ok s c).
    + rewrite (delete_selected_preset_skip move_ok s) by auto.
      apply delete_selected_preset_skip. auto.
  - assert (currentText (dropdown s) = EmptyString ∨
            currentText (dropdown s) = UnsavedPreset) as Hs.
    { destruct (decide (currentText (dropdown s) = EmptyString)); [by left|].
      destruct (decide (currentText (dropdown s) = UnsavedPreset)); [by right|].
      by destruct Hskip. }
    rewrite (delete_selected_preset_skip move_ok s) by tauto.
    apply delete_selected_preset_skip. tauto.
Qed.

Lemma save_current_preset_state p s s1 :
  save_current_preset (Some p) WriteOk s = Returned s1 →
  fs s1 = write_file (with_json_suffix p) (Levels (monitor_sliders s)) (fs s) ∧
  presets_list s1 = scan_presets (fs s1) ∧
  items (dropdown s1) = presets_list s1.
Proof.
  intros Hsave. pose proof (save_current_preset_fs p s s1 Hsave) as Hfs.
  rewrite save_current_preset_unfold in Hsave. injection Hsave as <-.
  split; [done|]. simpl in *.
  rewrite load_presets_presets_list, load_presets_dropdown. simpl.
  split; [|done]. f_equal. simpl.
  by rewrite <- Hfs, (quiet_fs _ _ (quiet_load_presets _)).
Qed.

(** X11. A successful save under a name in the presets directory writes
    the current slider values to that name's [".json"] file, replacing
    any earlier content, and leaves every other preset file, the restore
    directory, the files elsewhere and the preferences as they were; the
    reloaded, sorted preset list holds that name and the names listed
    before, and nothing else. *)
Theorem X11_save_adds_or_overwrites_one_file base s s1 :
  save_current_preset (Some (InPresetsDir, base)) WriteOk s = Returned s1 →
  let name := (with_json_suffix (InPresetsDir, base)).2 in
  presets_dir (fs s1) =
    <[name := Levels (monitor_sliders s)]> (presets_dir (fs s)) ∧
  preset_restore_dir (fs s1) = preset_restore_dir (fs s) ∧
  elsewhere (fs s1) = elsewhere (fs s) ∧
  prefs_file (fs s1) = prefs_file (fs s) ∧
  (∀ n, n ∈ presets_list s1 ↔ n = name ∨ n ∈ scan_presets (fs s)) ∧
  StronglySorted String.le (presets_list s1).
Proof.
  intros Hsave name.
  destruct (save_current_preset_state _ _ _ Hsave) as (Hfs & Hl & _).
  pose proof (with_json_suffix_endswith (InPresetsDir, base)) as Hjson.
  fold name in Hjson.
  assert (with_json_suffix (InPresetsDir, base) = (InPresetsDir, name)) as Ht.
  { subst name. unfold with_json_suffix. simpl.
    by destruct (endswith base json_suffix). }
  rewrite Ht in Hfs. unfold write_file in Hfs. simpl in Hfs.
  rewrite Hl, Hfs. simpl.
  repeat split; try done; [| |apply scan_presets_sorted].
  - intros [Hsome Hj]%elem_of_scan_presets. simpl in Hsome.
    destruct (decide (n = name)) as [->|Hne]; [by left|right].
    rewrite lookup_insert_ne in Hsome by done.
    by apply elem_of_scan_presets.
  - intros [->|[Hsome Hj]%elem_of_scan_presets]; apply elem_of_scan_presets;
      simpl.
    + by rewrite lookup_insert_eq.
    + split; [|done]. destruct (decide (name = n)) as [->|Hne].
      * by rewrite lookup_insert_eq.
      * by rewrite lookup_insert_ne.
Qed.

Lemma X11_save_adds_or_overwrites_one_file_witness :
  save_current_preset (Some (InPresetsDir, "night.json")) WriteOk demo_edited
    = Returned demo_saved ∧
  presets_dir (fs demo_saved) =
    <["night.json" := Levels (monitor_sliders demo_edited)]>
      (presets_dir (fs demo_edited)).
Proof.
  assert (save_current_preset (Some (InPresetsDir, "night.json")) WriteOk
            demo_edited = Returned demo_saved) as Hs by reflexivity.
  split; [exact Hs|].
  apply (X11_save_adds_or_overwrites_one_file "night.json" _ _ Hs).
Defined.

(** X12. A successful save under a name outside the presets directory
    writes the file there and changes neither the presets directory nor
    the restore directory, so the reloaded preset list is the one of the
    unchanged directory. *)
Theorem X12_save_elsewhere_adds_no_preset dir base s s1 :
  save_current_preset (Some (Outside dir, base)) WriteOk s = Returned s1 →
  let name := (with_json_suffix (Outside dir, base)).2 in
  elsewhere (fs s1) =
    <[(dir, name) := Levels (monitor_sliders s)]> (elsewhere (fs s)) ∧
  presets_dir (fs s1) = presets_dir (fs s) ∧
  preset_restore_dir (fs s1) = preset_restore_dir (fs s) ∧
  presets_list s1 = scan_presets (fs s).
Proof.
  intros Hsave name.
  destruct (save_current_preset_state _ _ _ Hsave) as (Hfs & Hl & _).
  assert (with_json_suffix (Outside dir, base) = (Outside dir, name)) as Ht.
  { subst name. unfold with_json_suffix. simpl.
    by destruct (endswith base json_suffix). }
  rewrite Ht in Hfs. unfold write_file in Hfs. simpl in Hfs.
  rewrite Hl, Hfs. done.
Qed.

Lemma X12_save_elsewhere_adds_no_preset_witness :
  save_current_preset (Some (Outside "C:/tmp", "x.json")) WriteOk demo_edited
    = Returned (returned_state
                  (save_current_preset (Some (Outside "C:/tmp", "x.json"))
                     WriteOk demo_edited)) ∧
  presets_list (returned_state
                  (save_current_preset (Some (Outside "C:/tmp", "x.json"))
                     WriteOk demo_edited))
    = scan_presets (fs demo_edited).
Proof.
  assert (save_current_preset (Some (Outside "C:/tmp", "x.json")) WriteOk
            demo_edited
          = Returned (returned_state
                        (save_current_preset (Some (Outside "C:/tmp", "x.json"))
                           WriteOk demo_edited))) as Hs by reflexivity.
  split; [exact Hs|].
  apply (X12_save_elsewhere_adds_no_preset "C:/tmp" "x.json" _ _ Hs).
Defined.

(** X13. Editing a matched preset and saving at once: when the user moves
    a slider of a Matched state to a different value the flag is cleared
    and the sentinel selected; a save of that state under a name ending in
    [".json"] in the presets directory then stores the edited values, sets
    the flag and selects the new name. *)
Theorem X13_edit_then_save_matches_new_name i v old base s s1 :
  is_preset_saved s = true →
  monitor_sliders s !! i = Some old → bound v ≠ old →
  endswith base json_suffix = true →
  let edited := user_moves_slider i v s in
  save_current_preset (Some (InPresetsDir, base)) WriteOk edited = Returned s1 →
  is_preset_saved edited = false ∧
  currentText (dropdown edited) = UnsavedPreset ∧
  monitor_sliders edited = <[i := bound v]> (monitor_sliders s) ∧
  is_preset_saved s1 = true ∧
  currentText (dropdown s1) = base ∧
  presets_dir (fs s1) !! base =
    Some (Levels (<[i := bound v]> (monitor_sliders s))).
Proof.
  intros Hsaved Hold Hv Hjson edited Hsave.
  assert (edited =
          start_timer i (bound v)
            (set_dropdown {| items := UnsavedPreset :: presets_list s;
                             currentIndex := Some 0; signalsBlocked := false |}
               (set_is_preset_saved false
                  (set_monitor_sliders (<[i := bound v]> (monitor_sliders s)) s))))
    as Hedited.
  { subst edited. unfold user_moves_slider. rewrite Hold.
    rewrite decide_False by done.
    rewrite monitor_slider_changed_unfold. simpl. by rewrite Hsaved. }
  destruct (save_selects_suffixed_name base edited s1 Hjson Hsave) as [Ht Hf].
  destruct (save_current_preset_state _ _ _ Hsave) as (Hfs & _).
  rewrite Hfs. unfold with_json_suffix, write_file. simpl. rewrite Hjson. simpl.
  rewrite lookup_insert_eq. rewrite Hedited. done.
Qed.

Lemma X13_edit_then_save_matches_new_name_witness :
  is_preset_saved demo_state = true ∧
  monitor_sliders demo_state !! 0 = Some 40%Z ∧ bound 33 ≠ 40%Z ∧
  endswith "night.json" json_suffix = true ∧
  save_current_preset (Some (InPresetsDir, "night.json")) WriteOk
    (user_moves_slider 0 33%Z demo_state) = Returned demo_saved ∧
  currentText (dropdown demo_saved) = "night.json" ∧
  is_preset_saved demo_saved = true.
Proof.
  assert (is_preset_saved demo_state = true) as H1 by (vm_compute; reflexivity).
  assert (monitor_sliders demo_state !! 0 = Some 40%Z) as H2
    by (vm_compute; reflexivity).
  assert (bound 33 ≠ 40%Z) as H3 by (vm_compute; discriminate).
  assert (endswith "night.json" json_suffix = true) as H4
    by (vm_compute; reflexivity).
  assert (save_current_preset (Some (InPresetsDir, "night.json")) WriteOk
            (user_moves_slider 0 33%Z demo_state) = Returned demo_saved) as H5
    by reflexivity.
  split; [exact H1|]. split; [exact H2|]. split; [exact H3|].
  split; [exact H4|]. split; [exact H5|].
  destruct (X13_edit_then_save_matches_new_name 0 33%Z 40%Z "night.json"
              demo_state demo_saved H1 H2 H3 H4 H5)
    as (_ & _ & _ & Hf & Ht & _).
  split; [exact Ht|exact Hf].
Defined.

(** ** Applying presets and preferences *)

Lemma apply_selected_preset_spec s name vs :
  currentText (dropdown s) = name →
  name ≠ EmptyString → name ≠ UnsavedPreset →
  presets_dir (fs s) !! name = Some (Levels vs) →
  let N := length (monitor_sliders s) in
  Forall c_int (take N vs) →
  let s' := apply_selected_preset s in
  monitor_sliders s' =
    (bound <$> take N vs) ++ drop (length vs) (monitor_sliders s) ∧
  sbc_calls s' = sbc_calls s ++ zip_with Build_BrightnessWorker (seq 0 N) vs ∧
  length (monitor_sliders s') = N ∧
  is_preset_saved s' = true.
Proof.
  intros Hname Hne Hns Hf N Hfit s'. subst s'.
  rewrite (apply_selected_preset_found s name vs) by done. simpl.
  rewrite levels_applied_length, levels_applied_sliders, levels_applied_calls.
  simpl. by rewrite Nat.sub_0_r.
Qed.

(** X14. Applying a readable preset of any length whose values, as far
    as they meet a display, are C [int]s: slider [i] takes the bounded
    stored value for every [i] below both the number of displays and the
    number of stored values, the other sliders keep their values, and one
    worker per such [i] is started, in order, carrying the stored value
    itself (not the bounded one); entries beyond the display count are
    ignored, whatever they are; the flag is set. *)
Theorem X14_apply_preset_overlapping_prefix s name vs :
  currentText (dropdown s) = name →
  name ≠ EmptyString → name ≠ UnsavedPreset →
  presets_dir (fs s) !! name = Some (Levels vs) →
  let N := length (monitor_sliders s) in
  Forall c_int (take N vs) →
  let s' := apply_selected_preset s in
  monitor_sliders s' =
    (bound <$> take N vs) ++ drop (length vs) (monitor_sliders s) ∧
  sbc_calls s' = sbc_calls s ++ zip_with Build_BrightnessWorker (seq 0 N) vs ∧
  length (monitor_sliders s') = N ∧
  is_preset_saved s' = true.
Proof. apply apply_selected_preset_spec. Qed.

Lemma X14_apply_preset_overlapping_prefix_witness :
  currentText (dropdown demo_dim_selected) = "dim.json" ∧
  presets_dir (fs demo_dim_selected) !! "dim.json" = Some (Levels [10]%Z) ∧
  Forall c_int (take 2 [10]%Z) ∧
  length (monitor_sliders (apply_selected_preset demo_dim_selected)) = 2.
Proof.
  assert (currentText (dropdown demo_dim_selected) = "dim.json") as Hn
    by (vm_compute; reflexivity).
  assert (presets_dir (fs demo_dim_selected) !! "dim.json"
            = Some (Levels [10]%Z)) as Hf by (vm_compute; reflexivity).
  assert (Forall c_int (take 2 [10]%Z)) as Hfit by all_c_int.
  split; [exact Hn|]. split; [exact Hf|]. split; [exact Hfit|].
  destruct (X14_apply_preset_overlapping_prefix demo_dim_selected "dim.json"
              [10]%Z Hn ltac:(discriminate) ltac:(discriminate) Hf Hfit)
    as (_ & _ & Hlen & _).
  rewrite Hlen. vm_compute. reflexivity.
Defined.

Lemma listed_entry_is_json s name :
  Inv s → name ∈ items (dropdown s) → name ≠ UnsavedPreset →
  endswith name json_suffix = true.
Proof.
  intros [[f Hf] Hd _ _ _] Hin Hns.
  assert (name ∈ presets_list s) as Hin'.
  { destruct Hd as [Hd|Hd]; rewrite Hd in Hin; [done|].
    apply elem_of_cons in Hin as [?|?]; done. }
  rewrite Hf in Hin'. by apply elem_of_scan_presets in Hin' as [_ ?].
Qed.

Lemma user_picks_preset_unfold k name s :
  reachable s →
  currentIndex (dropdown s) ≠ Some k →
  items (dropdown s) !! k = Some name →
  user_picks_preset k s =
    apply_selected_preset
      (set_dropdown {| items := items (dropdown s); currentIndex := Some k;
                       signalsBlocked := false |} s).
Proof.
  intros Hr Hk Hname. pose proof (inv_signals s (reachable_Inv s Hr)) as Hopen.
  unfold signals_open in Hopen.
  pose proof (lookup_lt_Some _ _ _ Hname) as Hlt.
  unfold user_picks_preset, dropdown_setCurrentIndex, dropdown_update.
  destruct (decide (k < length (items (dropdown s)))) as [_|?]; [|lia].
  rewrite decide_False by (intros Heq; by apply Hk).
  by rewrite Hopen.
Qed.

(** X15. Picking a preset in the dropdown applies it: in a reachable
    state, when the user picks an entry other than the current one whose
    file holds a sequence of levels that are C [int]s as far as they meet
    a display, that entry becomes the current text, the flag is set, the
    sliders take the bounded stored values on the overlapping prefix and
    one worker per such slider is started. *)
Theorem X15_pick_applies_preset k name vs s :
  reachable s →
  currentIndex (dropdown s) ≠ Some k →
  items (dropdown s) !! k = Some name →
  name ≠ UnsavedPreset →
  presets_dir (fs s) !! name = Some (Levels vs) →
  let N := length (monitor_sliders s) in
  Forall c_int (take N vs) →
  let s' := user_picks_preset k s in
  currentText (dropdown s') = name ∧
  is_preset_saved s' = true ∧
  monitor_sliders s' =
    (bound <$> take N vs) ++ drop (length vs) (monitor_sliders s) ∧
  sbc_calls s' = sbc_calls s ++ zip_with Build_BrightnessWorker (seq 0 N) vs.
Proof.
  intros Hr Hk Hname Hns Hf N Hfit s'. subst s'.
  rewrite (user_picks_preset_unfold k name s Hr Hk Hname).
  set (s1 := set_dropdown _ s).
  assert (currentText (dropdown s1) = name) as Hcur.
  { subst s1. unfold currentText. simpl. by rewrite Hname. }
  assert (name ≠ EmptyString) as Hne.
  { apply endswith_json_nonempty,
      (listed_entry_is_json s name (reachable_Inv s Hr)); [|done].
    by apply list_elem_of_lookup_2 in Hname. }
  destruct (apply_selected_preset_spec s1 name vs Hcur Hne Hns Hf Hfit)
    as (Hs & Hc & _ & Hsaved).
  split; [by rewrite apply_selected_preset_dropdown|]. by repeat split.
Qed.

Lemma X15_pick_applies_preset_witness :
  reachable demo_state ∧
  currentIndex (dropdown demo_state) ≠ Some 2 ∧
  items (dropdown demo_state) !! 2 = Some "dim.json" ∧
  presets_dir (fs demo_state) !! "dim.json" = Some (Levels [10]%Z) ∧
  Forall c_int (take 2 [10]%Z) ∧
  currentText (dropdown (user_picks_preset 2 demo_state)) = "dim.json" ∧
  is_preset_saved (user_picks_preset 2 demo_state) = true.
Proof.
  assert (Forall c_int (take 2 [10]%Z)) as Hfit by all_c_int.
  assert (currentIndex (dropdown demo_state) ≠ Some 2) as H1
    by (vm_compute; discriminate).
  assert (items (dropdown demo_state) !! 2 = Some "dim.json") as H2
    by (vm_compute; reflexivity).
  assert (presets_dir (fs demo_state) !! "dim.json" = Some (Levels [10]%Z))
    as H3 by (vm_compute; reflexivity).
  split; [exact demo_state_reachable|]. split; [exact H1|].
  split; [exact H2|]. split; [exact H3|]. split; [exact Hfit|].
  destruct (X15_pick_applies_preset 2 "dim.json" [10]%Z demo_state
              demo_state_reachable H1 H2 ltac:(discriminate) H3 Hfit)
    as (Ht & Hf & _).
  split; [exact Ht|exact Hf].
Defined.

(** X16. Picking an entry that cannot be applied moves the selection only:
    when the picked entry is the sentinel, or its file is missing or cannot
    be parsed, the sliders, the issued calls, the flag and the files stay
    as they were and the entry becomes the current text. *)
Theorem X16_pick_unreadable_moves_selection_only k name s :
  items (dropdown s) !! k = Some name →
  name = UnsavedPreset ∨ presets_dir (fs s) !! name = None ∨
    presets_dir (fs s) !! name = Some Malformed →
  let s' := user_picks_preset k s in
  monitor_sliders s' = monitor_sliders s ∧
  sbc_calls s' = sbc_calls s ∧
  is_preset_saved s' = is_preset_saved s ∧
  fs s' = fs s ∧
  currentText (dropdown s') = name.
Proof.
  intros Hname Hbad s'. subst s'.
  pose proof (lookup_lt_Some _ _ _ Hname) as Hlt.
  unfold user_picks_preset, dropdown_setCurrentIndex, dropdown_update.
  destruct (decide (k < length (items (dropdown s)))) as [_|?]; [|lia].
  set (s1 := set_dropdown _ s).
  assert (currentText (dropdown s1) = name) as Hcur.
  { subst s1. unfold currentText. simpl. by rewrite Hname. }
  assert (apply_selected_preset s1 = s1) as Happly.
  { unfold apply_selected_preset. rewrite Hcur. case_decide; [done|].
    change (fs s1) with (fs s).
    destruct Hbad as [->|[-> | ->]]; [tauto|done..]. }
  case_decide; [done|]. destruct (signalsBlocked (dropdown s)); [done|].
  by rewrite Happly.
Qed.

Lemma X16_pick_unreadable_moves_selection_only_witness :
  items (dropdown demo_state_bad) !! 1 = Some "bad.json" ∧
  presets_dir (fs demo_state_bad) !! "bad.json" = Some Malformed ∧
  monitor_sliders (user_picks_preset 1 demo_state_bad) = [70; 80]%Z ∧
  currentText (dropdown (user_picks_preset 1 demo_state_bad)) = "bad.json".
Proof.
  assert (items (dropdown demo_state_bad) !! 1 = Some "bad.json") as H1
    by (vm_compute; reflexivity).
  assert (presets_dir (fs demo_state_bad) !! "bad.json" = Some Malformed) as H2
    by (vm_compute; reflexivity).
  split; [exact H1|]. split; [exact H2|].
  destruct (X16_pick_unreadable_moves_selection_only 1 "bad.json"
              demo_state_bad H1 (or_intror (or_intror H2)))
    as (Hs & _ & _ & _ & Ht).
  split; [|exact Ht]. rewrite Hs. vm_compute. reflexivity.
Defined.

Lemma load_user_prefs_spec s p :
  prefs_file (fs s) = Some (PrefsObject p) →
  let levels := default [] (brightness_levels p) in
  let N := length (monitor_sliders s) in
  Forall c_int (take N levels) →
  let s' := load_user_prefs s in
  monitor_sliders s' =
    (bound <$> take N levels) ++ drop (length levels) (monitor_sliders s) ∧
  sbc_calls s' = sbc_calls s ++ zip_with Build_BrightnessWorker (seq 0 N) levels.
Proof.
  intros Hp levels N Hfit s'. subst s'.
  rewrite (load_user_prefs_unfold s p Hp Hfit). fold levels.
  assert (monitor_sliders (levels_applied 0 levels s) =
          (bound <$> take N levels) ++ drop (length levels) (monitor_sliders s))
    as Hs.
  { rewrite levels_applied_sliders. simpl. by rewrite Nat.sub_0_r. }
  assert (sbc_calls (levels_applied 0 levels s) =
          sbc_calls s ++ zip_with Build_BrightnessWorker (seq 0 N) levels) as Hc.
  { by rewrite levels_applied_calls, Nat.sub_0_r. }
  by destruct (find_matching_preset _ _ _) as [m|]; [case_decide|].
Qed.

(** X17. Preference levels of any length that are C [int]s as far as
    they meet a display: slider [i] takes the bounded preferred level where
    there is one, the sliders beyond the stored levels keep their
    (hardware-reported) values, levels beyond the display count are
    ignored, whatever they are, and one worker per overlapping position is
    started with the stored level; preferences without the
    ["brightness_levels"] key change no slider and start no worker. *)
Theorem X17_prefs_apply_overlapping_prefix s p :
  prefs_file (fs s) = Some (PrefsObject p) →
  let levels := default [] (brightness_levels p) in
  let N := length (monitor_sliders s) in
  Forall c_int (take N levels) →
  let s' := load_user_prefs s in
  monitor_sliders s' =
    (bound <$> take N levels) ++ drop (length levels) (monitor_sliders s) ∧
  sbc_calls s' =
    sbc_calls s ++ zip_with Build_BrightnessWorker (seq 0 N) levels ∧
  (brightness_levels p = None →
   monitor_sliders s' = monitor_sliders s ∧ sbc_calls s' = sbc_calls s).
Proof.
  intros Hp levels N Hfit s'.
  destruct (load_user_prefs_spec s p Hp Hfit) as [Hs Hc].
  split; [done|]. split; [done|].
  intros Hnone. subst s'. rewrite Hs, Hc. subst levels. rewrite Hnone. simpl.
  rewrite take_nil, drop_0. simpl. split; [done|].
  subst N. by destruct (seq 0 (length (monitor_sliders s))); simpl;
    rewrite app_nil_r.
Qed.

Lemma X17_prefs_apply_overlapping_prefix_witness :
  prefs_file (fs (load_monitors (Some [70; 80; 90]%Z) (initial demo_files)))
    = Some (PrefsObject demo_prefs) ∧
  Forall c_int (take 3 [40; 40]%Z) ∧
  monitor_sliders (startup [70; 80; 90]%Z demo_files) = [40; 40; 90]%Z.
Proof.
  assert (prefs_file (fs (load_monitors (Some [70; 80; 90]%Z)
                            (initial demo_files)))
          = Some (PrefsObject demo_prefs)) as Hp by (vm_compute; reflexivity).
  assert (Forall c_int (take 3 [40; 40]%Z)) as Hfit by all_c_int.
  split; [exact Hp|]. split; [exact Hfit|].
  destruct (X17_prefs_apply_overlapping_prefix _ _ Hp Hfit) as (Hs & _).
  unfold startup. rewrite Hs. vm_compute. reflexivity.
Defined.

Lemma levels_applied_prefix vs k s :
  k ≤ length vs → k ≤ length (monitor_sliders s) →
  monitor_sliders (levels_applied 0 (take k vs) s) =
    (bound <$> take k vs) ++ drop k (monitor_sliders s) ∧
  sbc_calls (levels_applied 0 (take k vs) s) =
    sbc_calls s ++ zip_with Build_BrightnessWorker (seq 0 k) (take k vs).
Proof.
  intros Hk HN.
  assert (length (take k vs) = k) as Hlen by (rewrite length_take; lia).
  rewrite levels_applied_sliders, levels_applied_calls. simpl.
  rewrite Nat.sub_0_r, Hlen.
  rewrite (take_ge (take k vs)) by lia.
  by rewrite (zip_with_seq_short _ (take k vs) 0 (length (monitor_sliders s))),
    Hlen by lia.
Qed.

(** X26. A stored value that is no C [int] stops the application of a
    preset: when value [k] of the selected preset is the first such value
    and display [k] exists, the sliders before [k] take their bounded
    values and their workers are started, slider [k] and all later ones
    keep their values, no further worker is started, and the flag and the
    dropdown are left as they were (the [OverflowError] of [setValue] is
    swallowed by [except: pass]). *)
Theorem X26_overflowing_preset_stops_midway s name vs k v :
  currentText (dropdown s) = name →
  name ≠ EmptyString → name ≠ UnsavedPreset →
  presets_dir (fs s) !! name = Some (Levels vs) →
  Forall c_int (take k vs) → vs !! k = Some v → ¬ c_int v →
  k < length (monitor_sliders s) →
  let s' := apply_selected_preset s in
  monitor_sliders s' = (bound <$> take k vs) ++ drop k (monitor_sliders s) ∧
  sbc_calls s' =
    sbc_calls s ++ zip_with Build_BrightnessWorker (seq 0 k) (take k vs) ∧
  is_preset_saved s' = is_preset_saved s ∧
  dropdown s' = dropdown s ∧
  fs s' = fs s.
Proof.
  intros Hname Hne Hns Hf Hfit Hk Hv Hlt s'. subst s'.
  rewrite (apply_selected_preset_aborted s name vs k v) by done.
  destruct (levels_applied_prefix vs k s) as [Hs Hc];
    [by apply Nat.lt_le_incl, (lookup_lt_Some vs k v)|lia|].
  split; [done|]. split; [done|].
  split; [apply levels_applied_saved|].
  split; [apply levels_applied_dropdown|].
  apply quiet_fs, quiet_levels_applied.
Qed.

Lemma X26_overflowing_preset_stops_midway_witness :
  currentText (dropdown demo_big_selected) = "big.json" ∧
  presets_dir (fs demo_big_selected) !! "big.json"
    = Some (Levels [2147483648]%Z) ∧
  ¬ c_int 2147483648 ∧
  0 < length (monitor_sliders demo_big_selected) ∧
  monitor_sliders (apply_selected_preset demo_big_selected) = [33; 80]%Z ∧
  is_preset_saved (apply_selected_preset demo_big_selected) = false.
Proof.
  assert (currentText (dropdown demo_big_selected) = "big.json") as Hn
    by (vm_compute; reflexivity).
  assert (presets_dir (fs demo_big_selected) !! "big.json"
            = Some (Levels [2147483648]%Z)) as Hf by (vm_compute; reflexivity).
  assert (¬ c_int 2147483648) as Hv by (unfold c_int; lia).
  assert (0 < length (monitor_sliders demo_big_selected)) as Hl
    by (vm_compute; lia).
  split; [exact Hn|]. split; [exact Hf|]. split; [exact Hv|].
  split; [exact Hl|].
  destruct (X26_overflowing_preset_stops_midway demo_big_selected "big.json"
              [2147483648]%Z 0 2147483648%Z Hn ltac:(discriminate)
              ltac:(discriminate) Hf ltac:(constructor) eq_refl Hv Hl)
    as (Hs & _ & Hsaved & _).
  split; [rewrite Hs|rewrite Hsaved]; vm_compute; reflexivity.
Defined.

(** X27. A preference level that is no C [int] stops [load_user_prefs]:
    when level [k] is the first such level and display [k] exists, the
    sliders before [k] take their bounded levels and their workers are
    started, slider [k] and all later ones keep their values, and the slot
    ends without touching the dropdown or the flag, whether or not a
    preset stores the preferred levels. *)
Theorem X27_overflowing_prefs_stop_midway s p k v :
  prefs_file (fs s) = Some (PrefsObject p) →
  let levels := default [] (brightness_levels p) in
  Forall c_int (take k levels) → levels !! k = Some v → ¬ c_int v →
  k < length (monitor_sliders s) →
  let s' := load_user_prefs s in
  monitor_sliders s' = (bound <$> take k levels) ++ drop k (monitor_sliders s) ∧
  sbc_calls s' =
    sbc_calls s ++ zip_with Build_BrightnessWorker (seq 0 k) (take k levels) ∧
  is_preset_saved s' = is_preset_saved s ∧
  dropdown s' = dropdown s ∧
  fs s' = fs s.
Proof.
  intros Hp levels Hfit Hk Hv Hlt s'. subst s'.
  rewrite (load_user_prefs_aborted s p k v) by done. fold levels.
  destruct (levels_applied_prefix levels k s) as [Hs Hc];
    [by apply Nat.lt_le_incl, (lookup_lt_Some levels k v)|lia|].
  split; [done|]. split; [done|].
  split; [apply levels_applied_saved|].
  split; [apply levels_applied_dropdown|].
  apply quiet_fs, quiet_levels_applied.
Qed.

Lemma X27_overflowing_prefs_stop_midway_witness :
  prefs_file (fs demo_state_overflow) = Some (PrefsObject demo_overflow_prefs) ∧
  Forall c_int (take 1 [5; 2147483648]%Z) ∧
  ¬ c_int 2147483648 ∧
  1 < length (monitor_sliders demo_state_overflow) ∧
  monitor_sliders (load_user_prefs demo_state_overflow) = [5; 80]%Z ∧
  dropdown (load_user_prefs demo_state_overflow) = dropdown demo_state_overflow.
Proof.
  assert (prefs_file (fs demo_state_overflow)
            = Some (PrefsObject demo_overflow_prefs)) as Hp
    by (vm_compute; reflexivity).
  assert (Forall c_int (take 1 [5; 2147483648]%Z)) as Hfit by all_c_int.
  assert (¬ c_int 2147483648) as Hv by (unfold c_int; lia).
  assert (1 < length (monitor_sliders demo_state_overflow)) as Hl
    by (vm_compute; lia).
  split; [exact Hp|]. split; [exact Hfit|]. split; [exact Hv|].
  split; [exact Hl|].
  destruct (X27_overflowing_prefs_stop_midway demo_state_overflow
              demo_overflow_prefs 1 2147483648%Z Hp Hfit eq_refl Hv Hl)
    as (Hs & _ & _ & Hd & _).
  split; [|exact Hd]. rewrite Hs. vm_compute. reflexivity.
Defined.

(** ** Startup and shutdown *)

(** Without sliders, the dropdown's signal can reach no slider and start
    no worker. *)
Lemma apply_selected_preset_no_sliders s :
  monitor_sliders s = [] →
  monitor_sliders (apply_selected_preset s) = [] ∧
  sbc_calls (apply_selected_preset s) = sbc_calls s.
Proof.
  intros Hs. unfold apply_selected_preset. case_decide; [done|].
  destruct (presets_dir (fs s) !! _) as [[vs|]|]; [|done..].
  rewrite apply_levels_returns by (rewrite Hs; simpl; rewrite take_0; constructor).
  simpl.
  rewrite levels_applied_sliders, levels_applied_calls, Hs. simpl.
  by rewrite drop_nil, app_nil_r.
Qed.

Lemma dropdown_update_no_sliders its idx s :
  monitor_sliders s = [] →
  monitor_sliders (dropdown_update its idx s) = [] ∧
  sbc_calls (dropdown_update its idx s) = sbc_calls s.
Proof.
  intros Hs. unfold dropdown_update. case_decide; [done|].
  destruct (signalsBlocked _); [done|].
  exact (apply_selected_preset_no_sliders (set_dropdown _ s) Hs).
Qed.

Lemma load_presets_no_sliders s :
  monitor_sliders s = [] →
  monitor_sliders (load_presets s) = [] ∧
  sbc_calls (load_presets s) = sbc_calls s.
Proof.
  intros Hs.
  assert (∀ l t, monitor_sliders t = [] →
            monitor_sliders (dropdown_addItems l t) = [] ∧
            sbc_calls (dropdown_addItems l t) = sbc_calls t) as Hadd.
  { unfold dropdown_addItems.
    induction l as [|x l IH]; intros t Ht; [done|]. simpl.
    assert (monitor_sliders (dropdown_addItem x t) = [] ∧
            sbc_calls (dropdown_addItem x t) = sbc_calls t) as [Hs1 Hc1].
    { unfold dropdown_addItem.
      destruct (items (dropdown t)); by apply dropdown_update_no_sliders. }
    destruct (IH _ Hs1) as [-> ->]. done. }
  unfold load_presets, dropdown_clear.
  destruct (dropdown_update_no_sliders [] None (set_presets_list [] s) Hs)
    as [Hs1 Hc1].
  set (s2 := dropdown_update [] None (set_presets_list [] s)) in *.
  destruct (Hadd (scan_presets (fs s2))
              (set_presets_list (scan_presets (fs s2)) s2) Hs1) as [H1 H2].
  split; [exact H1|]. etrans; [exact H2|exact Hc1].
Qed.

Lemma load_monitors_quiet_start hw f :
  let s0 := load_monitors (Some hw) (initial f) in
  sbc_calls s0 = [] ∧ timers s0 = [] ∧ brightness_update_timers s0 = ∅.
Proof.
  simpl. destruct (load_presets_no_sliders (initial f) eq_refl) as [_ ->].
  destruct (quiet_timers _ _ (quiet_load_presets (initial f))) as (-> & -> & _).
  done.
Qed.

Lemma startup_without_prefs hw f :
  prefs_file f = None ∨ prefs_file f = Some PrefsMalformed →
  let s := startup hw f in
  monitor_sliders s = bound <$> hw ∧
  sbc_calls s = [] ∧ timers s = [] ∧
  presets_list s = scan_presets f ∧
  items (dropdown s) = scan_presets f.
Proof.
  intros Hp s. subst s. unfold startup.
  destruct (load_monitors_state hw f) as (Hfs & Hl & Hd & Hs).
  destruct (load_monitors_quiet_start hw f) as (Hc & Ht & _).
  unfold load_user_prefs. rewrite Hfs.
  destruct Hp as [-> | ->]; by rewrite Hl, Hd, Hs, Hc, Ht.
Qed.

(** X18. Startup without readable preferences (no preferences file, or
    one that cannot be parsed): every slider shows the hardware-reported
    level of its display, bounded to 0..100; no brightness call is issued
    and no timer exists; the dropdown lists the sorted presets, without
    the sentinel. *)
Theorem X18_startup_without_prefs hw f :
  prefs_file f = None ∨ prefs_file f = Some PrefsMalformed →
  let s := startup hw f in
  monitor_sliders s = bound <$> hw ∧
  sbc_calls s = [] ∧ timers s = [] ∧
  presets_list s = scan_presets f ∧
  items (dropdown s) = scan_presets f.
Proof. apply startup_without_prefs. Qed.

Lemma X18_startup_without_prefs_witness :
  (prefs_file demo_files_bad = None ∨
   prefs_file demo_files_bad = Some PrefsMalformed) ∧
  monitor_sliders (startup [70; 180]%Z demo_files_bad) = [70; 100]%Z ∧
  sbc_calls (startup [70; 180]%Z demo_files_bad) = [].
Proof.
  assert (prefs_file demo_files_bad = None ∨
          prefs_file demo_files_bad = Some PrefsMalformed) as Hp
    by (left; reflexivity).
  split; [exact Hp|].
  destruct (X18_startup_without_prefs [70; 180]%Z demo_files_bad Hp)
    as (Hs & Hc & _).
  split; [|exact Hc]. rewrite Hs. vm_compute. reflexivity.
Defined.

Lemma startup_with_prefs hw f p :
  prefs_file f = Some (PrefsObject p) →
  let levels := default [] (brightness_levels p) in
  Forall c_int (take (length hw) levels) →
  let s := startup hw f in
  monitor_sliders s =
    (bound <$> take (length hw) levels) ++ drop (length levels) (bound <$> hw) ∧
  sbc_calls s = zip_with Build_BrightnessWorker (seq 0 (length hw)) levels.
Proof.
  intros Hp levels Hfit s. subst s. unfold startup.
  destruct (load_monitors_state hw f) as (Hfs & _ & _ & Hs).
  destruct (load_monitors_quiet_start hw f) as (Hc & _).
  set (s0 := load_monitors (Some hw) (initial f)) in *.
  assert (prefs_file (fs s0) = Some (PrefsObject p)) as Hp0 by by rewrite Hfs.
  destruct (load_user_prefs_spec s0 p Hp0) as [-> ->].
  { by rewrite Hs, length_fmap. }
  by rewrite Hs, Hc, length_fmap.
Qed.

(** X19. Levels and window position survive a restart: after a close
    event whose write succeeds, a startup with the same number of displays
    sets every slider to the value it had at the close (whatever the
    hardware reports), starts one worker per display with that value, and
    the window is moved to the position it had at the close.  The slider
    values at the close are within 0..100, as in every reachable state. *)
Theorem X19_levels_and_position_survive_restart screen hw win :
  sliders_in_range (app win) →
  length hw = length (monitor_sliders (app win)) →
  let closed := (closeEvent WriteOk win).1 in
  let s := startup hw (fs (app closed)) in
  monitor_sliders s = monitor_sliders (app win) ∧
  sbc_calls s =
    zip_with Build_BrightnessWorker (seq 0 (length hw)) (monitor_sliders (app win)) ∧
  restore_window_position screen (fs (app closed)) = position win.
Proof.
  intros Hrange Hlen closed s.
  set (p := {| window_position := Some (position win);
               brightness_levels := Some (monitor_sliders (app win)) |}).
  assert (prefs_file (fs (app closed)) = Some (PrefsObject p)) as Hp.
  { subst closed. unfold closeEvent. by destruct (force_exit win). }
  destruct (startup_with_prefs hw (fs (app closed)) p Hp) as [Hs Hc].
  { simpl. by apply Forall_take, Forall_in_range_c_int. }
  simpl in Hs, Hc. fold s in Hs, Hc.
  split; [|split; [done|]].
  - rewrite Hs, Hlen, take_ge, drop_ge by (rewrite ?length_fmap; lia).
    rewrite app_nil_r. by apply bound_fmap_id.
  - unfold restore_window_position. by rewrite Hp.
Qed.

Lemma X19_levels_and_position_survive_restart_witness :
  sliders_in_range (app demo_window) ∧
  length [5; 5]%Z = length (monitor_sliders (app demo_window)) ∧
  monitor_sliders
    (startup [5; 5]%Z (fs (app (closeEvent WriteOk demo_window).1)))
    = [33; 40]%Z ∧
  restore_window_position (1920, 1080)%Z
    (fs (app (closeEvent WriteOk demo_window).1)) = (1500, 810)%Z.
Proof.
  assert (sliders_in_range (app demo_window)) as Hr.
  { vm_compute. repeat constructor; discriminate. }
  assert (length [5; 5]%Z = length (monitor_sliders (app demo_window))) as Hl
    by (vm_compute; reflexivity).
  split; [exact Hr|]. split; [exact Hl|].
  destruct (X19_levels_and_position_survive_restart (1920, 1080)%Z [5; 5]%Z
              demo_window Hr Hl) as (Hs & _ & Hpos).
  split; [|exact Hpos]. rewrite Hs. vm_compute. reflexivity.
Defined.

(** X20. A preferences write that fails midway degrades to the defaults:
    after a close event during which [json.dump] raises, the close still
    completes, and the next startup leaves every slider at the bounded
    hardware-reported level, issues no call, and places the window at the
    bottom right of the screen with margins 20 and 60. *)
Theorem X20_broken_prefs_write_degrades_to_defaults screen hw win :
  let closed := (closeEvent DumpRaises win).1 in
  let s := startup hw (fs (app closed)) in
  (closeEvent DumpRaises win).2 = force_exit win ∧
  monitor_sliders s = bound <$> hw ∧
  sbc_calls s = [] ∧
  restore_window_position screen (fs (app closed)) =
    (screen.1 - 420, screen.2 - 270)%Z.
Proof.
  intros closed s.
  assert (prefs_file (fs (app closed)) = Some PrefsMalformed) as Hp.
  { subst closed. unfold closeEvent. by destruct (force_exit win). }
  destruct (startup_without_prefs hw (fs (app closed)) (or_intror Hp))
    as (Hs & Hc & _).
  split; [unfold closeEvent; by destruct (force_exit win)|].
  split; [done|]. split; [done|].
  unfold restore_window_position, position_bottom_right_with_margin.
  rewrite Hp. unfold window_width, window_height. f_equal; lia.
Qed.

(** X21. Close hides, Exit quits: while [force_exit] is unset a close
    event is ignored and hides the window, whatever becomes of the
    preferences write, and leaves the sliders and the preset files as they
    are; the tray's Show makes the window visible again; after the tray's
    Exit the next close event is accepted. *)
Theorem X21_close_hides_until_exit w w' win :
  force_exit win = false →
  let closed := (closeEvent w win).1 in
  (closeEvent w win).2 = false ∧
  hidden closed = true ∧
  hidden (on_show closed) = false ∧
  monitor_sliders (app closed) = monitor_sliders (app win) ∧
  presets_dir (fs (app closed)) = presets_dir (fs (app win)) ∧
  (closeEvent w' (on_show closed)).2 = false ∧
  (closeEvent w' (on_quit closed)).2 = true.
Proof.
  intros Hf closed. subst closed. unfold closeEvent. rewrite Hf. simpl.
  by destruct w.
Qed.

Lemma X21_close_hides_until_exit_witness :
  force_exit demo_window = false ∧
  (closeEvent OpenRaises demo_window).2 = false ∧
  (closeEvent WriteOk (on_quit (closeEvent OpenRaises demo_window).1)).2 = true.
Proof.
  split; [reflexivity|].
  destruct (X21_close_hides_until_exit OpenRaises WriteOk demo_window eq_refl)
    as (H1 & _ & _ & _ & _ & _ & H2).
  split; [exact H1|exact H2].
Defined.

Lemma move_to_restore_keeps name f :
  elsewhere (move_to_restore name f) = elsewhere f ∧
  prefs_file (move_to_restore name f) = prefs_file f.
Proof. unfold move_to_restore. by destruct (presets_dir f !! name). Qed.

Lemma write_file_prefs p c f :
  prefs_file (write_file p c f) =
    if bool_decide (p = (InAppDataDir, prefs_name)) then Some PrefsMalformed
    else prefs_file f.
Proof.
  destruct p as [d n]. unfold write_file. simpl.
  destruct d; try (by rewrite bool_decide_eq_false_2).
  case_decide as Hn.
  - subst n. by rewrite bool_decide_eq_true_2.
  - rewrite bool_decide_eq_false_2; [done|]. by intros [= ?].
Qed.

Lemma delete_selected_preset_fs (move_ok : bool) s :
  fs (delete_selected_preset move_ok s) = fs s ∨
  fs (delete_selected_preset move_ok s)
    = move_to_restore (currentText (dropdown s)) (fs s).
Proof.
  unfold delete_selected_preset. case_decide; [|by left].
  destruct (presets_dir (fs s) !! _); [|by left].
  rewrite show_unsaved_blocked. simpl.
  rewrite (quiet_fs _ _ (quiet_reset_sliders_to_default _)),
    (quiet_fs _ _ (quiet_load_presets _)).
  destruct move_ok; [by right|by left].
Qed.

(** X22. Which slots write which files.  Applying a preset, reloading the
    list, resetting the sliders, loading the preferences, a slider change,
    picking a dropdown entry, the passing of time and loading the monitors
    leave every file as it is; a delete never touches the preferences or
    the files outside the two preset directories; a preset save leaves the
    preferences as they are unless the file chosen in the dialog is the
    preferences file itself and [open] succeeds: then, whether the slot
    returns or raises, that file no longer holds a preferences object; a
    preferences save never touches a preset file. *)
Theorem X22_which_slots_write_files s :
  fs (apply_selected_preset s) = fs s ∧
  fs (load_presets s) = fs s ∧
  fs (reset_sliders_to_default s) = fs s ∧
  fs (load_user_prefs s) = fs s ∧
  (∀ idx v, fs (monitor_slider_changed idx v s) = fs s) ∧
  (∀ i v, fs (user_moves_slider i v s) = fs s) ∧
  (∀ k, fs (user_picks_preset k s) = fs s) ∧
  (∀ dt, fs (elapse dt s) = fs s) ∧
  (∀ hw, fs (load_monitors hw s) = fs s) ∧
  (∀ move_ok : bool,
     prefs_file (fs (delete_selected_preset move_ok s)) = prefs_file (fs s) ∧
     elsewhere (fs (delete_selected_preset move_ok s)) = elsewhere (fs s)) ∧
  (∀ dialog w,
     prefs_file (fs (returned_state (save_current_preset dialog w s)))
       = if overwrites_prefs dialog w then Some PrefsMalformed
         else prefs_file (fs s)) ∧
  (∀ pos w,
     let s' := returned_state (save_user_prefs pos w s) in
     presets_dir (fs s') = presets_dir (fs s) ∧
     preset_restore_dir (fs s') = preset_restore_dir (fs s) ∧
     elsewhere (fs s') = elsewhere (fs s)).
Proof.
  assert (∀ idx v t, fs (monitor_slider_changed idx v t) = fs t) as Hmsc.
  { intros idx v t. rewrite monitor_slider_changed_unfold. simpl.
    by destruct (is_preset_saved t). }
  split; [apply quiet_fs, quiet_apply_selected_preset|].
  split; [apply quiet_fs, quiet_load_presets|].
  split; [apply quiet_fs, quiet_reset_sliders_to_default|].
  split; [apply quiet_fs, quiet_load_user_prefs|].
  split; [intros idx v; apply Hmsc|].
  split.
  { intros i v. unfold user_moves_slider.
    destruct (monitor_sliders s !! i); [|done]. case_decide; [done|].
    by rewrite Hmsc. }
  split.
  { intros k. unfold user_picks_preset. case_decide; [|done].
    apply quiet_fs, quiet_dropdown_setCurrentIndex. }
  split.
  { intros dt. unfold elapse.
    match goal with |- context [foldl _ ?t0 ?l0] =>
      destruct (run_callbacks_spec l0 t0) as (Hb & _) end.
    unfold backstage in Hb. simpl in Hb. by injection Hb. }
  split.
  { intros [hw|]; [|done]. simpl. apply quiet_fs, quiet_load_presets. }
  split.
  { intros move_ok.
    destruct (delete_selected_preset_fs move_ok s) as [-> | ->]; [done|].
    destruct (move_to_restore_keeps (currentText (dropdown s)) (fs s)) as [-> ->].
    done. }
  split.
  { intros [p|] w; [|done]. destruct w.
    - destruct (save_current_preset (Some p) WriteOk s) as [s1|s1] eqn:E.
      + simpl. rewrite (save_current_preset_fs p s s1 E).
        apply write_file_prefs.
      + by rewrite save_current_preset_unfold in E.
    - done.
    - simpl. apply write_file_prefs. }
  intros pos w. by destruct w.
Qed.

Lemma remove_first_Permutation w (l : list BrightnessWorker) :
  w ∈ l → l ≡ₚ w :: remove_first w l.
Proof.
  induction l as [|x l IH]; [by intros ?%elem_of_nil|].
  simpl. case_decide as Hx; [by subst|].
  intros [?|Hin]%elem_of_cons; [congruence|].
  rewrite (IH Hin) at 1. apply Permutation_swap.
Qed.

(** X23. A worker that is started and whose completion then reaches
    [cleanup_thread] leaves the workers in flight as they were before it
    was started (as a collection: the same workers, each as often), and
    the call it issued stays on record. *)
Theorem X23_started_then_cleaned_up idx v s :
  let w := {| monitor_index := idx; value := v |} in
  let s' := cleanup_thread w (set_brightness idx v s) in
  brightness_threads s' ≡ₚ brightness_threads s ∧
  sbc_calls s' = sbc_calls s ++ [w] ∧
  monitor_sliders s' = monitor_sliders s.
Proof.
  intros w s'. split; [|done]. subst s'. simpl.
  apply (Permutation_cons_inv (a := w)).
  rewrite <- remove_first_Permutation.
  - by rewrite Permutation_app_comm.
  - apply elem_of_app. right. apply elem_of_cons. by left.
Qed.

(** ** Two more invariants *)

Lemma timers_fresh_same s s' :
  timers s' = timers s → now s' = now s →
  timers_fresh s → timers_fresh s'.
Proof. intros Ht Hn Hs. unfold timers_fresh. by rewrite Ht, Hn. Qed.

Lemma timers_fresh_quiet s s' : quiet s s' → timers_fresh s → timers_fresh s'.
Proof.
  intros Hq. destruct (quiet_timers _ _ Hq) as (Ht & _ & Hn).
  by apply timers_fresh_same.
Qed.

Lemma monitor_slider_changed_fresh idx v s :
  timers_fresh s → timers_fresh (monitor_slider_changed idx v s).
Proof.
  intros Hs k t. rewrite monitor_slider_changed_unfold.
  set (s1 := if is_preset_saved s then _ else s).
  assert (timers s1 = timers s ∧ now s1 = now s) as [Ht Hn]
    by (subst s1; by destruct (is_preset_saved s)).
  unfold start_timer. simpl. rewrite Ht, Hn.
  set (stopped := match brightness_update_timers s1 !! idx with
                  | Some k0 => alter stop k0 (timers s)
                  | None => timers s
                  end).
  intros Hk Hact.
  destruct (decide (k < length stopped)) as [Hlt|Hge].
  - rewrite lookup_app_l in Hk by done.
    assert (timers s !! k = Some t) as Hk'.
    { subst stopped. destruct (brightness_update_timers s1 !! idx) as [k0|];
        [|done].
      destruct (decide (k0 = k)) as [->|Hne].
      - rewrite list_lookup_alter_eq in Hk.
        destruct (timers s !! k); simplify_eq/=.
      - by rewrite list_lookup_alter_ne in Hk. }
    by apply (Hs k t).
  - rewrite lookup_app_r in Hk by lia.
    destruct (k - length stopped) as [|n]; [|by destruct n].
    injection Hk as <-. simpl. lia.
Qed.

Lemma elapse_fresh dt s : timers_fresh s → timers_fresh (elapse dt s).
Proof.
  intros Hs k t. destruct (elapse_timers dt s) as (-> & _ & ->).
  rewrite list_lookup_fmap. intros Hk Hact.
  destruct (timers s !! k) as [t0|] eqn:E; [|done].
  simpl in Hk. injection Hk as <-. unfold fire in Hact |- *.
  case_decide as Hdue; [done|]. destruct (Hs k t0 E Hact) as [Hlo Hhi].
  split; [|lia]. destruct (decide (now s + dt < t_deadline t0)); [done|].
  destruct Hdue. split; [done|lia].
Qed.

Lemma reachable_timers_fresh s : reachable s → timers_fresh s.
Proof.
  induction 1 as [hw f|s _ IH|i v s _ IH|k s _ IH|move_ok s _ IH
                 |dialog w s s' _ IH Hsave|pos w s s' _ IH Hsave
                 |dt s _ IH|w s _ IH|f s _ IH|i v s _ IH].
  - intros k t. destruct (load_monitors_quiet_start hw f) as (_ & -> & _).
    by rewrite lookup_nil.
  - apply (timers_fresh_quiet s); [apply quiet_load_user_prefs|done].
  - unfold user_moves_slider. destruct (monitor_sliders s !! i); [|done].
    case_decide; [done|]. by apply monitor_slider_changed_fresh.
  - unfold user_picks_preset. case_decide; [|done].
    apply (timers_fresh_quiet s); [apply quiet_dropdown_setCurrentIndex|done].
  - destruct (delete_selected_preset_timers move_ok s) as (Ht & _ & Hn).
    by apply (timers_fresh_same s).
  - destruct (save_current_preset_timers dialog w s) as (Ht & _ & Hn).
    rewrite Hsave in Ht, Hn. by apply (timers_fresh_same s).
  - unfold save_user_prefs in Hsave. by destruct w; injection Hsave as <-.
  - by apply elapse_fresh.
  - done.
  - done.
  - done.
Qed.

(** X24. No brightness update stays pending for more than the debounce
    window: in every reachable state each active timer is due within the
    next 50 ms and is not overdue, so once 50 ms or more pass no display
    has an active timer left. *)
Theorem X24_nothing_pending_after_window dt idx s :
  reachable s →
  (∀ t, t ∈ active_timers_for idx s → now s < t_deadline t ≤ now s + 50) ∧
  (50 ≤ dt → active_timers_for idx (elapse dt s) = []).
Proof.
  intros Hr. pose proof (reachable_timers_fresh s Hr) as Hfresh. split.
  - intros t [[_ Ha] [k Hk]%list_elem_of_lookup_1]%list_elem_of_filter.
    by apply (Hfresh k t).
  - intros Hdt. unfold active_timers_for.
    destruct (elapse_timers dt s) as (-> & _).
    apply filter_none, Forall_lookup. intros k t.
    rewrite list_lookup_fmap. intros Hk [_ Ha].
    destruct (timers s !! k) as [t0|] eqn:E; [|done].
    simpl in Hk. injection Hk as <-. unfold fire in Ha.
    case_decide as Hdue; [done|]. destruct (Hfresh k t0 E Ha) as [_ Hhi].
    apply Hdue. split; [done|lia].
Qed.

Lemma X24_nothing_pending_after_window_witness :
  reachable (user_moves_slider 0 30%Z demo_state) ∧
  active_timers_for 0 (elapse 50 (user_moves_slider 0 30%Z demo_state)) = [].
Proof.
  assert (reachable (user_moves_slider 0 30%Z demo_state)) as Hr.
  { apply reach_slider, demo_state_reachable. }
  split; [exact Hr|].
  apply (X24_nothing_pending_after_window 50 0 _ Hr). lia.
Defined.

Lemma dropdown_update_unsaved its idx s :
  is_preset_saved (dropdown_update its idx s) = false →
  is_preset_saved s = false.
Proof.
  intros Hf. destruct (is_preset_saved s) eqn:E; [|done].
  by rewrite (dropdown_update_keeps_saved its idx s E) in Hf.
Qed.

Lemma reachable_sentinel_when_unsaved s :
  reachable s → sentinel_when_unsaved s.
Proof.
  induction 1 as [hw f|s _ IH|i v s _ IH|k s _ IH|move_ok s _ IH
                 |dialog w s s' _ IH Hsave|pos w s s' _ IH Hsave
                 |dt s _ IH|w s _ IH|f s _ IH|i v s _ IH];
    unfold sentinel_when_unsaved in *.
  - simpl. by rewrite (load_presets_keeps_saved (initial f) eq_refl).
  - unfold load_user_prefs.
    destruct (prefs_file (fs s)) as [[p|]|]; [|done..].
    set (levels := default [] (brightness_levels p)).
    destruct (apply_levels_frame 0 levels s) as (_ & Hd & Hl & Hsaved).
    destruct (apply_levels 0 levels s) as [s1|s1]; simpl in Hd, Hl, Hsaved.
    + destruct (find_matching_preset _ _ _) as [m|]; [case_decide|];
        try done; intros _; by rewrite show_unsaved_when_blocked.
    + rewrite Hd, Hl, Hsaved. apply IH.
  - unfold user_moves_slider. destruct (monitor_sliders s !! i); [|done].
    case_decide; [done|]. rewrite monitor_slider_changed_unfold. simpl.
    destruct (is_preset_saved s) eqn:E; simpl; [done|].
    rewrite E. intros _. by apply IH.
  - unfold user_picks_preset. case_decide; [|done].
    unfold dropdown_setCurrentIndex.
    rewrite dropdown_update_dropdown, dropdown_update_presets_list. simpl.
    intros Hf%dropdown_update_unsaved. by apply IH.
  - destruct (decide (currentText (dropdown s) ≠ EmptyString ∧
                      currentText (dropdown s) ≠ UnsavedPreset)) as [[Hne Hns]|Hskip].
    + destruct (presets_dir (fs s) !! currentText (dropdown s)) as [c|] eqn:Hc.
      * by rewrite (delete_selected_preset_unfold move_ok s c).
      * by rewrite (delete_selected_preset_skip move_ok s) by auto.
    + unfold delete_selected_preset. by rewrite decide_False.
  - destruct dialog as [p|]; [|by injection Hsave as <-].
    destruct w; [|done..]. rewrite save_current_preset_unfold in Hsave.
    injection Hsave as <-. simpl.
    by rewrite (load_presets_keeps_saved
                  (set_is_preset_saved true (set_fs _ s)) eq_refl).
  - unfold save_user_prefs in Hsave. by destruct w; injection Hsave as <-.
  - unfold elapse.
    match goal with |- context [foldl _ ?t0 ?l0] =>
      destruct (run_callbacks_spec l0 t0) as (_ & _ & -> & -> & -> & _) end.
    done.
  - done.
  - done.
  - done.
Qed.

(** X25. Whenever the saved flag is cleared in a reachable state, the
    dropdown is the sentinel followed by the known presets. *)
Theorem X25_unsaved_state_lists_sentinel s :
  reachable s → is_preset_saved s = false →
  items (dropdown s) = UnsavedPreset :: presets_list s.
Proof. intros Hr. apply (reachable_sentinel_when_unsaved s Hr). Qed.

Lemma X25_unsaved_state_lists_sentinel_witness :
  reachable demo_edited ∧ is_preset_saved demo_edited = false ∧
  items (dropdown demo_edited) = UnsavedPreset :: presets_list demo_edited.
Proof.
  assert (reachable demo_edited) as Hr.
  { apply reach_slider, demo_state_reachable. }
  assert (is_preset_saved demo_edited = false) as Hf by (vm_compute; reflexivity).
  split; [exact Hr|]. split; [exact Hf|].
  apply (X25_unsaved_state_lists_sentinel demo_edited Hr Hf).
Defined.
